(** * go-awsbilling: the time-indexed line-item store of [cmd/main.go]

    A shallow embedding of the cost-and-usage report reader: the record
    decoder ([NewLineItem], [NewBill]), the store ([Report.AddLineItem]),
    the range query ([Report.FilterByTime]) and the aggregation
    ([Report.GroupBy]), together with the earlier revision of the same
    file, which kept an [Identity] index ([Identity.AddLineItemID]).

    Conventions of the embedding.
    - [time.Time] is an instant, a [Z].  Every time of the program comes
      from [time.Parse] with the layout [2006-01-02T15:04:05Z], which yields
      UTC values without a monotonic reading, so Go's [==] on the map keys
      and [Time.Equal] agree, and [t.After(u)] is [u < t].
    - [float64] is Rocq's primitive binary64 [float]; [uint64] is an [N].
    - A method with a receiver runs in a small monad over the receiver's
      state and the lines written to the process logger; a run-time panic
      (index out of range, nil dereference) ends the run with [None].
    - A Go function returning [(T, error)] returns a [result]; the library
      parsers, which return a value next to their error, return a pair.

    The file has three parts: the embedding of the source, the vocabulary
    of the statements (the effect of each method as a function of the
    store, the invariants, the composite key as the specification words
    it), and the properties, which end with the statements C1 to C10. *)

From Stdlib Require Import ZArith NArith String Ascii List Floats Lia DecimalString.
From stdpp Require Import gmap strings list fin_maps pretty sorting.

Local Open Scope Z_scope.

(** ** Go values *)

(** [time.Time]: the instant, and [time.Time{}], the zero value that
    [append] writes before the shift of [AddLineItem]. *)
Abbreviation Time := Z (only parsing).

Definition zeroTime : Time := 0.

(** [t.After(u)] *)
Definition After (t u : Time) : bool := u <? t.

(** [(T, error)] results; the error is its message. *)
Inductive result (A : Type) : Type :=
| Ok (a : A)
| Err (msg : string).
Arguments Ok {A} a.
Arguments Err {A} msg.

Definition isOk {A} (r : result A) : bool :=
  match r with Ok _ => true | Err _ => false end.

(** The newline that ends the logger's format strings. *)
Definition nl : string := String (ascii_of_nat 10) "".

(** [strconv.FormatUint(n, 10)] *)
Definition FormatUint (n : N) : string := pretty n.

(** [fmt]'s rendering of a [uint64] under the verb [%s]: the verb does not
    apply to integers and [fmt] prints the bad-verb form. *)
Definition fmt_s_uint64 (n : N) : string := "%!s(uint64=" +:+ pretty n +:+ ")".

(** [strings.Join(parts, sep)] *)
Definition Join (parts : list string) (sep : string) : string :=
  String.concat sep parts.

(** [strings.Split(s, sep)] for a one-byte separator: the pieces between
    the separators, one piece (the whole string) when there is none. *)
Fixpoint Split (s : string) (sep : ascii) : list string :=
  match s with
  | EmptyString => [""]
  | String c rest =>
      if Ascii.eqb c sep then "" :: Split rest sep
      else match Split rest sep with
           | piece :: pieces => String c piece :: pieces
           | [] => [String c ""]
           end
  end.

(** ** Go slices
    Index reads and writes panic out of range; [copy(a[d:], a[s:])] moves
    [min(len(a)-d, len(a)-s)] elements inside the one backing array, as
    [memmove] does, and the slice expressions panic beyond the length. *)
Section Slices.
Context {A : Type}.

Definition slice_set (a : list A) (i : nat) (x : A) : option (list A) :=
  if decide (i < length a)%nat then Some (<[i := x]> a) else None.

Definition slice_copy (a : list A) (d s : nat) : option (list A) :=
  if decide (d ≤ length a ∧ s ≤ length a)%nat then
    let n := Nat.min (length a - d) (length a - s) in
    Some (take d a ++ take n (drop s a) ++ drop (d + n) a)
  else None.
End Slices.

(** ** The method monad: receiver state, logger output, panics *)

Record World (S : Type) : Type := mkWorld {
  store : S;                (* the receiver *)
  logged : list string      (* lines written to [logger], oldest first *)
}.
Arguments mkWorld {S} store logged.
Arguments store {S} w.
Arguments logged {S} w.

Definition M (S A : Type) : Type := World S → option A * World S.

Definition ret {S A} (a : A) : M S A := λ w, (Some a, w).

Definition bind {S A B} (m : M S A) (k : A → M S B) : M S B :=
  λ w, match m w with
       | (Some a, w') => k a w'
       | (None, w') => (None, w')
       end.

Declare Scope go_scope.
Delimit Scope go_scope with go.
Notation "x <- m ;; k" := (bind m (λ x, k))
  (at level 100, m at next level, right associativity) : go_scope.
Notation "m ;;; k" := (bind m (λ _, k))
  (at level 100, right associativity) : go_scope.
Local Open Scope go_scope.

Definition panic {S A} : M S A := λ w, (None, w).

(** read a field of the receiver *)
Definition gets {S A} (f : S → A) : M S A := λ w, (Some (f (store w)), w).

(** assign to the receiver *)
Definition modify {S} (f : S → S) : M S () :=
  λ w, (Some (), mkWorld (f (store w)) (logged w)).

(** [logger.Printf]: the formatted message, without the date and file
    prefix that the logger puts before it. *)
Definition Printf {S} (msg : string) : M S () :=
  λ w, (Some (), mkWorld (store w) (logged w ++ [msg])).

(** a partial slice operation, panicking where it is undefined *)
Definition orPanic {S A} (o : option A) : M S A :=
  match o with Some a => ret a | None => panic end.

(** [a[i]] *)
Definition index {S A} (a : list A) (i : nat) : M S A := orPanic (a !! i).

(** ** Data model of the current revision *)

Record Bill : Type := mkBill {
  BillingEntity : string;
  BillType : string;
  InvoiceID : string;
  PayerAccountID : N;
  BillingPeriodEndDate : Time;
  BillingPeriodStartDate : Time
}.

(** [LineItem]; the field [Bill *Bill] is [BillPtr], [None] for nil. *)
Record LineItem : Type := mkLineItem {
  UID : N;
  Start : Time;
  End : Time;
  AvailabilityZone : string;
  BlendedCost : float;
  BlendedRate : float;
  CurrencyCode : string;
  LegalEntity : string;
  LineItemDescription : string;
  LineItemType : string;
  NormalizationFactor : float;
  Operation : string;
  ProductCode : string;
  ResourceID : string;
  TaxType : string;
  UnblendedCost : float;
  UnblendedRate : float;
  UsageAccountID : string;
  UsageAmount : Z;
  UsageEndDate : Time;
  UsageStartDate : Time;
  UsageType : string;
  BillPtr : option Bill
}.

(** [Report]: start timestamps to the items starting there, and the sorted
    start timestamps. *)
Record Report : Type := mkReport {
  LineItems : gmap Z (list LineItem);
  TimePts : list Time
}.

(** [&Report{LineItems: make(map[time.Time][]*LineItem)}] *)
Definition emptyReport : Report := mkReport ∅ [].

(** ** Report.AddLineItem *)

(** [for _, lid := range lids]: the duplicate scan; [true] when the method
    returned from inside the loop. *)
Fixpoint AddLineItem_scan (lids : list LineItem) (l : LineItem) : M Report bool :=
  match lids with
  | [] => ret false
  | lid :: rest =>
      if (UID lid =? UID l)%N then
        Printf ("LineItemID, " +:+ fmt_s_uint64 (UID l)
                +:+ ", already exists in Identity" +:+ nl);;;
        ret true
      else AddLineItem_scan rest l
  end.

(** [for j := len(r.TimePts) - 1; j >= 0; j--], entered with [n = j + 1];
    [true] when the method returned from inside the loop. *)
Fixpoint AddLineItem_place (n : nat) (l : LineItem) : M Report bool :=
  match n with
  | O => ret false
  | S j =>
      ts <- gets TimePts;;
      tj <- index ts j;;
      if After (Start l) tj then
        if decide (j = length ts - 1)%nat then
          (* timestamp is after latest timestamp *)
          modify (λ r, mkReport (LineItems r) (TimePts r ++ [Start l]));;;
          ret true
        else
          (* timestamp is somewhere in between *)
          modify (λ r, mkReport (LineItems r) (TimePts r ++ [zeroTime]));;;
          ts1 <- gets TimePts;;
          ts2 <- orPanic (slice_copy ts1 (j + 2) (j + 1));;
          ts3 <- orPanic (slice_set ts2 (j + 1) (Start l));;
          modify (λ r, mkReport (LineItems r) ts3);;;
          ret true
      else AddLineItem_place j l
  end.

Definition AddLineItem (l : LineItem) : M Report () :=
  m <- gets LineItems;;
  match m !! Start l with
  | Some lids =>
      returned <- AddLineItem_scan lids l;;
      if returned : bool then ret ()
      else
        modify (λ r, mkReport
                  (<[Start l := default [] (LineItems r !! Start l) ++ [l]]>
                     (LineItems r))
                  (TimePts r))
  | None =>
      modify (λ r, mkReport (<[Start l := [l]]> (LineItems r)) (TimePts r));;;
      (* linearly scan to find where to put timepoint in sorted order *)
      ts <- gets TimePts;;
      returned <- AddLineItem_place (length ts) l;;
      if returned : bool then ret ()
      else
        (* timepoint is earlier than all timepoints *)
        modify (λ r, mkReport (LineItems r) (TimePts r ++ [zeroTime]));;;
        ts1 <- gets TimePts;;
        ts2 <- orPanic (slice_copy ts1 1 0);;
        ts3 <- orPanic (slice_set ts2 0 (Start l));;
        modify (λ r, mkReport (LineItems r) ts3)
  end.

(** ** Report.FilterByTime *)

(** [for i, itemStart := range r.TimePts]: the index of the first start
    after [e], or [endIdx] (the length) when the loop runs to its end. *)
Fixpoint FilterByTime_end (rest : list Time) (i : nat) (e : Time) (endIdx : nat) : nat :=
  match rest with
  | [] => endIdx
  | itemStart :: rest' =>
      if After itemStart e then i else FilterByTime_end rest' (S i) e endIdx
  end.

(** [for _, item := range items]: the items of one bucket that end after
    [s], appended to [l]. *)
Fixpoint FilterByTime_keep (items : list LineItem) (s : Time) (l : list LineItem) : list LineItem :=
  match items with
  | [] => l
  | item :: rest =>
      if After (End item) s then FilterByTime_keep rest s (l ++ [item])
      else FilterByTime_keep rest s l
  end.

(** [for i := 0; i < endIdx; i++], with [n = endIdx - i] rounds to go. *)
Fixpoint FilterByTime_walk (n i : nat) (s : Time) (l : list LineItem) : M Report (list LineItem) :=
  match n with
  | O => ret l
  | S n' =>
      ts <- gets TimePts;;
      k <- index ts i;;
      m <- gets LineItems;;
      let items := default [] (m !! k) in
      FilterByTime_walk n' (S i) s (FilterByTime_keep items s l)
  end.

Definition FilterByTime (s e : Time) : M Report (list LineItem) :=
  ts <- gets TimePts;;
  let endIdx := FilterByTime_end ts 0 e (length ts) in
  FilterByTime_walk endIdx 0 s [].

(** ** Report.GroupBy *)

(** One round of [for _, field := range fields]: the [switch]. *)
Definition GroupBy_field (item : LineItem) (keyParts : list string) (field : string) : M Report (list string) :=
  if String.eqb field "lineItem/LineItemType" then ret (keyParts ++ [LineItemType item])
  else if String.eqb field "lineItem/Operation" then ret (keyParts ++ [Operation item])
  else if String.eqb field "lineItem/ProductCode" then ret (keyParts ++ [ProductCode item])
  else if String.eqb field "lineItem/ResourceId" then ret (keyParts ++ [ResourceID item])
  else if String.eqb field "lineItem/TaxType" then ret (keyParts ++ [TaxType item])
  else if String.eqb field "lineItem/UsageAccountId" then ret (keyParts ++ [UsageAccountID item])
  else if String.eqb field "lineItem/UsageType" then ret (keyParts ++ [UsageType item])
  else if String.eqb field "bill/PayerAccountId" then
    match BillPtr item with
    | Some b => ret (keyParts ++ [FormatUint (PayerAccountID b)])
    | None => panic
    end
  else
    Printf ("Unsupported field to group by, " +:+ field +:+ nl);;;
    ret keyParts.

Fixpoint GroupBy_keyParts (fields : list string) (item : LineItem) (keyParts : list string) : M Report (list string) :=
  match fields with
  | [] => ret keyParts
  | field :: rest =>
      keyParts' <- GroupBy_field item keyParts field;;
      GroupBy_keyParts rest item keyParts'
  end.

(** [res[key] += c], the missing key reading as zero. *)
Definition addTo (res : gmap string float) (key : string) (c : float) : gmap string float :=
  <[key := (default 0 (res !! key) + c)%float]> res.

(** [for _, item := range items] *)
Fixpoint GroupBy_items (items : list LineItem) (fields : list string) (res : gmap string float) : M Report (gmap string float) :=
  match items with
  | [] => ret res
  | item :: rest =>
      keyParts <- GroupBy_keyParts fields item [];;
      let key := Join keyParts "_" in
      if (0 <? UnblendedCost item)%float then
        GroupBy_items rest fields (addTo res key (UnblendedCost item))
      else GroupBy_items rest fields res
  end.

Definition GroupBy (fields : list string) (s e : Time) : M Report (gmap string float) :=
  items <- FilterByTime s e;;
  GroupBy_items items fields ∅.

(** ** The record decoder *)

(** [new(Bill)] and [new(LineItem)]: every field at its zero value. *)
Definition zeroBill : Bill := mkBill "" "" "" 0%N zeroTime zeroTime.

Definition zeroLineItem : LineItem :=
  mkLineItem 0%N zeroTime zeroTime "" 0%float 0%float "" "" "" "" 0%float
    "" "" "" "" 0%float 0%float "" 0 zeroTime zeroTime "" None.

(** Field assignments, [b.F = v] and [l.F = v]. *)
Definition set_BillingEntity (v : string) (b : Bill) : Bill :=
  mkBill v (BillType b) (InvoiceID b) (PayerAccountID b)
    (BillingPeriodEndDate b) (BillingPeriodStartDate b).

Definition set_BillType (v : string) (b : Bill) : Bill :=
  mkBill (BillingEntity b) v (InvoiceID b) (PayerAccountID b)
    (BillingPeriodEndDate b) (BillingPeriodStartDate b).

Definition set_InvoiceID (v : string) (b : Bill) : Bill :=
  mkBill (BillingEntity b) (BillType b) v (PayerAccountID b)
    (BillingPeriodEndDate b) (BillingPeriodStartDate b).

Definition set_PayerAccountID (v : N) (b : Bill) : Bill :=
  mkBill (BillingEntity b) (BillType b) (InvoiceID b) v (BillingPeriodEndDate
    b) (BillingPeriodStartDate b).

Definition set_BillingPeriodEndDate (v : Time) (b : Bill) : Bill :=
  mkBill (BillingEntity b) (BillType b) (InvoiceID b) (PayerAccountID b) v
    (BillingPeriodStartDate b).

Definition set_BillingPeriodStartDate (v : Time) (b : Bill) : Bill :=
  mkBill (BillingEntity b) (BillType b) (InvoiceID b) (PayerAccountID b)
    (BillingPeriodEndDate b) v.

Definition set_UID (v : N) (l : LineItem) : LineItem :=
  mkLineItem v (Start l) (End l) (AvailabilityZone l) (BlendedCost l)
    (BlendedRate l) (CurrencyCode l) (LegalEntity l) (LineItemDescription l)
    (LineItemType l) (NormalizationFactor l) (Operation l) (ProductCode l)
    (ResourceID l) (TaxType l) (UnblendedCost l) (UnblendedRate l)
    (UsageAccountID l) (UsageAmount l) (UsageEndDate l) (UsageStartDate l)
    (UsageType l) (BillPtr l).

Definition set_Start (v : Time) (l : LineItem) : LineItem :=
  mkLineItem (UID l) v (End l) (AvailabilityZone l) (BlendedCost l)
    (BlendedRate l) (CurrencyCode l) (LegalEntity l) (LineItemDescription l)
    (LineItemType l) (NormalizationFactor l) (Operation l) (ProductCode l)
    (ResourceID l) (TaxType l) (UnblendedCost l) (UnblendedRate l)
    (UsageAccountID l) (UsageAmount l) (UsageEndDate l) (UsageStartDate l)
    (UsageType l) (BillPtr l).

Definition set_End (v : Time) (l : LineItem) : LineItem :=
  mkLineItem (UID l) (Start l) v (AvailabilityZone l) (BlendedCost l)
    (BlendedRate l) (CurrencyCode l) (LegalEntity l) (LineItemDescription l)
    (LineItemType l) (NormalizationFactor l) (Operation l) (ProductCode l)
    (ResourceID l) (TaxType l) (UnblendedCost l) (UnblendedRate l)
    (UsageAccountID l) (UsageAmount l) (UsageEndDate l) (UsageStartDate l)
    (UsageType l) (BillPtr l).

Definition set_AvailabilityZone (v : string) (l : LineItem) : LineItem :=
  mkLineItem (UID l) (Start l) (End l) v (BlendedCost l) (BlendedRate l)
    (CurrencyCode l) (LegalEntity l) (LineItemDescription l) (LineItemType l)
    (NormalizationFactor l) (Operation l) (ProductCode l) (ResourceID l)
    (TaxType l) (UnblendedCost l) (UnblendedRate l) (UsageAccountID l)
    (UsageAmount l) (UsageEndDate l) (UsageStartDate l) (UsageType l)
    (BillPtr l).

Definition set_BlendedCost (v : float) (l : LineItem) : LineItem :=
  mkLineItem (UID l) (Start l) (End l) (AvailabilityZone l) v (BlendedRate l)
    (CurrencyCode l) (LegalEntity l) (LineItemDescription l) (LineItemType l)
    (NormalizationFactor l) (Operation l) (ProductCode l) (ResourceID l)
    (TaxType l) (UnblendedCost l) (UnblendedRate l) (UsageAccountID l)
    (UsageAmount l) (UsageEndDate l) (UsageStartDate l) (UsageType l)
    (BillPtr l).

Definition set_BlendedRate (v : float) (l : LineItem) : LineItem :=
  mkLineItem (UID l) (Start l) (End l) (AvailabilityZone l) (BlendedCost l) v
    (CurrencyCode l) (LegalEntity l) (LineItemDescription l) (LineItemType l)
    (NormalizationFactor l) (Operation l) (ProductCode l) (ResourceID l)
    (TaxType l) (UnblendedCost l) (UnblendedRate l) (UsageAccountID l)
    (UsageAmount l) (UsageEndDate l) (UsageStartDate l) (UsageType l)
    (BillPtr l).

Definition set_CurrencyCode (v : string) (l : LineItem) : LineItem :=
  mkLineItem (UID l) (Start l) (End l) (AvailabilityZone l) (BlendedCost l)
    (BlendedRate l) v (LegalEntity l) (LineItemDescription l) (LineItemType
    l) (NormalizationFactor l) (Operation l) (ProductCode l) (ResourceID l)
    (TaxType l) (UnblendedCost l) (UnblendedRate l) (UsageAccountID l)
    (UsageAmount l) (UsageEndDate l) (UsageStartDate l) (UsageType l)
    (BillPtr l).

Definition set_LegalEntity (v : string) (l : LineItem) : LineItem :=
  mkLineItem (UID l) (Start l) (End l) (AvailabilityZone l) (BlendedCost l)
    (BlendedRate l) (CurrencyCode l) v (LineItemDescription l) (LineItemType
    l) (NormalizationFactor l) (Operation l) (ProductCode l) (ResourceID l)
    (TaxType l) (UnblendedCost l) (UnblendedRate l) (UsageAccountID l)
    (UsageAmount l) (UsageEndDate l) (UsageStartDate l) (UsageType l)
    (BillPtr l).

Definition set_LineItemDescription (v : string) (l : LineItem) : LineItem :=
  mkLineItem (UID l) (Start l) (End l) (AvailabilityZone l) (BlendedCost l)
    (BlendedRate l) (CurrencyCode l) (LegalEntity l) v (LineItemType l)
    (NormalizationFactor l) (Operation l) (ProductCode l) (ResourceID l)
    (TaxType l) (UnblendedCost l) (UnblendedRate l) (UsageAccountID l)
    (UsageAmount l) (UsageEndDate l) (UsageStartDate l) (UsageType l)
    (BillPtr l).

Definition set_LineItemType (v : string) (l : LineItem) : LineItem :=
  mkLineItem (UID l) (Start l) (End l) (AvailabilityZone l) (BlendedCost l)
    (BlendedRate l) (CurrencyCode l) (LegalEntity l) (LineItemDescription l)
    v (NormalizationFactor l) (Operation l) (ProductCode l) (ResourceID l)
    (TaxType l) (UnblendedCost l) (UnblendedRate l) (UsageAccountID l)
    (UsageAmount l) (UsageEndDate l) (UsageStartDate l) (UsageType l)
    (BillPtr l).

Definition set_NormalizationFactor (v : float) (l : LineItem) : LineItem :=
  mkLineItem (UID l) (Start l) (End l) (AvailabilityZone l) (BlendedCost l)
    (BlendedRate l) (CurrencyCode l) (LegalEntity l) (LineItemDescription l)
    (LineItemType l) v (Operation l) (ProductCode l) (ResourceID l) (TaxType
    l) (UnblendedCost l) (UnblendedRate l) (UsageAccountID l) (UsageAmount l)
    (UsageEndDate l) (UsageStartDate l) (UsageType l) (BillPtr l).

Definition set_Operation (v : string) (l : LineItem) : LineItem :=
  mkLineItem (UID l) (Start l) (End l) (AvailabilityZone l) (BlendedCost l)
    (BlendedRate l) (CurrencyCode l) (LegalEntity l) (LineItemDescription l)
    (LineItemType l) (NormalizationFactor l) v (ProductCode l) (ResourceID l)
    (TaxType l) (UnblendedCost l) (UnblendedRate l) (UsageAccountID l)
    (UsageAmount l) (UsageEndDate l) (UsageStartDate l) (UsageType l)
    (BillPtr l).

Definition set_ProductCode (v : string) (l : LineItem) : LineItem :=
  mkLineItem (UID l) (Start l) (End l) (AvailabilityZone l) (BlendedCost l)
    (BlendedRate l) (CurrencyCode l) (LegalEntity l) (LineItemDescription l)
    (LineItemType l) (NormalizationFactor l) (Operation l) v (ResourceID l)
    (TaxType l) (UnblendedCost l) (UnblendedRate l) (UsageAccountID l)
    (UsageAmount l) (UsageEndDate l) (UsageStartDate l) (UsageType l)
    (BillPtr l).

Definition set_ResourceID (v : string) (l : LineItem) : LineItem :=
  mkLineItem (UID l) (Start l) (End l) (AvailabilityZone l) (BlendedCost l)
    (BlendedRate l) (CurrencyCode l) (LegalEntity l) (LineItemDescription l)
    (LineItemType l) (NormalizationFactor l) (Operation l) (ProductCode l) v
    (TaxType l) (UnblendedCost l) (UnblendedRate l) (UsageAccountID l)
    (UsageAmount l) (UsageEndDate l) (UsageStartDate l) (UsageType l)
    (BillPtr l).

Definition set_TaxType (v : string) (l : LineItem) : LineItem :=
  mkLineItem (UID l) (Start l) (End l) (AvailabilityZone l) (BlendedCost l)
    (BlendedRate l) (CurrencyCode l) (LegalEntity l) (LineItemDescription l)
    (LineItemType l) (NormalizationFactor l) (Operation l) (ProductCode l)
    (ResourceID l) v (UnblendedCost l) (UnblendedRate l) (UsageAccountID l)
    (UsageAmount l) (UsageEndDate l) (UsageStartDate l) (UsageType l)
    (BillPtr l).

Definition set_UnblendedCost (v : float) (l : LineItem) : LineItem :=
  mkLineItem (UID l) (Start l) (End l) (AvailabilityZone l) (BlendedCost l)
    (BlendedRate l) (CurrencyCode l) (LegalEntity l) (LineItemDescription l)
    (LineItemType l) (NormalizationFactor l) (Operation l) (ProductCode l)
    (ResourceID l) (TaxType l) v (UnblendedRate l) (UsageAccountID l)
    (UsageAmount l) (UsageEndDate l) (UsageStartDate l) (UsageType l)
    (BillPtr l).

Definition set_UnblendedRate (v : float) (l : LineItem) : LineItem :=
  mkLineItem (UID l) (Start l) (End l) (AvailabilityZone l) (BlendedCost l)
    (BlendedRate l) (CurrencyCode l) (LegalEntity l) (LineItemDescription l)
    (LineItemType l) (NormalizationFactor l) (Operation l) (ProductCode l)
    (ResourceID l) (TaxType l) (UnblendedCost l) v (UsageAccountID l)
    (UsageAmount l) (UsageEndDate l) (UsageStartDate l) (UsageType l)
    (BillPtr l).

Definition set_UsageAccountID (v : string) (l : LineItem) : LineItem :=
  mkLineItem (UID l) (Start l) (End l) (AvailabilityZone l) (BlendedCost l)
    (BlendedRate l) (CurrencyCode l) (LegalEntity l) (LineItemDescription l)
    (LineItemType l) (NormalizationFactor l) (Operation l) (ProductCode l)
    (ResourceID l) (TaxType l) (UnblendedCost l) (UnblendedRate l) v
    (UsageAmount l) (UsageEndDate l) (UsageStartDate l) (UsageType l)
    (BillPtr l).

Definition set_UsageAmount (v : Z) (l : LineItem) : LineItem :=
  mkLineItem (UID l) (Start l) (End l) (AvailabilityZone l) (BlendedCost l)
    (BlendedRate l) (CurrencyCode l) (LegalEntity l) (LineItemDescription l)
    (LineItemType l) (NormalizationFactor l) (Operation l) (ProductCode l)
    (ResourceID l) (TaxType l) (UnblendedCost l) (UnblendedRate l)
    (UsageAccountID l) v (UsageEndDate l) (UsageStartDate l) (UsageType l)
    (BillPtr l).

Definition set_UsageEndDate (v : Time) (l : LineItem) : LineItem :=
  mkLineItem (UID l) (Start l) (End l) (AvailabilityZone l) (BlendedCost l)
    (BlendedRate l) (CurrencyCode l) (LegalEntity l) (LineItemDescription l)
    (LineItemType l) (NormalizationFactor l) (Operation l) (ProductCode l)
    (ResourceID l) (TaxType l) (UnblendedCost l) (UnblendedRate l)
    (UsageAccountID l) (UsageAmount l) v (UsageStartDate l) (UsageType l)
    (BillPtr l).

Definition set_UsageStartDate (v : Time) (l : LineItem) : LineItem :=
  mkLineItem (UID l) (Start l) (End l) (AvailabilityZone l) (BlendedCost l)
    (BlendedRate l) (CurrencyCode l) (LegalEntity l) (LineItemDescription l)
    (LineItemType l) (NormalizationFactor l) (Operation l) (ProductCode l)
    (ResourceID l) (TaxType l) (UnblendedCost l) (UnblendedRate l)
    (UsageAccountID l) (UsageAmount l) (UsageEndDate l) v (UsageType l)
    (BillPtr l).

Definition set_UsageType (v : string) (l : LineItem) : LineItem :=
  mkLineItem (UID l) (Start l) (End l) (AvailabilityZone l) (BlendedCost l)
    (BlendedRate l) (CurrencyCode l) (LegalEntity l) (LineItemDescription l)
    (LineItemType l) (NormalizationFactor l) (Operation l) (ProductCode l)
    (ResourceID l) (TaxType l) (UnblendedCost l) (UnblendedRate l)
    (UsageAccountID l) (UsageAmount l) (UsageEndDate l) (UsageStartDate l) v
    (BillPtr l).

Definition set_BillPtr (v : option Bill) (l : LineItem) : LineItem :=
  mkLineItem (UID l) (Start l) (End l) (AvailabilityZone l) (BlendedCost l)
    (BlendedRate l) (CurrencyCode l) (LegalEntity l) (LineItemDescription l)
    (LineItemType l) (NormalizationFactor l) (Operation l) (ProductCode l)
    (ResourceID l) (TaxType l) (UnblendedCost l) (UnblendedRate l)
    (UsageAccountID l) (UsageAmount l) (UsageEndDate l) (UsageStartDate l)
    (UsageType l) v.

(** The library functions the decoder calls.  Each parser returns its value
    together with its error ([None] for nil), as the Go functions do. *)
Class Libs : Type := {
  ParseFloat : string → float * option string;   (* strconv.ParseFloat(s, 64) *)
  ParseUint : string → N * option string;        (* strconv.ParseUint(s, 10, 64) *)
  time_Parse : string → Time * option string;    (* time.Parse(timeLayout, s) *)
  Sum64String : string → N                       (* xxhash.Sum64String(s) *)
}.

(** [err != nil] *)
Definition failed (err : option string) : bool :=
  match err with Some _ => true | None => false end.

(** [fmt.Errorf(prefix + "%v", err)]; a nil error never reaches it. *)
Definition Errorf (prefix : string) (err : option string) : string :=
  prefix +:+ default "<nil>" err.

Section Decoder.
Context {libs : Libs}.

Definition NewBill (entity billType invoiceID payerAccountID start end_ : string) : result Bill :=
  let b := zeroBill in
  let '(v, err) := ParseUint payerAccountID in
  let b := set_PayerAccountID v b in
  if failed err then
    Err (Errorf ("Unable to parse PayerAccountID, " +:+ payerAccountID +:+ ", ") err)
  else
  let '(v, err) := time_Parse start in
  let b := set_BillingPeriodStartDate v b in
  if failed err then Err (Errorf "Could not parse start interval, " err) else
  let '(v, err) := time_Parse end_ in
  let b := set_BillingPeriodEndDate v b in
  if failed err then Err (Errorf "Coult not parse end interval, " err) else
  let b := set_BillingEntity entity b in
  let b := set_BillType billType b in
  let b := set_InvoiceID invoiceID b in
  Ok b.

Definition NewLineItem
    (id timeInterval az blendedCost blendedRate currencyCode legalEntity
     lineItemDescription lineItemType normalizationFactor operation productCode
     resourceID taxType unblendedCost unblendedRate usageAccountID usageAmount
     usageStart usageEnd usageType : string) : result LineItem :=
  let l := zeroLineItem in
  let l := set_UID (Sum64String id) l in
  match Split timeInterval "/" with
  | [timeIntStr0; timeIntStr1] =>
      let '(v, err) := time_Parse timeIntStr0 in
      let l := set_Start v l in
      if failed err then Err (Errorf "Could not parse start interval, " err) else
      let '(v, err) := time_Parse timeIntStr1 in
      let l := set_End v l in
      if failed err then Err (Errorf "Coult not parse end interval, " err) else
      let '(v, err) := ParseFloat blendedCost in
      let l := set_BlendedCost v l in
      if failed err then Err (Errorf "Could not parse blendedCost, " err) else
      let '(v, err) := ParseFloat blendedRate in
      let l := set_BlendedRate v l in
      if failed err then Err (Errorf "Could not parse blendedRate, " err) else
      let '(v, err) := ParseFloat normalizationFactor in
      let l := set_NormalizationFactor v l in
      if failed err && negb (String.eqb normalizationFactor "") then
        Err (Errorf "Could not parse normalizationFactor, " err)
      else
      let '(v, err) := ParseFloat unblendedCost in
      let l := set_UnblendedCost v l in
      if failed err then Err (Errorf "Could not parse unblendedCost, " err) else
      let '(v, err) := ParseFloat unblendedRate in
      let l := set_UnblendedRate v l in
      if failed err && negb (String.eqb unblendedRate "") then
        Err (Errorf "Could not parse unblendedRate, " err)
      else
      let '(v, err) := time_Parse usageStart in
      let l := set_UsageStartDate v l in
      if failed err then Err (Errorf "Could not parse start interval, " err) else
      let '(v, err) := time_Parse usageEnd in
      let l := set_UsageEndDate v l in
      if failed err then Err (Errorf "Coult not parse end interval, " err) else
      let l := set_CurrencyCode currencyCode l in
      let l := set_LegalEntity legalEntity l in
      let l := set_LineItemDescription lineItemDescription l in
      let l := set_LineItemType lineItemType l in
      let l := set_Operation operation l in
      let l := set_ProductCode productCode l in
      let l := set_ResourceID resourceID l in
      let l := set_TaxType taxType l in
      Ok l
  | _ => Err ("Invalid time interval, " +:+ timeInterval)
  end.
End Decoder.

(** ** NewReport
    The file, the gzip reader and the scanner are outside the program: the
    constructor is modelled on the lines the scanner yields, the header
    line first.  Closing the file is taken to succeed. *)

(** [for i, header := range headers { headerIdx[header] = i }] *)
Fixpoint headerIndex (headers : list string) (i : nat) (headerIdx : gmap string nat) : gmap string nat :=
  match headers with
  | [] => headerIdx
  | header :: rest => headerIndex rest (S i) (<[header := i]> headerIdx)
  end.

(** [parts[headerIdx[name]]]: a missing header reads as index 0, and the
    index panics beyond the row. *)
Definition column {S} (parts : list string) (headerIdx : gmap string nat) (name : string) : M S string :=
  index parts (default 0%nat (headerIdx !! name)).

Section Constructor.
Context {libs : Libs}.

(** The decoding of one row: the [NewLineItem] call of the loop and the
    [NewBill] call that fills [l.Bill]. *)
Definition NewReport_row (headerIdx : gmap string nat) (text : string) : M Report (result LineItem) :=
  let parts := Split text "," in
  let col := column parts headerIdx in
  a1 <- col "identity/LineItemId";;
  a2 <- col "identity/TimeInterval";;
  a3 <- col "lineItem/AvailabilityZone";;
  a4 <- col "lineItem/BlendedCost";;
  a5 <- col "lineItem/BlendedCost";;
  a6 <- col "lineItem/CurrencyCode";;
  a7 <- col "lineItem/LegalEntity";;
  a8 <- col "lineItem/LineItemDescription";;
  a9 <- col "lineItem/LineItemType";;
  a10 <- col "lineItem/NormalizationFactor";;
  a11 <- col "lineItem/Operation";;
  a12 <- col "lineItem/ProductCode";;
  a13 <- col "lineItem/ResourceId";;
  a14 <- col "lineItem/TaxType";;
  a15 <- col "lineItem/UnblendedCost";;
  a16 <- col "lineItem/UnblendedRate";;
  a17 <- col "lineItem/UsageAccountId";;
  a18 <- col "lineItem/UsageAmount";;
  a19 <- col "lineItem/UsageStartDate";;
  a20 <- col "lineItem/UsageEndDate";;
  a21 <- col "lineItem/UsageType";;
  match NewLineItem a1 a2 a3 a4 a5 a6 a7 a8 a9 a10 a11 a12 a13 a14 a15 a16
          a17 a18 a19 a20 a21 with
  | Err err => ret (Err err)
  | Ok l =>
      b1 <- col "bill/Entity";;
      b2 <- col "bill/BillType";;
      b3 <- col "bill/InvoiceId";;
      b4 <- col "bill/PayerAccountId";;
      b5 <- col "bill/BillingPeriodStartDate";;
      b6 <- col "bill/BillingPeriodEndDate";;
      match NewBill b1 b2 b3 b4 b5 b6 with
      | Err err => ret (Err err)
      | Ok b => ret (Ok (set_BillPtr (Some b) l))
      end
  end.

(** [for scanner.Scan()]: the first row that fails to decode ends the
    load with its error. *)
Fixpoint NewReport_rows (headerIdx : gmap string nat) (rows : list string) : M Report (result ()) :=
  match rows with
  | [] => ret (Ok ())
  | text :: rest =>
      decoded <- NewReport_row headerIdx text;;
      match decoded with
      | Err err => ret (Err err)
      | Ok l => AddLineItem l;;; NewReport_rows headerIdx rest
      end
  end.

(** The report (or the error), next to what the load logged; [None] when
    the load panicked. *)
Definition NewReport (lines : list string) : option (result Report) * list string :=
  let headers := Split (hd "" lines) "," in
  let headerIdx := headerIndex headers 0 ∅ in
  match NewReport_rows headerIdx (tl lines) (mkWorld emptyReport []) with
  | (Some (Ok _), w) => (Some (Ok (store w)), logged w)
  | (Some (Err err), w) => (Some (Err err), logged w)
  | (None, w) => (None, logged w)
  end.
End Constructor.

(** ** main
    The program loads the report and sums the unblended cost by product
    code and operation over a fixed window.  The two [time.Date] values
    that bound the window are the instants [windowStart] and [windowEnd];
    the JSON rendering and the printing of the result are outside the
    program.  [logger.Fatal] on the load's error ends the run with that
    error. *)
Section MainQuery.
Context {libs : Libs}.
Variables (windowStart windowEnd : Time).

Definition main (lines : list string) : option (result (gmap string float)) * list string :=
  match NewReport lines with
  | (Some (Ok report), lg) =>
      match GroupBy ["lineItem/ProductCode"; "lineItem/Operation"]
              windowStart windowEnd (mkWorld report lg) with
      | (Some res, w) => (Some (Ok res), logged w)
      | (None, w) => (None, logged w)
      end
  | (Some (Err err), lg) => (Some (Err err), lg)
  | (None, lg) => (None, lg)
  end.
End MainQuery.

(** ** The earlier revision of [cmd/main.go]
    The first revision keeps the identity of a row ([LineItemID]) apart from
    its [LineItem] and its [Bill], and indexes the identities in an
    [Identity].  [Bill] and [NewBill] are those of the current revision. *)
Module Earlier.

Record LineItem : Type := mkLineItem {
  AvailabilityZone : string;
  BlendedCost : float;
  BlendedRate : float;
  CurrencyCode : string;
  LegalEntity : string;
  LineItemDescription : string;
  LineItemType : string;
  NormalizationFactor : float;
  Operation : string;
  ProductCode : string;
  ResourceID : string;
  TaxType : string;
  UnblendedCost : float;
  UnblendedRate : float;
  UsageAccountID : string;
  UsageAmount : Z;
  UsageEndDate : Time;
  UsageStartDate : Time;
  UsageType : string
}.

(** The fields [Bill *Bill] and [LineItem *LineItem] are [BillPtr] and
    [LineItemPtr]. *)
Record LineItemID : Type := mkLineItemID {
  UID : N;
  Start : Time;
  End : Time;
  BillPtr : option Bill;
  LineItemPtr : option LineItem
}.

Record Identity : Type := mkIdentity {
  LineItemIDs : gmap Z (list LineItemID);
  TimePts : list Time
}.

Definition NewIdentity : Identity := mkIdentity ∅ [].

Definition zeroLineItem : LineItem :=
  mkLineItem "" 0%float 0%float "" "" "" "" 0%float "" "" "" "" 0%float
    0%float "" 0 zeroTime zeroTime "".

Definition zeroLineItemID : LineItemID := mkLineItemID 0%N zeroTime zeroTime None None.

Definition set_AvailabilityZone (v : string) (l : LineItem) : LineItem :=
  mkLineItem v (BlendedCost l) (BlendedRate l) (CurrencyCode l) (LegalEntity
    l) (LineItemDescription l) (LineItemType l) (NormalizationFactor l)
    (Operation l) (ProductCode l) (ResourceID l) (TaxType l) (UnblendedCost
    l) (UnblendedRate l) (UsageAccountID l) (UsageAmount l) (UsageEndDate l)
    (UsageStartDate l) (UsageType l).

Definition set_BlendedCost (v : float) (l : LineItem) : LineItem :=
  mkLineItem (AvailabilityZone l) v (BlendedRate l) (CurrencyCode l)
    (LegalEntity l) (LineItemDescription l) (LineItemType l)
    (NormalizationFactor l) (Operation l) (ProductCode l) (ResourceID l)
    (TaxType l) (UnblendedCost l) (UnblendedRate l) (UsageAccountID l)
    (UsageAmount l) (UsageEndDate l) (UsageStartDate l) (UsageType l).

Definition set_BlendedRate (v : float) (l : LineItem) : LineItem :=
  mkLineItem (AvailabilityZone l) (BlendedCost l) v (CurrencyCode l)
    (LegalEntity l) (LineItemDescription l) (LineItemType l)
    (NormalizationFactor l) (Operation l) (ProductCode l) (ResourceID l)
    (TaxType l) (UnblendedCost l) (UnblendedRate l) (UsageAccountID l)
    (UsageAmount l) (UsageEndDate l) (UsageStartDate l) (UsageType l).

Definition set_CurrencyCode (v : string) (l : LineItem) : LineItem :=
  mkLineItem (AvailabilityZone l) (BlendedCost l) (BlendedRate l) v
    (LegalEntity l) (LineItemDescription l) (LineItemType l)
    (NormalizationFactor l) (Operation l) (ProductCode l) (ResourceID l)
    (TaxType l) (UnblendedCost l) (UnblendedRate l) (UsageAccountID l)
    (UsageAmount l) (UsageEndDate l) (UsageStartDate l) (UsageType l).

Definition set_LegalEntity (v : string) (l : LineItem) : LineItem :=
  mkLineItem (AvailabilityZone l) (BlendedCost l) (BlendedRate l)
    (CurrencyCode l) v (LineItemDescription l) (LineItemType l)
    (NormalizationFactor l) (Operation l) (ProductCode l) (ResourceID l)
    (TaxType l) (UnblendedCost l) (UnblendedRate l) (UsageAccountID l)
    (UsageAmount l) (UsageEndDate l) (UsageStartDate l) (UsageType l).

Definition set_LineItemDescription (v : string) (l : LineItem) : LineItem :=
  mkLineItem (AvailabilityZone l) (BlendedCost l) (BlendedRate l)
    (CurrencyCode l) (LegalEntity l) v (LineItemType l) (NormalizationFactor
    l) (Operation l) (ProductCode l) (ResourceID l) (TaxType l)
    (UnblendedCost l) (UnblendedRate l) (UsageAccountID l) (UsageAmount l)
    (UsageEndDate l) (UsageStartDate l) (UsageType l).

Definition set_LineItemType (v : string) (l : LineItem) : LineItem :=
  mkLineItem (AvailabilityZone l) (BlendedCost l) (BlendedRate l)
    (CurrencyCode l) (LegalEntity l) (LineItemDescription l) v
    (NormalizationFactor l) (Operation l) (ProductCode l) (ResourceID l)
    (TaxType l) (UnblendedCost l) (UnblendedRate l) (UsageAccountID l)
    (UsageAmount l) (UsageEndDate l) (UsageStartDate l) (UsageType l).

Definition set_NormalizationFactor (v : float) (l : LineItem) : LineItem :=
  mkLineItem (AvailabilityZone l) (BlendedCost l) (BlendedRate l)
    (CurrencyCode l) (LegalEntity l) (LineItemDescription l) (LineItemType l)
    v (Operation l) (ProductCode l) (ResourceID l) (TaxType l) (UnblendedCost
    l) (UnblendedRate l) (UsageAccountID l) (UsageAmount l) (UsageEndDate l)
    (UsageStartDate l) (UsageType l).

Definition set_Operation (v : string) (l : LineItem) : LineItem :=
  mkLineItem (AvailabilityZone l) (BlendedCost l) (BlendedRate l)
    (CurrencyCode l) (LegalEntity l) (LineItemDescription l) (LineItemType l)
    (NormalizationFactor l) v (ProductCode l) (ResourceID l) (TaxType l)
    (UnblendedCost l) (UnblendedRate l) (UsageAccountID l) (UsageAmount l)
    (UsageEndDate l) (UsageStartDate l) (UsageType l).

Definition set_ProductCode (v : string) (l : LineItem) : LineItem :=
  mkLineItem (AvailabilityZone l) (BlendedCost l) (BlendedRate l)
    (CurrencyCode l) (LegalEntity l) (LineItemDescription l) (LineItemType l)
    (NormalizationFactor l) (Operation l) v (ResourceID l) (TaxType l)
    (UnblendedCost l) (UnblendedRate l) (UsageAccountID l) (UsageAmount l)
    (UsageEndDate l) (UsageStartDate l) (UsageType l).

Definition set_ResourceID (v : string) (l : LineItem) : LineItem :=
  mkLineItem (AvailabilityZone l) (BlendedCost l) (BlendedRate l)
    (CurrencyCode l) (LegalEntity l) (LineItemDescription l) (LineItemType l)
    (NormalizationFactor l) (Operation l) (ProductCode l) v (TaxType l)
    (UnblendedCost l) (UnblendedRate l) (UsageAccountID l) (UsageAmount l)
    (UsageEndDate l) (UsageStartDate l) (UsageType l).

Definition set_TaxType (v : string) (l : LineItem) : LineItem :=
  mkLineItem (AvailabilityZone l) (BlendedCost l) (BlendedRate l)
    (CurrencyCode l) (LegalEntity l) (LineItemDescription l) (LineItemType l)
    (NormalizationFactor l) (Operation l) (ProductCode l) (ResourceID l) v
    (UnblendedCost l) (UnblendedRate l) (UsageAccountID l) (UsageAmount l)
    (UsageEndDate l) (UsageStartDate l) (UsageType l).

Definition set_UnblendedCost (v : float) (l : LineItem) : LineItem :=
  mkLineItem (AvailabilityZone l) (BlendedCost l) (BlendedRate l)
    (CurrencyCode l) (LegalEntity l) (LineItemDescription l) (LineItemType l)
    (NormalizationFactor l) (Operation l) (ProductCode l) (ResourceID l)
    (TaxType l) v (UnblendedRate l) (UsageAccountID l) (UsageAmount l)
    (UsageEndDate l) (UsageStartDate l) (UsageType l).

Definition set_UnblendedRate (v : float) (l : LineItem) : LineItem :=
  mkLineItem (AvailabilityZone l) (BlendedCost l) (BlendedRate l)
    (CurrencyCode l) (LegalEntity l) (LineItemDescription l) (LineItemType l)
    (NormalizationFactor l) (Operation l) (ProductCode l) (ResourceID l)
    (TaxType l) (UnblendedCost l) v (UsageAccountID l) (UsageAmount l)
    (UsageEndDate l) (UsageStartDate l) (UsageType l).

Definition set_UsageAccountID (v : string) (l : LineItem) : LineItem :=
  mkLineItem (AvailabilityZone l) (BlendedCost l) (BlendedRate l)
    (CurrencyCode l) (LegalEntity l) (LineItemDescription l) (LineItemType l)
    (NormalizationFactor l) (Operation l) (ProductCode l) (ResourceID l)
    (TaxType l) (UnblendedCost l) (UnblendedRate l) v (UsageAmount l)
    (UsageEndDate l) (UsageStartDate l) (UsageType l).

Definition set_UsageAmount (v : Z) (l : LineItem) : LineItem :=
  mkLineItem (AvailabilityZone l) (BlendedCost l) (BlendedRate l)
    (CurrencyCode l) (LegalEntity l) (LineItemDescription l) (LineItemType l)
    (NormalizationFactor l) (Operation l) (ProductCode l) (ResourceID l)
    (TaxType l) (UnblendedCost l) (UnblendedRate l) (UsageAccountID l) v
    (UsageEndDate l) (UsageStartDate l) (UsageType l).

Definition set_UsageEndDate (v : Time) (l : LineItem) : LineItem :=
  mkLineItem (AvailabilityZone l) (BlendedCost l) (BlendedRate l)
    (CurrencyCode l) (LegalEntity l) (LineItemDescription l) (LineItemType l)
    (NormalizationFactor l) (Operation l) (ProductCode l) (ResourceID l)
    (TaxType l) (UnblendedCost l) (UnblendedRate l) (UsageAccountID l)
    (UsageAmount l) v (UsageStartDate l) (UsageType l).

Definition set_UsageStartDate (v : Time) (l : LineItem) : LineItem :=
  mkLineItem (AvailabilityZone l) (BlendedCost l) (BlendedRate l)
    (CurrencyCode l) (LegalEntity l) (LineItemDescription l) (LineItemType l)
    (NormalizationFactor l) (Operation l) (ProductCode l) (ResourceID l)
    (TaxType l) (UnblendedCost l) (UnblendedRate l) (UsageAccountID l)
    (UsageAmount l) (UsageEndDate l) v (UsageType l).

Definition set_UsageType (v : string) (l : LineItem) : LineItem :=
  mkLineItem (AvailabilityZone l) (BlendedCost l) (BlendedRate l)
    (CurrencyCode l) (LegalEntity l) (LineItemDescription l) (LineItemType l)
    (NormalizationFactor l) (Operation l) (ProductCode l) (ResourceID l)
    (TaxType l) (UnblendedCost l) (UnblendedRate l) (UsageAccountID l)
    (UsageAmount l) (UsageEndDate l) (UsageStartDate l) v.

Definition set_UID (v : N) (l : LineItemID) : LineItemID :=
  mkLineItemID v (Start l) (End l) (BillPtr l) (LineItemPtr l).

Definition set_Start (v : Time) (l : LineItemID) : LineItemID :=
  mkLineItemID (UID l) v (End l) (BillPtr l) (LineItemPtr l).

Definition set_End (v : Time) (l : LineItemID) : LineItemID :=
  mkLineItemID (UID l) (Start l) v (BillPtr l) (LineItemPtr l).

Definition set_BillPtr (v : option Bill) (l : LineItemID) : LineItemID :=
  mkLineItemID (UID l) (Start l) (End l) v (LineItemPtr l).

Definition set_LineItemPtr (v : option LineItem) (l : LineItemID) : LineItemID :=
  mkLineItemID (UID l) (Start l) (End l) (BillPtr l) v.

Section Decoder.
Context {libs : Libs}.

Definition NewLineItemID (id timeInterval : string) : result LineItemID :=
  let l := zeroLineItemID in
  let l := set_UID (Sum64String id) l in
  match Split timeInterval "/" with
  | [timeIntStr0; timeIntStr1] =>
      let '(v, err) := time_Parse timeIntStr0 in
      let l := set_Start v l in
      if failed err then Err (Errorf "Could not parse start interval, " err) else
      let '(v, err) := time_Parse timeIntStr1 in
      let l := set_End v l in
      if failed err then Err (Errorf "Coult not parse end interval, " err) else
      Ok l
  | _ => Err ("Invalid time interval, " +:+ timeInterval)
  end.

Definition NewLineItem
    (az blendedCost blendedRate currencyCode legalEntity lineItemDescription
     lineItemType normalizationFactor operation productCode resourceID taxType
     unblendedCost unblendedRate usageAccountID usageAmount start end_
     usageType : string) : result LineItem :=
  let l := zeroLineItem in
  let '(v, err) := ParseFloat blendedCost in
  let l := set_BlendedCost v l in
  if failed err then Err (Errorf "Could not parse blendedCost, " err) else
  let '(v, err) := ParseFloat blendedRate in
  let l := set_BlendedRate v l in
  if failed err then Err (Errorf "Could not parse blendedRate, " err) else
  let '(v, err) := ParseFloat normalizationFactor in
  let l := set_NormalizationFactor v l in
  if failed err && negb (String.eqb normalizationFactor "") then
    Err (Errorf "Could not parse normalizationFactor, " err)
  else
  let '(v, err) := ParseFloat unblendedCost in
  let l := set_UnblendedCost v l in
  if failed err then Err (Errorf "Could not parse unblendedCost, " err) else
  let '(v, err) := ParseFloat unblendedRate in
  let l := set_UnblendedRate v l in
  if failed err && negb (String.eqb unblendedRate "") then
    Err (Errorf "Could not parse unblendedRate, " err)
  else
  let '(v, err) := time_Parse start in
  let l := set_UsageStartDate v l in
  if failed err then Err (Errorf "Could not parse start interval, " err) else
  let '(v, err) := time_Parse end_ in
  let l := set_UsageEndDate v l in
  if failed err then Err (Errorf "Coult not parse end interval, " err) else
  let l := set_CurrencyCode currencyCode l in
  let l := set_LegalEntity legalEntity l in
  let l := set_LineItemDescription lineItemDescription l in
  let l := set_LineItemType lineItemType l in
  let l := set_Operation operation l in
  let l := set_ProductCode productCode l in
  let l := set_ResourceID resourceID l in
  let l := set_TaxType taxType l in
  Ok l.
End Decoder.

(** *** Identity.AddLineItemID *)

Fixpoint AddLineItemID_scan (lids : list LineItemID) (l : LineItemID) : M Identity bool :=
  match lids with
  | [] => ret false
  | lid :: rest =>
      if (UID lid =? UID l)%N then
        Printf ("LineItemID, " +:+ fmt_s_uint64 (UID l)
                +:+ ", already exists in Identity" +:+ nl);;;
        ret true
      else AddLineItemID_scan rest l
  end.

Fixpoint AddLineItemID_place (n : nat) (l : LineItemID) : M Identity bool :=
  match n with
  | O => ret false
  | S j =>
      ts <- gets TimePts;;
      tj <- index ts j;;
      if After (Start l) tj then
        if decide (j = length ts - 1)%nat then
          modify (λ i, mkIdentity (LineItemIDs i) (TimePts i ++ [Start l]));;;
          ret true
        else
          modify (λ i, mkIdentity (LineItemIDs i) (TimePts i ++ [zeroTime]));;;
          ts1 <- gets TimePts;;
          ts2 <- orPanic (slice_copy ts1 (j + 2) (j + 1));;
          ts3 <- orPanic (slice_set ts2 (j + 1) (Start l));;
          modify (λ i, mkIdentity (LineItemIDs i) ts3);;;
          ret true
      else AddLineItemID_place j l
  end.

(** In the branch of an existing start, [lids = append(lids, l)] assigns
    the local variable [lids] only: the slice held by the map keeps its
    length and its elements, and the method returns. *)
Definition AddLineItemID (l : LineItemID) : M Identity () :=
  m <- gets LineItemIDs;;
  match m !! Start l with
  | Some lids =>
      returned <- AddLineItemID_scan lids l;;
      if returned : bool then ret ()
      else
        let lids := lids ++ [l] in
        ret ()
  | None =>
      modify (λ i, mkIdentity (<[Start l := [l]]> (LineItemIDs i)) (TimePts i));;;
      ts <- gets TimePts;;
      returned <- AddLineItemID_place (length ts) l;;
      if returned : bool then ret ()
      else
        modify (λ i, mkIdentity (LineItemIDs i) (TimePts i ++ [zeroTime]));;;
        ts1 <- gets TimePts;;
        ts2 <- orPanic (slice_copy ts1 1 0);;
        ts3 <- orPanic (slice_set ts2 0 (Start l));;
        modify (λ i, mkIdentity (LineItemIDs i) ts3)
  end.

(** *** The loop of [main]
    [logger.Fatal] ends the process: the loop stops at the first row that
    fails to decode, with its error.  The [logger.Println(identity)] that
    follows the loop is left out. *)
Section Main.
Context {libs : Libs}.

Definition main_row (headerIdx : gmap string nat) (text : string) : M Identity (result LineItemID) :=
  let parts := Split text "," in
  let col := column parts headerIdx in
  i1 <- col "identity/LineItemId";;
  i2 <- col "identity/TimeInterval";;
  match NewLineItemID i1 i2 with
  | Err err => ret (Err err)
  | Ok l =>
      b1 <- col "bill/Entity";;
      b2 <- col "bill/BillType";;
      b3 <- col "bill/InvoiceId";;
      b4 <- col "bill/PayerAccountId";;
      b5 <- col "bill/BillingPeriodStartDate";;
      b6 <- col "bill/BillingPeriodEndDate";;
      match NewBill b1 b2 b3 b4 b5 b6 with
      | Err err => ret (Err err)
      | Ok b =>
          let l := set_BillPtr (Some b) l in
          a1 <- col "lineItem/AvailabilityZone";;
          a2 <- col "lineItem/BlendedCost";;
          a3 <- col "lineItem/BlendedCost";;
          a4 <- col "lineItem/CurrencyCode";;
          a5 <- col "lineItem/LegalEntity";;
          a6 <- col "lineItem/LineItemDescription";;
          a7 <- col "lineItem/LineItemType";;
          a8 <- col "lineItem/NormalizationFactor";;
          a9 <- col "lineItem/Operation";;
          a10 <- col "lineItem/ProductCode";;
          a11 <- col "lineItem/ResourceId";;
          a12 <- col "lineItem/TaxType";;
          a13 <- col "lineItem/UnblendedCost";;
          a14 <- col "lineItem/UnblendedRate";;
          a15 <- col "lineItem/UsageAccountId";;
          a16 <- col "lineItem/UsageAmount";;
          a17 <- col "lineItem/UsageStartDate";;
          a18 <- col "lineItem/UsageEndDate";;
          a19 <- col "lineItem/UsageType";;
          match NewLineItem a1 a2 a3 a4 a5 a6 a7 a8 a9 a10 a11 a12 a13 a14
                  a15 a16 a17 a18 a19 with
          | Err err => ret (Err err)
          | Ok li => ret (Ok (set_LineItemPtr (Some li) l))
          end
      end
  end.

Fixpoint main_rows (headerIdx : gmap string nat) (rows : list string) : M Identity (result ()) :=
  match rows with
  | [] => ret (Ok ())
  | text :: rest =>
      decoded <- main_row headerIdx text;;
      match decoded with
      | Err err => ret (Err err)
      | Ok l => AddLineItemID l;;; main_rows headerIdx rest
      end
  end.

(** The identity index after the loop, or the fatal error. *)
Definition main (lines : list string) : option (result Identity) * list string :=
  let headers := Split (hd "" lines) "," in
  let headerIdx := headerIndex headers 0 ∅ in
  match main_rows headerIdx (tl lines) (mkWorld NewIdentity []) with
  | (Some (Ok _), w) => (Some (Ok (store w)), logged w)
  | (Some (Err err), w) => (Some (Err err), logged w)
  | (None, w) => (None, logged w)
  end.
End Main.

End Earlier.


(** * Vocabulary of the statements
    The effect of each method as a function of the store, the invariants,
    the composite key as the specification words it, and sample data. *)

(** ** Effects *)

(** A computation that only reads the receiver. *)
Definition readonly {S A} (m : M S A) : Prop :=
  ∀ w, store (snd (m w)) = store w.

(** ** The effect of [AddLineItem] *)

(** The round of the placement loop that returns: the greatest index below
    [n] whose timestamp is before [x]. *)
Fixpoint slot (n : nat) (ts : list Time) (x : Time) : option nat :=
  match n with
  | O => None
  | S j =>
      match ts !! j with
      | Some tj => if After x tj then Some j else slot j ts x
      | None => None
      end
  end.

Definition insertAt (p : nat) (ts : list Time) (x : Time) : list Time :=
  take p ts ++ x :: drop p ts.

(** The index after the call, for a start not yet in it. *)
Definition placed (ts : list Time) (x : Time) : list Time :=
  match slot (length ts) ts x with
  | Some j => insertAt (S j) ts x
  | None => insertAt 0 ts x
  end.

(** [true] when the bucket already holds an item of this [UID]. *)
Definition hasUID (lids : list LineItem) (uid : N) : bool :=
  existsb (λ lid, (UID lid =? uid)%N) lids.

Definition duplicateNotice (uid : N) : string :=
  "LineItemID, " +:+ fmt_s_uint64 uid +:+ ", already exists in Identity" +:+ nl.

(** The store after [AddLineItem l], and what the call logs. *)
Definition added (l : LineItem) (r : Report) : Report :=
  match LineItems r !! Start l with
  | Some lids =>
      if hasUID lids (UID l) then r
      else mkReport (<[Start l := lids ++ [l]]> (LineItems r)) (TimePts r)
  | None =>
      mkReport (<[Start l := [l]]> (LineItems r)) (placed (TimePts r) (Start l))
  end.

Definition noticed (l : LineItem) (r : Report) : list string :=
  match LineItems r !! Start l with
  | Some lids => if hasUID lids (UID l) then [duplicateNotice (UID l)] else []
  | None => []
  end.

(** ** The invariants of the store *)

(** I1: the index is strictly ascending, without duplicates, and holds
    exactly the keys of the map. *)
Definition I1 (r : Report) : Prop :=
  StronglySorted Z.lt (TimePts r)
  ∧ NoDup (TimePts r)
  ∧ (list_to_set (TimePts r) : gset Z) = dom (LineItems r).

(** Every bucket holds the items that start at its key. *)
Definition keyed (r : Report) : Prop :=
  ∀ k lids it, LineItems r !! k = Some lids → it ∈ lids → Start it = k.

(** I2: no two items of one bucket share a [UID]. *)
Definition I2 (r : Report) : Prop :=
  ∀ k lids, LineItems r !! k = Some lids → NoDup (UID <$> lids).

(** [AddLineItem] called on each item of [ls] in turn. *)
Fixpoint ingest (ls : list LineItem) : M Report () :=
  match ls with
  | [] => ret ()
  | l :: rest => AddLineItem l;;; ingest rest
  end.

(** ** The result of [FilterByTime] *)

(** The number of leading timestamps that are not after [e]. *)
Fixpoint prefixLen (ts : list Time) (e : Time) : nat :=
  match ts with
  | [] => O
  | t :: rest => if After t e then O else S (prefixLen rest e)
  end.

(** The items of the bucket at [k] that end after [s]. *)
Definition kept (r : Report) (s : Time) (k : Time) : list LineItem :=
  filter (λ it, s < End it) (default [] (LineItems r !! k)).

(** The result of the range query on [r]. *)
Definition window (r : Report) (s e : Time) : list LineItem :=
  flat_map (kept r s) (take (prefixLen (TimePts r) e) (TimePts r)).

(** ** The composite key of [GroupBy], as the specification words it *)

(** The fixed enumeration of recognized group-by fields. *)
Inductive GroupField : Type :=
| ByLineItemType | ByOperation | ByProductCode | ByResourceId
| ByTaxType | ByUsageAccountId | ByUsageType | ByPayerAccountId.

Definition recognize (field : string) : option GroupField :=
  if String.eqb field "lineItem/LineItemType" then Some ByLineItemType
  else if String.eqb field "lineItem/Operation" then Some ByOperation
  else if String.eqb field "lineItem/ProductCode" then Some ByProductCode
  else if String.eqb field "lineItem/ResourceId" then Some ByResourceId
  else if String.eqb field "lineItem/TaxType" then Some ByTaxType
  else if String.eqb field "lineItem/UsageAccountId" then Some ByUsageAccountId
  else if String.eqb field "lineItem/UsageType" then Some ByUsageType
  else if String.eqb field "bill/PayerAccountId" then Some ByPayerAccountId
  else None.

(** The string value of a recognized field; the payer account is read
    from the item's bill, and there is none to read when the item has no
    bill. *)
Definition fieldString (item : LineItem) (f : GroupField) : option string :=
  match f with
  | ByLineItemType => Some (LineItemType item)
  | ByOperation => Some (Operation item)
  | ByProductCode => Some (ProductCode item)
  | ByResourceId => Some (ResourceID item)
  | ByTaxType => Some (TaxType item)
  | ByUsageAccountId => Some (UsageAccountID item)
  | ByUsageType => Some (UsageType item)
  | ByPayerAccountId => (λ b, FormatUint (PayerAccountID b)) <$> BillPtr item
  end.

(** The values of the recognized requested fields, in the caller's order. *)
Definition specKeyParts (fields : list string) (item : LineItem) : option (list string) :=
  mapM (fieldString item) (omap recognize fields).

(** The composite key: those values joined by an underscore. *)
Definition specKey (fields : list string) (item : LineItem) : option string :=
  (λ parts, Join parts "_") <$> specKeyParts fields item.

(** One warning for each unrecognized requested field. *)
Definition warnings (fields : list string) : list string :=
  (λ field, "Unsupported field to group by, " +:+ field +:+ nl)
    <$> filter (λ field, recognize field = None) fields.

(** An item's cost added to the sum of its key. *)
Definition credit (fields : list string) (res : gmap string float) (item : LineItem) : gmap string float :=
  match specKey fields item with
  | Some key => addTo res key (UnblendedCost item)
  | None => res
  end.

(** One item's contribution to the sums: its cost when strictly positive,
    nothing otherwise. *)
Definition accumulate (fields : list string) (res : gmap string float) (item : LineItem) : gmap string float :=
  if (0 <? UnblendedCost item)%float then credit fields res item else res.

(** A cost that is zero or negative. *)
Definition nonPositive (c : float) : Prop := (c <=? 0)%float = true.

(** What the aggregation loop logs: the warnings, once for each item. *)
Definition warned (fields : list string) (items : list LineItem) : list string :=
  flat_map (λ _, warnings fields) items.

(** ** The rows the decoder accepts *)

(** [err == nil] on a parser's result. *)
Definition parsed {A} (p : A * option string) : bool := negb (failed (snd p)).

Section Accepted.
Context {libs : Libs}.

(** The rows [NewLineItem] accepts, as the specification words them: the
    interval has two parts and both parse; the blended cost, the blended
    rate, the unblended cost and the usage dates parse; the normalization
    factor and the unblended rate parse or are empty. *)
Definition lineItemAccepted
    (timeInterval blendedCost blendedRate normalizationFactor unblendedCost
     unblendedRate usageStart usageEnd : string) : bool :=
  match Split timeInterval "/" with
  | [start; end_] =>
      parsed (time_Parse start) && parsed (time_Parse end_)
      && parsed (ParseFloat blendedCost)
      && parsed (ParseFloat blendedRate)
      && (String.eqb normalizationFactor "" || parsed (ParseFloat normalizationFactor))
      && parsed (ParseFloat unblendedCost)
      && (String.eqb unblendedRate "" || parsed (ParseFloat unblendedRate))
      && parsed (time_Parse usageStart) && parsed (time_Parse usageEnd)
  | _ => false
  end.

(** The bills [NewBill] accepts: the payer account and both dates parse. *)
Definition billAccepted (payerAccountID start end_ : string) : bool :=
  parsed (ParseUint payerAccountID)
  && parsed (time_Parse start) && parsed (time_Parse end_).
End Accepted.

Ltac decode :=
  repeat match goal with
         | |- context [ParseFloat ?s] => destruct (ParseFloat s) as [? [?|]]; simpl
         | |- context [ParseUint ?s] => destruct (ParseUint s) as [? [?|]]; simpl
         | |- context [time_Parse ?s] => destruct (time_Parse s) as [? [?|]]; simpl
         | |- context [String.eqb ?s ""] => destruct (String.eqb s ""); simpl
         end.

Ltac columns :=
  repeat match goal with
         | |- context [orPanic (?a !! ?i)] =>
             destruct (a !! i) eqn:?; unfold bind at 1; simpl;
             [|by (eexists; split; [reflexivity|])]
         end.

(** The rows of [NewReport]: decoding a row leaves the world as it was, and
    a decoded item has a bill and equal blended fields. *)
Definition rateIsCost (l : LineItem) : Prop :=
  BlendedRate l = BlendedCost l ∧ is_Some (BillPtr l).

(** A property of every stored item. *)
Definition allItems (P : LineItem → Prop) (r : Report) : Prop :=
  ∀ k lids it, LineItems r !! k = Some lids → it ∈ lids → P it.

Definition Earlier_rateIsCost (lid : Earlier.LineItemID) : Prop :=
  ∃ li, Earlier.LineItemPtr lid = Some li
        ∧ Earlier.BlendedRate li = Earlier.BlendedCost li.

Definition allIDs (P : Earlier.LineItemID → Prop) (i : Earlier.Identity) : Prop :=
  ∀ k lids lid, Earlier.LineItemIDs i !! k = Some lids → lid ∈ lids → P lid.

Definition recognizedNames : list string :=
  [ "lineItem/LineItemType"; "lineItem/Operation"; "lineItem/ProductCode";
    "lineItem/ResourceId"; "lineItem/TaxType"; "lineItem/UsageAccountId";
    "lineItem/UsageType"; "bill/PayerAccountId" ].

(** The items on which the payer-account field can be read. *)
Definition billSafe (fields : list string) (item : LineItem) : Prop :=
  is_Some (BillPtr item) ∨ "bill/PayerAccountId" ∉ fields.

(** ** Sample data
    A small instance of the library functions, a report file of one row and
    a few stores, on which the statements are run. *)

Definition sampleParseFloat (s : string) : float * option string :=
  if String.eqb s "0" then (0%float, None)
  else if String.eqb s "1.5" then (1.5%float, None)
  else if String.eqb s "3" then (3%float, None)
  else (0%float, Some "invalid syntax").

Definition sampleParseUint (s : string) : N * option string :=
  match s, NilEmpty.uint_of_string s with
  | String _ _, Some u =>
      if (N.of_uint u <? 2 ^ 64)%N then (N.of_uint u, None)
      else ((2 ^ 64 - 1)%N, Some "value out of range")
  | _, _ => (0%N, Some "invalid syntax")
  end.

Definition sampleTimeParse (s : string) : Time * option string :=
  if String.eqb s "2020-05-01T00:00:00Z" then (1588291200, None)
  else if String.eqb s "2020-05-01T01:00:00Z" then (1588294800, None)
  else if String.eqb s "2020-06-01T00:00:00Z" then (1590969600, None)
  else (zeroTime, Some "cannot parse").

Fixpoint sampleHash (s : string) (h : N) : N :=
  match s with
  | EmptyString => h
  | String c rest => sampleHash rest ((h * 31 + N_of_ascii c) mod 2 ^ 64)%N
  end.

Definition sampleLibs : Libs :=
  {| ParseFloat := sampleParseFloat;
     ParseUint := sampleParseUint;
     time_Parse := sampleTimeParse;
     Sum64String := λ s, sampleHash s 0 |}.

Definition sampleHeader : string :=
  String.concat ","
    [ "identity/LineItemId"; "identity/TimeInterval"; "bill/Entity";
      "bill/BillType"; "bill/InvoiceId"; "bill/PayerAccountId";
      "bill/BillingPeriodStartDate"; "bill/BillingPeriodEndDate";
      "lineItem/AvailabilityZone"; "lineItem/BlendedCost";
      "lineItem/BlendedRate"; "lineItem/CurrencyCode"; "lineItem/LegalEntity";
      "lineItem/LineItemDescription"; "lineItem/LineItemType";
      "lineItem/NormalizationFactor"; "lineItem/Operation";
      "lineItem/ProductCode"; "lineItem/ResourceId"; "lineItem/TaxType";
      "lineItem/UnblendedCost"; "lineItem/UnblendedRate";
      "lineItem/UsageAccountId"; "lineItem/UsageAmount";
      "lineItem/UsageStartDate"; "lineItem/UsageEndDate";
      "lineItem/UsageType" ].

(** One row: blended cost 1.5 next to a blended rate of 3, an availability
    zone, a usage amount of 7, and an empty normalization factor and
    unblended rate. *)
Definition sampleRow : string :=
  String.concat ","
    [ "abc123"; "2020-05-01T00:00:00Z/2020-05-01T01:00:00Z"; "AWS";
      "Anniversary"; "inv-1"; "123456789012";
      "2020-05-01T00:00:00Z"; "2020-06-01T00:00:00Z";
      "us-east-1a"; "1.5";
      "3"; "USD"; "Amazon Web Services";
      "hours"; "Usage";
      ""; "RunInstances";
      "AmazonEC2"; "i-0abc"; "";
      "1.5"; "";
      "123456789012"; "7";
      "2020-05-01T00:00:00Z"; "2020-05-01T01:00:00Z";
      "BoxUsage" ].

Definition sampleLines : list string := [sampleHeader; sampleRow].

(** An item with the given identity, interval, product code and cost. *)
Definition sampleItem (uid : N) (start end_ : Time) (product : string) (cost : float) : LineItem :=
  set_UID uid (set_Start start (set_End end_
    (set_ProductCode product (set_UnblendedCost cost zeroLineItem)))).

Definition sampleStore : Report :=
  mkReport {[ 10 := [sampleItem 1 10 20 "A" 1.5; sampleItem 2 10 12 "B" 0] ]} [10].

Definition sampleID (uid : N) (start end_ : Time) : Earlier.LineItemID :=
  Earlier.mkLineItemID uid start end_ None None.

(** The report that [NewReport] loads from the sample lines, and its item. *)
Definition sampleReport : Report :=
  match fst (@NewReport sampleLibs sampleLines) with
  | Some (Ok r) => r
  | _ => emptyReport
  end.

Definition sampleDecoded : LineItem :=
  hd zeroLineItem (default [] (LineItems sampleReport !! 1588291200)).

(** The item that [NewLineItem] constructs from the fields of the sample
    row. *)
Definition sampleConstructed : LineItem :=
  match @NewLineItem sampleLibs "abc123"
          "2020-05-01T00:00:00Z/2020-05-01T01:00:00Z" "us-east-1a" "1.5" "1.5"
          "USD" "Amazon Web Services" "hours" "Usage" "" "RunInstances"
          "AmazonEC2" "i-0abc" "" "1.5" "" "123456789012" "7"
          "2020-05-01T00:00:00Z" "2020-05-01T01:00:00Z" "BoxUsage" with
  | Ok l => l
  | Err _ => zeroLineItem
  end.


(** ** Vocabulary of the further properties *)

(** The number of bytes [c] in [s]. *)
Fixpoint occurrences (c : ascii) (s : string) : nat :=
  match s with
  | EmptyString => O
  | String a rest => ((if Ascii.eqb a c then 1 else 0) + occurrences c rest)%nat
  end.

(** The columns that the [NewLineItem] call of a row reads, and those of
    its [NewBill] call. *)
Definition lineItemColumns : list string :=
  [ "identity/LineItemId"; "identity/TimeInterval";
    "lineItem/AvailabilityZone"; "lineItem/BlendedCost";
    "lineItem/CurrencyCode"; "lineItem/LegalEntity";
    "lineItem/LineItemDescription"; "lineItem/LineItemType";
    "lineItem/NormalizationFactor"; "lineItem/Operation";
    "lineItem/ProductCode"; "lineItem/ResourceId"; "lineItem/TaxType";
    "lineItem/UnblendedCost"; "lineItem/UnblendedRate";
    "lineItem/UsageAccountId"; "lineItem/UsageAmount";
    "lineItem/UsageStartDate"; "lineItem/UsageEndDate";
    "lineItem/UsageType" ].

Definition billColumns : list string :=
  [ "bill/Entity"; "bill/BillType"; "bill/InvoiceId"; "bill/PayerAccountId";
    "bill/BillingPeriodStartDate"; "bill/BillingPeriodEndDate" ].

(** The fields of a loaded item that no row can fill. *)
Definition blankFields (l : LineItem) : Prop :=
  AvailabilityZone l = "" ∧ UsageAmount l = 0
  ∧ UsageAccountID l = "" ∧ UsageType l = "".

(** The earlier revision: [AddLineItemID] called on each identity in turn,
    and the store after one call. *)
Fixpoint ingestIDs (ls : list Earlier.LineItemID) : M Earlier.Identity () :=
  match ls with
  | [] => ret ()
  | l :: rest => Earlier.AddLineItemID l;;; ingestIDs rest
  end.

Definition addedID (l : Earlier.LineItemID) (i : Earlier.Identity) : Earlier.Identity :=
  match Earlier.LineItemIDs i !! Earlier.Start l with
  | Some _ => i
  | None =>
      Earlier.mkIdentity
        (<[Earlier.Start l := [l]]> (Earlier.LineItemIDs i))
        (placed (Earlier.TimePts i) (Earlier.Start l))
  end.

(** A second sample row, whose unblended cost does not parse. *)
Definition sampleBadRow : string :=
  String.concat ","
    [ "def456"; "2020-05-01T00:00:00Z/2020-05-01T01:00:00Z"; "AWS";
      "Anniversary"; "inv-1"; "123456789012";
      "2020-05-01T00:00:00Z"; "2020-06-01T00:00:00Z";
      "us-east-1a"; "1.5";
      "3"; "USD"; "Amazon Web Services";
      "hours"; "Usage";
      ""; "RunInstances";
      "AmazonEC2"; "i-0abc"; "";
      "free"; "";
      "123456789012"; "7";
      "2020-05-01T00:00:00Z"; "2020-05-01T01:00:00Z";
      "BoxUsage" ].

(** A store of three starts, and a store whose item has no bill. *)
Definition sampleStore3 : Report :=
  mkReport
    {[ 10 := [sampleItem 1 10 20 "A" 1.5; sampleItem 2 10 12 "B" 0];
       20 := [sampleItem 3 20 40 "A" 3];
       30 := [sampleItem 4 30 35 "C" 1.5] ]}
    [10; 20; 30].

(** The index of the earlier revision after any calls: strictly ascending,
    holding exactly the keys of the map, each bucket holding one identity,
    which starts at the bucket's key. *)
Definition identityInvariant (i : Earlier.Identity) : Prop :=
  StronglySorted Z.lt (Earlier.TimePts i)
  ∧ (∀ k, k ∈ Earlier.TimePts i ↔ is_Some (Earlier.LineItemIDs i !! k))
  ∧ ∀ k lids, Earlier.LineItemIDs i !! k = Some lids →
              ∃ x, lids = [x] ∧ Earlier.Start x = k.

Ltac short_row :=
  repeat match goal with
         | |- context [orPanic (?a !! ?i)] =>
             destruct (a !! i) eqn:?; try congruence;
             unfold bind at 1; simpl; try done
         end.

Ltac in_range Hsome :=
  repeat match goal with
         | |- context [orPanic (?a !! default 0%nat (?m !! ?name))] =>
             let H := fresh "Hcol" in
             destruct (Hsome name) as [? H];
             [repeat first [apply list_elem_of_here | apply list_elem_of_further]|];
             rewrite H; unfold bind at 1; simpl
         end.

(** * Properties *)

(** ** The method monad *)

Lemma bind_Some {S A B} (m : M S A) (k : A → M S B) w a w' :
  m w = (Some a, w') → bind m k w = k a w'.
Proof. unfold bind. by intros ->. Qed.

Lemma bind_None {S A B} (m : M S A) (k : A → M S B) w w' :
  m w = (None, w') → bind m k w = (None, w').
Proof. unfold bind. by intros ->. Qed.

Lemma index_Some {S A} (a : list A) i x (w : World S) :
  a !! i = Some x → index a i w = (Some x, w).
Proof. unfold index. by intros ->. Qed.

Lemma readonly_ret {S A} (a : A) : readonly (S := S) (ret a).
Proof. done. Qed.

Lemma readonly_panic {S A} : readonly (S := S) (A := A) panic.
Proof. done. Qed.

Lemma readonly_gets {S A} (f : S → A) : readonly (gets f).
Proof. done. Qed.

Lemma readonly_Printf {S} msg : readonly (S := S) (Printf msg).
Proof. done. Qed.

Lemma readonly_orPanic {S A} (o : option A) : readonly (S := S) (orPanic o).
Proof. by destruct o. Qed.

Lemma readonly_index {S A} (a : list A) i : readonly (S := S) (index a i).
Proof. apply readonly_orPanic. Qed.

Lemma readonly_bind {S A B} (m : M S A) (k : A → M S B) :
  readonly m → (∀ a, readonly (k a)) → readonly (bind m k).
Proof.
  intros Hm Hk w. unfold bind. specialize (Hm w).
  destruct (m w) as [[a|] w1]; simpl in *; [|done].
  by rewrite Hk.
Qed.

Create HintDb readonly.
#[export] Hint Resolve readonly_ret readonly_panic readonly_gets readonly_Printf
  readonly_orPanic readonly_index : readonly.

(** ** Slices: the shift that opens position [p] *)

Lemma slice_shift_insert {A} (ts : list A) (p : nat) (x z : A) :
  (p ≤ length ts)%nat →
  ∃ a, slice_copy (ts ++ [z]) (p + 1) p = Some a
       ∧ slice_set a p x = Some (take p ts ++ x :: drop p ts).
Proof.
  intros Hp.
  assert (Hlen : length (ts ++ [z]) = S (length ts))
    by (rewrite length_app; simpl; lia).
  unfold slice_copy. rewrite Hlen. rewrite decide_True by lia.
  eexists; split; [done|].
  replace (Nat.min (S (length ts) - (p + 1)) (S (length ts) - p))
    with (length ts - p)%nat by lia.
  rewrite (drop_app_le ts [z] p) by lia.
  rewrite (take_app_length' (drop p ts) [z]) by (rewrite length_drop; lia).
  rewrite (drop_ge (ts ++ [z])) by lia.
  rewrite app_nil_r. unfold slice_set.
  assert (∃ y, take (p + 1) (ts ++ [z]) = take p ts ++ [y]) as [y ->].
  { destruct (decide (p < length ts)%nat) as [Hlt|Hge].
    - destruct (lookup_lt_is_Some_2 ts p Hlt) as [y Hy].
      exists y. rewrite take_app_le by lia.
      rewrite Nat.add_1_r. by apply take_S_r.
    - exists z. assert (p = length ts) as -> by lia.
      rewrite take_ge by lia.
      by rewrite firstn_all. }
  rewrite decide_True
    by (rewrite !length_app, length_take, length_drop; simpl; lia).
  f_equal. rewrite <- app_assoc. simpl.
  rewrite insert_app_r_alt by (rewrite length_take; lia).
  rewrite length_take. replace (p - p `min` length ts)%nat with 0%nat by lia.
  done.
Qed.

(** ** AddLineItem: what a call does *)

Lemma AddLineItem_place_run n l w :
  (n ≤ length (TimePts (store w)))%nat →
  AddLineItem_place n l w =
    match slot n (TimePts (store w)) (Start l) with
    | Some j =>
        (Some true,
         mkWorld (mkReport (LineItems (store w))
                    (insertAt (S j) (TimePts (store w)) (Start l)))
                 (logged w))
    | None => (Some false, w)
    end.
Proof.
  induction n as [|j IH]; intros Hn; [done|].
  destruct w as [[m ts] lg]; simpl in *.
  destruct (lookup_lt_is_Some_2 ts j ltac:(lia)) as [tj Htj].
  unfold bind at 1. simpl. unfold bind at 1. rewrite (index_Some _ _ _ _ Htj).
  rewrite Htj. destruct (After (Start l) tj) eqn:Haft.
  - case_decide as Hj.
    + unfold bind, modify, ret; simpl. do 3 f_equal.
      unfold insertAt. replace (S j) with (length ts) by lia.
      by rewrite firstn_all, drop_all.
    + destruct (slice_shift_insert ts (j + 1) (Start l) zeroTime ltac:(lia))
        as (a & Hcopy & Hset).
      replace (j + 2)%nat with (j + 1 + 1)%nat by lia.
      unfold bind, modify, gets, ret; simpl.
      rewrite Hcopy; simpl. rewrite Hset; simpl.
      by rewrite Nat.add_1_r.
  - rewrite IH by (simpl; lia). done.
Qed.

Lemma AddLineItem_scan_run lids l w :
  AddLineItem_scan lids l w =
    if hasUID lids (UID l)
    then (Some true, mkWorld (store w) (logged w ++ [duplicateNotice (UID l)]))
    else (Some false, w).
Proof.
  induction lids as [|lid rest IH]; simpl; [done|].
  destruct (UID lid =? UID l)%N; simpl; [done|]. apply IH.
Qed.

(** [AddLineItem] never panics, and its effect is [added] and [noticed]. *)
Lemma AddLineItem_run l w :
  AddLineItem l w =
    (Some (), mkWorld (added l (store w)) (logged w ++ noticed l (store w))).
Proof.
  destruct w as [[m ts] lg]. unfold AddLineItem, added, noticed.
  unfold bind at 1. simpl.
  destruct (m !! Start l) as [lids|] eqn:Hm.
  - unfold bind at 1. rewrite AddLineItem_scan_run. simpl.
    destruct (hasUID lids (UID l)); simpl.
    + done.
    + unfold modify; simpl. by rewrite Hm, app_nil_r.
  - unfold bind at 1. simpl. unfold bind at 1. simpl. unfold bind at 1.
    rewrite AddLineItem_place_run by done. simpl.
    unfold placed. destruct (slot (length ts) ts (Start l)) as [j|]; simpl.
    + by rewrite app_nil_r.
    + destruct (slice_shift_insert ts 0 (Start l) zeroTime ltac:(lia))
        as (a & Hcopy & Hset).
      simpl in Hcopy. unfold bind, modify, gets; simpl.
      rewrite Hcopy; simpl. rewrite Hset; simpl.
      by rewrite app_nil_r.
Qed.

(** ** The invariants of the store *)

Lemma sorted_lookup_lt (ts : list Time) i j a b :
  StronglySorted Z.lt ts → (i < j)%nat →
  ts !! i = Some a → ts !! j = Some b → a < b.
Proof.
  intros Hs Hij Ha Hb. rewrite <- (take_drop j ts) in Hs.
  eapply (StronglySorted_app_1_elem_of _ _ _ _ _ Hs).
  - apply list_elem_of_lookup. exists i. by rewrite lookup_take_lt.
  - apply list_elem_of_lookup. exists 0%nat. rewrite lookup_drop.
    by rewrite Nat.add_0_r.
Qed.

Lemma sorted_NoDup (ts : list Time) : StronglySorted Z.lt ts → NoDup ts.
Proof.
  induction 1 as [|x ts Hs IH Hx]; constructor; [|done].
  intros Hin. rewrite Forall_forall in Hx. specialize (Hx _ Hin). lia.
Qed.

Lemma I1_keys r :
  I1 r ↔ StronglySorted Z.lt (TimePts r)
         ∧ ∀ k, k ∈ TimePts r ↔ is_Some (LineItems r !! k).
Proof.
  unfold I1. split.
  - intros (Hs & _ & Hd). split; [done|]. intros k.
    rewrite <- elem_of_dom, <- Hd. by rewrite elem_of_list_to_set.
  - intros (Hs & Hk). split; [done|]. split; [by apply sorted_NoDup|].
    apply set_eq. intros k.
    by rewrite elem_of_list_to_set, elem_of_dom.
Qed.

Lemma slot_Some n ts x j :
  slot n ts x = Some j →
  (j < n)%nat
  ∧ (∃ tj, ts !! j = Some tj ∧ tj < x)
  ∧ ∀ i ti, (j < i < n)%nat → ts !! i = Some ti → x ≤ ti.
Proof.
  induction n as [|n IH]; simpl; [done|].
  destruct (ts !! n) as [tn|] eqn:Hn; [|done].
  unfold After. destruct (tn <? x) eqn:Hlt.
  - intros [= <-]. split; [lia|]. split; [exists tn; split; [done|lia]|].
    intros i ti Hi. lia.
  - intros Hj. destruct (IH Hj) as (Hjn & Htj & Hrest).
    split; [lia|]. split; [done|]. intros i ti Hi Hti.
    destruct (decide (i = n)) as [->|Hne].
    + assert (ti = tn) as -> by congruence. lia.
    + apply (Hrest i); [lia|done].
Qed.

Lemma slot_None n ts x :
  (n ≤ length ts)%nat → slot n ts x = None →
  ∀ i ti, (i < n)%nat → ts !! i = Some ti → x ≤ ti.
Proof.
  induction n as [|n IH]; simpl; intros Hn Hslot i ti Hi Hti; [lia|].
  destruct (lookup_lt_is_Some_2 ts n ltac:(lia)) as [tn Htn].
  rewrite Htn in Hslot. unfold After in Hslot.
  destruct (tn <? x) eqn:Hlt; [done|].
  destruct (decide (i = n)) as [->|Hne].
  - assert (ti = tn) as -> by congruence. lia.
  - apply (IH ltac:(lia) Hslot i); [lia|done].
Qed.

Lemma elem_of_insertAt p ts x y : y ∈ insertAt p ts x ↔ y = x ∨ y ∈ ts.
Proof.
  unfold insertAt. rewrite elem_of_app, elem_of_cons.
  rewrite <- (take_drop p ts) at 3. rewrite elem_of_app. tauto.
Qed.

Lemma elem_of_placed ts x y : y ∈ placed ts x ↔ y = x ∨ y ∈ ts.
Proof. unfold placed. destruct (slot _ _ _); apply elem_of_insertAt. Qed.

Lemma placed_sorted ts x :
  StronglySorted Z.lt ts → x ∉ ts → StronglySorted Z.lt (placed ts x).
Proof.
  intros Hs Hx. unfold placed, insertAt.
  assert (Hsplit : ∀ p, StronglySorted Z.lt (take p ts)
                        ∧ StronglySorted Z.lt (drop p ts)).
  { intros p. pose proof Hs as Hs'. rewrite <- (take_drop p ts) in Hs'.
    apply StronglySorted_app in Hs'. tauto. }
  assert (Hafter : ∀ p, (∀ i ti, (p ≤ i)%nat → ts !! i = Some ti → x ≤ ti) →
                        Forall (Z.lt x) (drop p ts)).
  { intros p Hp. apply Forall_forall. intros y Hy.
    apply list_elem_of_lookup in Hy as [i Hi]. rewrite lookup_drop in Hi.
    assert (x ≤ y) by (apply (Hp (p + i)%nat); [lia|done]).
    assert (y ≠ x).
    { intros ->. apply Hx. apply list_elem_of_lookup. eauto. }
    lia. }
  destruct (slot (length ts) ts x) as [j|] eqn:Hslot.
  - apply slot_Some in Hslot as (Hj & (tj & Htj & Hlt) & Hrest).
    assert (Hdrop : Forall (Z.lt x) (drop (S j) ts)).
    { apply Hafter. intros i ti Hi Hti. apply (Hrest i); [|done].
      split; [lia|]. by apply lookup_lt_Some in Hti. }
    apply StronglySorted_app_2.
    + intros x1 x2 H1 H2.
      assert (x1 ≤ tj).
      { apply list_elem_of_lookup in H1 as [i Hi].
        apply lookup_take_Some in Hi as [Hi Hij].
        destruct (decide (i = j)) as [->|Hne]; [by simplify_eq|].
        pose proof (sorted_lookup_lt ts i j x1 tj Hs ltac:(lia) Hi Htj). lia. }
      apply elem_of_cons in H2 as [->|H2]; [lia|].
      rewrite Forall_forall in Hdrop. specialize (Hdrop _ H2). lia.
    + apply Hsplit.
    + constructor; [apply Hsplit|done].
  - simpl. rewrite drop_0.
    constructor; [done|]. rewrite <- (drop_0 ts). apply Hafter.
    intros i ti _ Hti.
    apply (slot_None (length ts) ts x ltac:(lia) Hslot i); [|done].
    by apply lookup_lt_Some in Hti.
Qed.

Lemma hasUID_true lids uid :
  hasUID lids uid = true ↔ ∃ lid, lid ∈ lids ∧ UID lid = uid.
Proof.
  unfold hasUID. rewrite existsb_exists. split.
  - intros (lid & Hin & Heq). exists lid. split; [by apply list_elem_of_In|].
    by apply N.eqb_eq.
  - intros (lid & Hin & Heq). exists lid. split; [by apply list_elem_of_In|].
    by apply N.eqb_eq.
Qed.

Lemma hasUID_false lids uid :
  hasUID lids uid = false ↔ uid ∉ UID <$> lids.
Proof.
  rewrite <- not_true_iff_false, hasUID_true, list_elem_of_fmap.
  split; intros Hn (lid & H1 & H2); apply Hn; exists lid; by split.
Qed.

Lemma added_I1 l r : I1 r → I1 (added l r).
Proof.
  rewrite !I1_keys. intros (Hs & Hk). unfold added.
  destruct (LineItems r !! Start l) as [lids|] eqn:Hm.
  - destruct (hasUID lids (UID l)); [done|]. simpl. split; [done|].
    intros k. rewrite Hk. destruct (decide (k = Start l)) as [->|Hne].
    + rewrite lookup_insert_eq, Hm. split; eauto.
    + by rewrite lookup_insert_ne.
  - simpl. assert (Start l ∉ TimePts r).
    { rewrite Hk, Hm. by intros [? ?]. }
    split; [by apply placed_sorted|].
    intros k. rewrite elem_of_placed, Hk.
    destruct (decide (k = Start l)) as [->|Hne].
    + rewrite lookup_insert_eq. split; eauto.
    + rewrite lookup_insert_ne by done. split; [|by right].
      by intros [?|?].
Qed.

Lemma added_keyed l r : keyed r → keyed (added l r).
Proof.
  intros Hk. unfold added.
  destruct (LineItems r !! Start l) as [lids|] eqn:Hm.
  - destruct (hasUID lids (UID l)); [done|].
    intros k lids' it. simpl. destruct (decide (k = Start l)) as [->|Hne].
    + rewrite lookup_insert_eq. intros [= <-] Hin.
      apply elem_of_app in Hin as [Hin|Hin]; [by eapply Hk|].
      apply list_elem_of_singleton in Hin. by subst.
    + rewrite lookup_insert_ne by done. apply Hk.
  - intros k lids' it. simpl. destruct (decide (k = Start l)) as [->|Hne].
    + rewrite lookup_insert_eq. intros [= <-] Hin.
      apply list_elem_of_singleton in Hin. by subst.
    + rewrite lookup_insert_ne by done. apply Hk.
Qed.

Lemma added_I2 l r : I2 r → I2 (added l r).
Proof.
  intros Hi. unfold added.
  destruct (LineItems r !! Start l) as [lids|] eqn:Hm.
  - destruct (hasUID lids (UID l)) eqn:Hdup; [done|].
    intros k lids'. simpl. destruct (decide (k = Start l)) as [->|Hne].
    + rewrite lookup_insert_eq. intros [= <-].
      rewrite fmap_app. apply NoDup_app. split; [by eapply Hi|].
      split; [|apply NoDup_singleton].
      intros uid Hin Hin'. apply list_elem_of_singleton in Hin'. subst.
      by apply hasUID_false in Hdup.
    + rewrite lookup_insert_ne by done. apply Hi.
  - intros k lids'. simpl. destruct (decide (k = Start l)) as [->|Hne].
    + rewrite lookup_insert_eq. intros [= <-]. apply NoDup_singleton.
    + rewrite lookup_insert_ne by done. apply Hi.
Qed.

(** The bucket of an item after its ingestion holds its [UID]. *)
Lemma added_hasUID l r :
  ∃ lids, LineItems (added l r) !! Start l = Some lids
          ∧ hasUID lids (UID l) = true.
Proof.
  unfold added. destruct (LineItems r !! Start l) as [lids|] eqn:Hm.
  - destruct (hasUID lids (UID l)) eqn:Hdup.
    + eauto.
    + simpl. rewrite lookup_insert_eq. eexists; split; [done|].
      apply hasUID_true. exists l. split; [|done].
      apply elem_of_app. right. by apply list_elem_of_singleton.
  - simpl. rewrite lookup_insert_eq. eexists; split; [done|].
    apply hasUID_true. exists l. split; [|done].
    by apply list_elem_of_singleton.
Qed.

Lemma added_duplicate l r lids :
  LineItems r !! Start l = Some lids → hasUID lids (UID l) = true →
  added l r = r.
Proof. unfold added. by intros -> ->. Qed.

Lemma added_twice l r : added l (added l r) = added l r.
Proof.
  destruct (added_hasUID l r) as (lids & Hl & Hdup).
  by eapply added_duplicate.
Qed.

Lemma filter_absent {A} (f : A → N) (l : list A) (x : N) :
  x ∉ f <$> l → filter (λ y, f y = x) l = [].
Proof.
  induction l as [|a l IH]; simpl; intros Hx; [done|].
  apply not_elem_of_cons in Hx as [Hne Hx].
  rewrite filter_cons. rewrite decide_False by done. by apply IH.
Qed.

Lemma count_unique {A} (f : A → N) (l : list A) (x : N) :
  NoDup (f <$> l) → x ∈ f <$> l →
  length (filter (λ y, f y = x) l) = 1%nat.
Proof.
  induction l as [|a l IH]; simpl; intros Hnd Hin.
  - by apply elem_of_nil in Hin.
  - apply NoDup_cons in Hnd as [Ha Hnd].
    rewrite filter_cons. case_decide as Heq.
    + subst x. by rewrite filter_absent.
    + apply elem_of_cons in Hin as [?|Hin]; [congruence|]. by apply IH.
Qed.

(** ** A sequence of ingestions *)

Lemma ingest_run ls w :
  ∃ lg, ingest ls w = (Some (), mkWorld (foldl (λ r l, added l r) (store w) ls) lg).
Proof.
  revert w. induction ls as [|l rest IH]; intros w; simpl.
  - exists (logged w). by destruct w.
  - unfold bind. rewrite AddLineItem_run. apply IH.
Qed.

Lemma ingest_invariants ls r :
  I1 r → keyed r → I2 r →
  let r' := foldl (λ r l, added l r) r ls in I1 r' ∧ keyed r' ∧ I2 r'.
Proof.
  revert r. induction ls as [|l rest IH]; intros r H1 Hk H2; simpl; [done|].
  apply IH; [by apply added_I1|by apply added_keyed|by apply added_I2].
Qed.

Lemma emptyReport_I1 : I1 emptyReport.
Proof.
  split; [constructor|]. split; [constructor|].
  simpl. by rewrite dom_empty_L.
Qed.

Lemma emptyReport_keyed : keyed emptyReport.
Proof. intros k lids it. simpl. by rewrite lookup_empty. Qed.

Lemma emptyReport_I2 : I2 emptyReport.
Proof. intros k lids. simpl. by rewrite lookup_empty. Qed.

(** ** FilterByTime: what a call returns *)

Lemma FilterByTime_end_prefixLen rest i e :
  FilterByTime_end rest i e (i + length rest) = (i + prefixLen rest e)%nat.
Proof.
  revert i. induction rest as [|t rest IH]; intros i; simpl; [lia|].
  destruct (After t e); [lia|].
  replace (i + S (length rest))%nat with (S i + length rest)%nat by lia.
  rewrite IH. lia.
Qed.

Lemma prefixLen_le ts e : (prefixLen ts e ≤ length ts)%nat.
Proof.
  induction ts as [|t rest IH]; simpl; [lia|]. destruct (After t e); simpl; lia.
Qed.

Lemma prefixLen_take ts e t :
  t ∈ take (prefixLen ts e) ts → t ≤ e.
Proof.
  induction ts as [|t' rest IH]; simpl; [by intros ?%elem_of_nil|].
  unfold After. destruct (e <? t') eqn:Hlt; simpl; [by intros ?%elem_of_nil|].
  intros [->|Hin]%elem_of_cons; [lia|by apply IH].
Qed.

Lemma prefixLen_drop ts e t :
  StronglySorted Z.lt ts → t ∈ drop (prefixLen ts e) ts → e < t.
Proof.
  induction 1 as [|t' rest Hs IH Hall]; simpl; [by intros ?%elem_of_nil|].
  unfold After. destruct (e <? t') eqn:Hlt; simpl; [|done].
  intros [->|Hin]%elem_of_cons; [lia|].
  rewrite Forall_forall in Hall. specialize (Hall _ Hin). lia.
Qed.

Lemma FilterByTime_keep_filter items s l :
  FilterByTime_keep items s l = l ++ filter (λ it, s < End it) items.
Proof.
  revert l. induction items as [|it rest IH]; intros l; simpl.
  - by rewrite app_nil_r.
  - rewrite filter_cons. unfold After.
    destruct (s <? End it) eqn:Hlt.
    + rewrite decide_True by lia. rewrite IH. by rewrite <- app_assoc.
    + rewrite decide_False by lia. apply IH.
Qed.

Lemma FilterByTime_walk_run n i s l w :
  (i + n ≤ length (TimePts (store w)))%nat →
  FilterByTime_walk n i s l w =
    (Some (l ++ flat_map (kept (store w) s) (take n (drop i (TimePts (store w))))), w).
Proof.
  revert i l. induction n as [|n IH]; intros i l Hn; simpl.
  - by rewrite app_nil_r.
  - destruct (lookup_lt_is_Some_2 (TimePts (store w)) i ltac:(lia)) as [k Hk].
    unfold bind at 1. simpl. unfold bind at 1. rewrite (index_Some _ _ _ _ Hk).
    unfold bind at 1. simpl. rewrite IH by lia.
    rewrite FilterByTime_keep_filter. do 2 f_equal.
    rewrite (drop_S _ _ _ Hk). simpl. by rewrite <- app_assoc.
Qed.

(** The range query never panics, leaves its world as it was, and returns
    [window]. *)
Lemma FilterByTime_run s e w :
  FilterByTime s e w = (Some (window (store w) s e), w).
Proof.
  unfold FilterByTime, window. unfold bind. simpl.
  pose proof (FilterByTime_end_prefixLen (TimePts (store w)) 0 e) as Hend.
  simpl in Hend. rewrite Hend.
  pose proof (prefixLen_le (TimePts (store w)) e).
  rewrite FilterByTime_walk_run by (simpl; lia).
  by rewrite drop_0.
Qed.

Lemma elem_of_window r s e it :
  it ∈ window r s e ↔
  ∃ k lids, k ∈ take (prefixLen (TimePts r) e) (TimePts r)
            ∧ LineItems r !! k = Some lids ∧ it ∈ lids ∧ s < End it.
Proof.
  unfold window, kept. rewrite list_elem_of_In, in_flat_map. split.
  - intros (k & Hk & Hit). apply list_elem_of_In in Hk, Hit.
    apply list_elem_of_filter in Hit as [Hs Hit].
    destruct (LineItems r !! k) as [lids|] eqn:Hl; simpl in Hit.
    + exists k, lids. done.
    + by apply elem_of_nil in Hit.
  - intros (k & lids & Hk & Hl & Hit & Hs). exists k.
    split; [by apply list_elem_of_In|]. apply list_elem_of_In.
    apply list_elem_of_filter. rewrite Hl. done.
Qed.

(** ** GroupBy: what a call returns *)

Lemma nonPositive_not_positive c : nonPositive c → (0 <? c)%float = false.
Proof.
  unfold nonPositive. rewrite leb_spec, ltb_spec.
  change (Prim2SF 0%float) with (S754_zero false).
  by destruct (Prim2SF c) as [[]|[]| |[] m e].
Qed.

Lemma GroupBy_field_run item keyParts field w :
  GroupBy_field item keyParts field w =
    match recognize field with
    | Some g =>
        match fieldString item g with
        | Some v => (Some (keyParts ++ [v]), w)
        | None => (None, w)
        end
    | None =>
        (Some keyParts,
         mkWorld (store w)
           (logged w ++ ["Unsupported field to group by, " +:+ field +:+ nl]))
    end.
Proof.
  unfold GroupBy_field, recognize.
  repeat (match goal with
          | |- context [String.eqb field ?s] => destruct (String.eqb field s)
          end; [done|]); simpl.
  - destruct (String.eqb field "bill/PayerAccountId"); simpl; [|done].
    by destruct (BillPtr item).
Qed.

Lemma specKeyParts_cons field rest item :
  specKeyParts (field :: rest) item =
    match recognize field with
    | Some g =>
        match fieldString item g with
        | Some v => (λ vs, v :: vs) <$> specKeyParts rest item
        | None => None
        end
    | None => specKeyParts rest item
    end.
Proof.
  unfold specKeyParts. simpl. destruct (recognize field) as [g|]; [|done].
  simpl. destruct (fieldString item g); [|done]. simpl.
  by destruct (mapM _ _).
Qed.

Lemma warnings_cons field rest :
  warnings (field :: rest) =
    match recognize field with
    | Some _ => warnings rest
    | None => ("Unsupported field to group by, " +:+ field +:+ nl) :: warnings rest
    end.
Proof.
  unfold warnings. rewrite filter_cons.
  destruct (recognize field); [by rewrite decide_False|by rewrite decide_True].
Qed.

Lemma GroupBy_keyParts_run fields item keyParts w parts :
  specKeyParts fields item = Some parts →
  GroupBy_keyParts fields item keyParts w =
    (Some (keyParts ++ parts), mkWorld (store w) (logged w ++ warnings fields)).
Proof.
  revert keyParts w parts.
  induction fields as [|field rest IH]; intros keyParts w parts; simpl.
  - intros [= <-]. rewrite !app_nil_r. by destruct w.
  - rewrite specKeyParts_cons, warnings_cons. unfold bind.
    rewrite GroupBy_field_run.
    destruct (recognize field) as [g|].
    + destruct (fieldString item g) as [v|]; [|done].
      destruct (specKeyParts rest item) as [vs|] eqn:Hvs; [|done].
      simpl. intros [= <-]. rewrite (IH _ _ vs) by done.
      by rewrite <- app_assoc.
    + intros Hp. rewrite (IH _ _ parts) by done. simpl.
      by rewrite <- app_assoc.
Qed.

Lemma GroupBy_keyParts_panics fields item keyParts w :
  specKeyParts fields item = None →
  fst (GroupBy_keyParts fields item keyParts w) = None.
Proof.
  revert keyParts w.
  induction fields as [|field rest IH]; intros keyParts w; simpl; [done|].
  rewrite specKeyParts_cons. unfold bind. rewrite GroupBy_field_run.
  destruct (recognize field) as [g|].
  - destruct (fieldString item g) as [v|]; [|done].
    destruct (specKeyParts rest item) as [vs|] eqn:Hvs; [done|].
    intros _. by apply IH.
  - apply IH.
Qed.

Lemma GroupBy_items_run items fields res w :
  Forall (λ it, is_Some (specKey fields it)) items →
  GroupBy_items items fields res w =
    (Some (foldl (accumulate fields) res items),
     mkWorld (store w) (logged w ++ warned fields items)).
Proof.
  revert res w. induction items as [|item rest IH]; intros res w Hall; simpl.
  - rewrite app_nil_r. by destruct w.
  - apply Forall_cons in Hall as [[key Hkey] Hall].
    unfold accumulate at 2, credit. rewrite Hkey. unfold specKey in Hkey.
    destruct (specKeyParts fields item) as [parts|] eqn:Hparts; [|done].
    simpl in Hkey. injection Hkey as <-.
    unfold bind. rewrite (GroupBy_keyParts_run _ _ _ _ parts Hparts). simpl.
    destruct (0 <? UnblendedCost item)%float;
      rewrite IH by done; simpl; by rewrite <- app_assoc.
Qed.

Lemma GroupBy_items_panics items fields res w :
  Exists (λ it, specKey fields it = None) items →
  fst (GroupBy_items items fields res w) = None.
Proof.
  revert res w. induction items as [|item rest IH]; intros res w Hex; simpl.
  - by apply Exists_nil in Hex.
  - unfold bind.
    destruct (specKeyParts fields item) as [parts|] eqn:Hparts.
    + rewrite (GroupBy_keyParts_run _ _ _ _ parts Hparts).
      apply Exists_cons in Hex as [Hnone|Hex].
      { unfold specKey in Hnone. by rewrite Hparts in Hnone. }
      destruct (0 <? UnblendedCost item)%float; by apply IH.
    + pose proof (GroupBy_keyParts_panics fields item [] w Hparts) as Hp.
      by destruct (GroupBy_keyParts fields item [] w) as [[?|] ?].
Qed.

Lemma GroupBy_run fields s e w :
  Forall (λ it, is_Some (specKey fields it)) (window (store w) s e) →
  GroupBy fields s e w =
    (Some (foldl (accumulate fields) ∅ (window (store w) s e)),
     mkWorld (store w) (logged w ++ warned fields (window (store w) s e))).
Proof.
  intros Hall. unfold GroupBy, bind. rewrite FilterByTime_run.
  by apply GroupBy_items_run.
Qed.

Lemma accumulate_other fields res item key :
  (specKey fields item = Some key → nonPositive (UnblendedCost item)) →
  accumulate fields res item !! key = res !! key.
Proof.
  intros Hnp. unfold accumulate, credit.
  destruct (0 <? UnblendedCost item)%float eqn:Hpos; [|done].
  destruct (specKey fields item) as [key'|]; [|done].
  unfold addTo. destruct (decide (key' = key)) as [->|Hne].
  - rewrite nonPositive_not_positive in Hpos by auto. done.
  - by rewrite lookup_insert_ne.
Qed.

Lemma foldl_accumulate_other fields items res key :
  (∀ item, item ∈ items → specKey fields item = Some key →
           nonPositive (UnblendedCost item)) →
  foldl (accumulate fields) res items !! key = res !! key.
Proof.
  revert res. induction items as [|item rest IH]; intros res Hnp; simpl; [done|].
  rewrite IH.
  - apply accumulate_other. intros Hk. apply Hnp; [apply elem_of_cons; by left|done].
  - intros it Hin. apply Hnp. apply elem_of_cons. by right.
Qed.

Lemma foldl_accumulate_positive fields items res :
  foldl (accumulate fields) res items =
  foldl (credit fields) res
    (filter (λ item, (0 <? UnblendedCost item)%float = true) items).
Proof.
  revert res. induction items as [|item rest IH]; intros res; simpl; [done|].
  rewrite filter_cons. unfold accumulate at 2.
  destruct (0 <? UnblendedCost item)%float eqn:Hpos.
  - rewrite decide_True by done. simpl. apply IH.
  - rewrite decide_False by done. apply IH.
Qed.

(** ** The queries only read the store *)

Lemma readonly_FilterByTime_walk n i s l : readonly (FilterByTime_walk n i s l).
Proof.
  revert i l. induction n as [|n IH]; intros i l; simpl; [done|].
  repeat (apply readonly_bind; [auto with readonly|intros ?]). apply IH.
Qed.

Lemma readonly_FilterByTime s e : readonly (FilterByTime s e).
Proof.
  apply readonly_bind; [auto with readonly|intros ?].
  apply readonly_FilterByTime_walk.
Qed.

Lemma readonly_GroupBy_field item keyParts field :
  readonly (GroupBy_field item keyParts field).
Proof.
  unfold GroupBy_field.
  repeat match goal with
         | |- context [String.eqb field ?s] => destruct (String.eqb field s)
         end;
    solve [auto with readonly | destruct (BillPtr item); auto with readonly | done].
Qed.

Lemma readonly_GroupBy_keyParts fields item keyParts :
  readonly (GroupBy_keyParts fields item keyParts).
Proof.
  revert keyParts. induction fields as [|field rest IH]; intros keyParts; simpl.
  - auto with readonly.
  - apply readonly_bind; [apply readonly_GroupBy_field|intros ?]. apply IH.
Qed.

Lemma readonly_GroupBy_items items fields res :
  readonly (GroupBy_items items fields res).
Proof.
  revert res. induction items as [|item rest IH]; intros res; simpl.
  - auto with readonly.
  - apply readonly_bind; [apply readonly_GroupBy_keyParts|intros ?].
    destruct (0 <? UnblendedCost item)%float; apply IH.
Qed.

Lemma readonly_GroupBy fields s e : readonly (GroupBy fields s e).
Proof.
  apply readonly_bind; [apply readonly_FilterByTime|intros ?].
  apply readonly_GroupBy_items.
Qed.

(** ** The earlier revision: what [AddLineItemID] does *)

Lemma AddLineItemID_scan_run lids l w :
  ∃ returned lg,
    Earlier.AddLineItemID_scan lids l w = (Some returned, mkWorld (store w) lg).
Proof.
  induction lids as [|lid rest IH]; simpl.
  - exists false, (logged w). by destruct w.
  - destruct (Earlier.UID lid =? Earlier.UID l)%N; [|done].
    by eexists true, _.
Qed.

(** On a start that is already a key the call changes nothing, whether the
    [UID] is in the bucket or not. *)
Lemma AddLineItemID_existing l w lids :
  Earlier.LineItemIDs (store w) !! Earlier.Start l = Some lids →
  ∃ lg, Earlier.AddLineItemID l w = (Some (), mkWorld (store w) lg).
Proof.
  intros Hm. unfold Earlier.AddLineItemID. unfold bind at 1. simpl.
  rewrite Hm. unfold bind.
  destruct (AddLineItemID_scan_run lids l w) as (returned & lg & ->).
  exists lg. by destruct returned.
Qed.

Lemma AddLineItemID_place_run n l w :
  (n ≤ length (Earlier.TimePts (store w)))%nat →
  Earlier.AddLineItemID_place n l w =
    match slot n (Earlier.TimePts (store w)) (Earlier.Start l) with
    | Some j =>
        (Some true,
         mkWorld (Earlier.mkIdentity (Earlier.LineItemIDs (store w))
                    (insertAt (S j) (Earlier.TimePts (store w)) (Earlier.Start l)))
                 (logged w))
    | None => (Some false, w)
    end.
Proof.
  induction n as [|j IH]; intros Hn; [done|].
  destruct w as [[m ts] lg]; simpl in *.
  destruct (lookup_lt_is_Some_2 ts j ltac:(lia)) as [tj Htj].
  unfold bind at 1. simpl. unfold bind at 1. rewrite (index_Some _ _ _ _ Htj).
  rewrite Htj. destruct (After (Earlier.Start l) tj) eqn:Haft.
  - case_decide as Hj.
    + unfold bind, modify, ret; simpl. do 3 f_equal.
      unfold insertAt. replace (S j) with (length ts) by lia.
      by rewrite firstn_all, drop_all.
    + destruct (slice_shift_insert ts (j + 1) (Earlier.Start l) zeroTime
                  ltac:(lia)) as (a & Hcopy & Hset).
      replace (j + 2)%nat with (j + 1 + 1)%nat by lia.
      unfold bind, modify, gets, ret; simpl.
      rewrite Hcopy; simpl. rewrite Hset; simpl.
      by rewrite Nat.add_1_r.
  - rewrite IH by (simpl; lia). done.
Qed.

Lemma AddLineItemID_fresh l w :
  Earlier.LineItemIDs (store w) !! Earlier.Start l = None →
  Earlier.AddLineItemID l w =
    (Some (),
     mkWorld (Earlier.mkIdentity
                (<[Earlier.Start l := [l]]> (Earlier.LineItemIDs (store w)))
                (placed (Earlier.TimePts (store w)) (Earlier.Start l)))
             (logged w)).
Proof.
  destruct w as [[m ts] lg]. simpl. intros Hm.
  unfold Earlier.AddLineItemID. unfold bind at 1. simpl. rewrite Hm.
  unfold bind at 1. simpl. unfold bind at 1. simpl. unfold bind at 1.
  rewrite AddLineItemID_place_run by done. simpl.
  unfold placed. destruct (slot (length ts) ts (Earlier.Start l)) as [j|]; simpl.
  - done.
  - destruct (slice_shift_insert ts 0 (Earlier.Start l) zeroTime ltac:(lia))
      as (a & Hcopy & Hset).
    simpl in Hcopy. unfold bind, modify, gets; simpl.
    rewrite Hcopy; simpl. by rewrite Hset.
Qed.

(** ** The decoder *)

Lemma NewLineItem_accepted {libs : Libs}
    id timeInterval az blendedCost blendedRate currencyCode legalEntity
    lineItemDescription lineItemType normalizationFactor operation productCode
    resourceID taxType unblendedCost unblendedRate usageAccountID usageAmount
    usageStart usageEnd usageType :
  isOk (NewLineItem id timeInterval az blendedCost blendedRate currencyCode
          legalEntity lineItemDescription lineItemType normalizationFactor
          operation productCode resourceID taxType unblendedCost unblendedRate
          usageAccountID usageAmount usageStart usageEnd usageType)
  = lineItemAccepted timeInterval blendedCost blendedRate normalizationFactor
      unblendedCost unblendedRate usageStart usageEnd.
Proof.
  unfold NewLineItem, lineItemAccepted, parsed.
  destruct (Split timeInterval "/") as [|t0 [|t1 [|]]]; try done.
  decode; done.
Qed.

Lemma NewBill_accepted {libs : Libs} entity billType invoiceID payerAccountID start end_ :
  isOk (NewBill entity billType invoiceID payerAccountID start end_)
  = billAccepted payerAccountID start end_.
Proof. unfold NewBill, billAccepted, parsed. decode; done. Qed.

(** What [NewLineItem] leaves in the fields it never assigns, and the two
    blended fields when both are decoded from one string. *)
Lemma NewLineItem_unassigned {libs : Libs}
    id timeInterval az blendedCost blendedRate currencyCode legalEntity
    lineItemDescription lineItemType normalizationFactor operation productCode
    resourceID taxType unblendedCost unblendedRate usageAccountID usageAmount
    usageStart usageEnd usageType l :
  NewLineItem id timeInterval az blendedCost blendedRate currencyCode
    legalEntity lineItemDescription lineItemType normalizationFactor
    operation productCode resourceID taxType unblendedCost unblendedRate
    usageAccountID usageAmount usageStart usageEnd usageType = Ok l →
  AvailabilityZone l = "" ∧ UsageAmount l = 0
  ∧ UsageAccountID l = "" ∧ UsageType l = "" ∧ BillPtr l = None.
Proof.
  unfold NewLineItem.
  destruct (Split timeInterval "/") as [|t0 [|t1 [|]]]; try done.
  decode; try done.
  all: by intros [= <-].
Qed.

Lemma NewLineItem_rate {libs : Libs}
    id timeInterval az cost currencyCode legalEntity
    lineItemDescription lineItemType normalizationFactor operation productCode
    resourceID taxType unblendedCost unblendedRate usageAccountID usageAmount
    usageStart usageEnd usageType l :
  NewLineItem id timeInterval az cost cost currencyCode
    legalEntity lineItemDescription lineItemType normalizationFactor
    operation productCode resourceID taxType unblendedCost unblendedRate
    usageAccountID usageAmount usageStart usageEnd usageType = Ok l →
  BlendedRate l = BlendedCost l.
Proof.
  unfold NewLineItem.
  destruct (Split timeInterval "/") as [|t0 [|t1 [|]]]; try done.
  decode; try done.
  all: by intros [= <-].
Qed.

Lemma NewReport_row_run {libs : Libs} headerIdx text w :
  ∃ res, NewReport_row headerIdx text w = (res, w)
         ∧ ∀ l, res = Some (Ok l) → rateIsCost l.
Proof.
  unfold NewReport_row, column, index.
  columns. unfold bind at 1; simpl.
  match goal with
  | |- context [NewLineItem ?a1 ?a2 ?a3 ?a4 ?a5 ?a6 ?a7 ?a8 ?a9 ?a10 ?a11
                  ?a12 ?a13 ?a14 ?a15 ?a16 ?a17 ?a18 ?a19 ?a20 ?a21] =>
      destruct (NewLineItem a1 a2 a3 a4 a5 a6 a7 a8 a9 a10 a11 a12 a13 a14
                  a15 a16 a17 a18 a19 a20 a21) as [l|err] eqn:Hl
  end; [|by (eexists; split; [reflexivity|])].
  apply NewLineItem_rate in Hl.
  columns.
  match goal with
  | |- context [NewBill ?b1 ?b2 ?b3 ?b4 ?b5 ?b6] =>
      destruct (NewBill b1 b2 b3 b4 b5 b6) as [b|err]
  end; [|by (eexists; split; [reflexivity|])].
  eexists; split; [reflexivity|]. intros ? [= <-].
  split; by destruct l.
Qed.

(** The load is a sequence of ingestions of decoded rows. *)
Lemma NewReport_rows_run {libs : Libs} headerIdx rows w :
  ∃ res ls lg,
    NewReport_rows headerIdx rows w
      = (res, mkWorld (foldl (λ r l, added l r) (store w) ls) lg)
    ∧ Forall rateIsCost ls.
Proof.
  revert w. induction rows as [|text rest IH]; intros w; simpl.
  - exists (Some (Ok ())), [], (logged w). by destruct w.
  - unfold bind at 1.
    destruct (NewReport_row_run headerIdx text w) as (res & -> & Hres).
    destruct res as [[l|err]|].
    + unfold bind. rewrite AddLineItem_run.
      destruct (IH (mkWorld (added l (store w)) (logged w ++ noticed l (store w))))
        as (res' & ls & lg & -> & Hls).
      exists res', (l :: ls), lg. split; [done|].
      constructor; [by apply Hres|done].
    + exists (Some (Err err)), [], (logged w). by destruct w.
    + exists None, [], (logged w). by destruct w.
Qed.

Lemma added_allItems P l r : P l → allItems P r → allItems P (added l r).
Proof.
  intros Hl Hr. unfold added.
  destruct (LineItems r !! Start l) as [lids|] eqn:Hm.
  - destruct (hasUID lids (UID l)); [done|].
    intros k lids' it. simpl. destruct (decide (k = Start l)) as [->|Hne].
    + rewrite lookup_insert_eq. intros [= <-] Hin.
      apply elem_of_app in Hin as [Hin|Hin]; [by eapply Hr|].
      apply list_elem_of_singleton in Hin. by subst.
    + rewrite lookup_insert_ne by done. apply Hr.
  - intros k lids' it. simpl. destruct (decide (k = Start l)) as [->|Hne].
    + rewrite lookup_insert_eq. intros [= <-] Hin.
      apply list_elem_of_singleton in Hin. by subst.
    + rewrite lookup_insert_ne by done. apply Hr.
Qed.

Lemma foldl_added_allItems P ls r :
  Forall P ls → allItems P r → allItems P (foldl (λ r l, added l r) r ls).
Proof.
  revert r. induction ls as [|l rest IH]; intros r Hls Hr; simpl; [done|].
  apply Forall_cons in Hls as [Hl Hls].
  apply IH; [done|]. by apply added_allItems.
Qed.

Lemma emptyReport_allItems P : allItems P emptyReport.
Proof. intros k lids it. simpl. by rewrite lookup_empty. Qed.

(** *** The earlier revision's loop *)

Lemma Earlier_NewLineItem_rate {libs : Libs}
    az cost currencyCode legalEntity lineItemDescription lineItemType
    normalizationFactor operation productCode resourceID taxType unblendedCost
    unblendedRate usageAccountID usageAmount start end_ usageType l :
  Earlier.NewLineItem az cost cost currencyCode legalEntity
    lineItemDescription lineItemType normalizationFactor operation productCode
    resourceID taxType unblendedCost unblendedRate usageAccountID usageAmount
    start end_ usageType = Ok l →
  Earlier.BlendedRate l = Earlier.BlendedCost l.
Proof.
  unfold Earlier.NewLineItem. decode; try done.
  all: by intros [= <-].
Qed.

Lemma main_row_run {libs : Libs} headerIdx text w :
  ∃ res, Earlier.main_row headerIdx text w = (res, w)
         ∧ ∀ l, res = Some (Ok l) → Earlier_rateIsCost l.
Proof.
  unfold Earlier.main_row, column, index.
  columns.
  match goal with
  | |- context [Earlier.NewLineItemID ?i1 ?i2] =>
      destruct (Earlier.NewLineItemID i1 i2) as [l|err]
  end; [|by (eexists; split; [reflexivity|])].
  columns.
  match goal with
  | |- context [NewBill ?b1 ?b2 ?b3 ?b4 ?b5 ?b6] =>
      destruct (NewBill b1 b2 b3 b4 b5 b6) as [b|err]
  end; [|by (eexists; split; [reflexivity|])].
  columns. unfold bind at 1; simpl.
  match goal with
  | |- context [Earlier.NewLineItem ?a1 ?a2 ?a3 ?a4 ?a5 ?a6 ?a7 ?a8 ?a9 ?a10
                  ?a11 ?a12 ?a13 ?a14 ?a15 ?a16 ?a17 ?a18 ?a19] =>
      destruct (Earlier.NewLineItem a1 a2 a3 a4 a5 a6 a7 a8 a9 a10 a11 a12
                  a13 a14 a15 a16 a17 a18 a19) as [li|err] eqn:Hli
  end; [|by (eexists; split; [reflexivity|])].
  apply Earlier_NewLineItem_rate in Hli.
  eexists; split; [reflexivity|]. intros ? [= <-]. by exists li.
Qed.

Lemma AddLineItemID_allIDs P l w :
  P l → allIDs P (store w) →
  ∃ w', Earlier.AddLineItemID l w = (Some (), w') ∧ allIDs P (store w').
Proof.
  intros Hl Hw.
  destruct (Earlier.LineItemIDs (store w) !! Earlier.Start l) as [lids|] eqn:Hm.
  - destruct (AddLineItemID_existing l w lids Hm) as (lg & ->). eauto.
  - rewrite AddLineItemID_fresh by done. eexists; split; [done|]. simpl.
    intros k lids' lid. simpl.
    destruct (decide (k = Earlier.Start l)) as [->|Hne].
    + rewrite lookup_insert_eq. intros [= <-] Hin.
      apply list_elem_of_singleton in Hin. by subst.
    + rewrite lookup_insert_ne by done. apply Hw.
Qed.

Lemma NewIdentity_allIDs P : allIDs P Earlier.NewIdentity.
Proof. intros k lids lid. simpl. by rewrite lookup_empty. Qed.

Lemma main_rows_allIDs {libs : Libs} headerIdx rows w :
  allIDs Earlier_rateIsCost (store w) →
  allIDs Earlier_rateIsCost (store (snd (Earlier.main_rows headerIdx rows w))).
Proof.
  revert w. induction rows as [|text rest IH]; intros w Hw; simpl; [done|].
  unfold bind at 1.
  destruct (main_row_run headerIdx text w) as (res & -> & Hres).
  destruct res as [[l|err]|]; [|done..].
  unfold bind.
  destruct (AddLineItemID_allIDs _ l w (Hres l eq_refl) Hw) as (w' & -> & Hw').
  by apply IH.
Qed.

(** ** GroupBy: when it returns, and the unrecognized fields *)

Lemma recognize_None field : recognize field = None ↔ field ∉ recognizedNames.
Proof.
  unfold recognize, recognizedNames.
  repeat match goal with
         | |- context [String.eqb field ?s] =>
             destruct (String.eqb_spec field s) as [->|?];
             [split; [intros [=]|intros Hn; exfalso; apply Hn; set_solver]|]
         end.
  split; [intros _|done]. rewrite !not_elem_of_cons. repeat split; try done.
  apply not_elem_of_nil.
Qed.

Lemma recognize_payer field :
  recognize field = Some ByPayerAccountId ↔ field = "bill/PayerAccountId".
Proof.
  unfold recognize.
  repeat match goal with
         | |- context [String.eqb field ?s] =>
             destruct (String.eqb_spec field s) as [->|?];
             [split; first [done|intros [=]]|]
         end.
  split; [intros [=]|done].
Qed.

Lemma specKeyParts_is_Some fields item :
  is_Some (specKeyParts fields item) ↔ billSafe fields item.
Proof.
  unfold billSafe. induction fields as [|field rest IH].
  - split; [intros _; right; apply not_elem_of_nil|by eexists].
  - rewrite specKeyParts_cons, not_elem_of_cons.
    destruct (recognize field) as [g|] eqn:Hg.
    + destruct (fieldString item g) as [v|] eqn:Hv.
      * rewrite fmap_is_Some, IH. split; [|tauto].
        intros [?|?]; [by left|].
        destruct (decide ("bill/PayerAccountId" = field)) as [<-|Hne]; [|by right].
        left. vm_compute in Hg. injection Hg as <-.
        simpl in Hv. destruct (BillPtr item); [by eexists|done].
      * destruct g; try done. simpl in Hv.
        apply recognize_payer in Hg as ->.
        destruct (BillPtr item); [done|]. split; [by intros [? ?]|].
        intros [[? ?]|[? _]]; done.
    + rewrite IH. split; [|tauto]. intros [?|?]; [by left|]. right.
      split; [|done]. intros <-. by rewrite (proj2 (recognize_payer _)) in Hg.
Qed.

Lemma specKey_is_Some fields item :
  is_Some (specKey fields item) ↔ billSafe fields item.
Proof. unfold specKey. by rewrite fmap_is_Some, specKeyParts_is_Some. Qed.

Lemma specKey_None fields item :
  specKey fields item = None ↔ ¬ billSafe fields item.
Proof. by rewrite <- specKey_is_Some, eq_None_not_Some. Qed.

Lemma all_or_some_unsafe fields (items : list LineItem) :
  Forall (λ it, is_Some (specKey fields it)) items
  ∨ Exists (λ it, specKey fields it = None) items.
Proof.
  induction items as [|item rest [IH|IH]]; [by left| |].
  - destruct (specKey fields item) eqn:Hk.
    + left. constructor; [by rewrite Hk|done].
    + right. by constructor.
  - right. by constructor 2.
Qed.

(** What [GroupBy] returns: the sums, unless an item in the window makes
    the payer-account read panic. *)
Lemma GroupBy_returns fields s e w res :
  fst (GroupBy fields s e w) = Some res →
  Forall (billSafe fields) (window (store w) s e)
  ∧ res = foldl (accumulate fields) ∅ (window (store w) s e).
Proof.
  intros Hres.
  destruct (all_or_some_unsafe fields (window (store w) s e)) as [Hall|Hex].
  - rewrite GroupBy_run in Hres by done. simpl in Hres. split; [|congruence].
    eapply Forall_impl; [exact Hall|]. intros it. by rewrite specKey_is_Some.
  - unfold GroupBy, bind in Hres. rewrite FilterByTime_run in Hres.
    by rewrite GroupBy_items_panics in Hres.
Qed.

Lemma GroupBy_safe fields s e w :
  Forall (billSafe fields) (window (store w) s e) →
  GroupBy fields s e w =
    (Some (foldl (accumulate fields) ∅ (window (store w) s e)),
     mkWorld (store w) (logged w ++ warned fields (window (store w) s e))).
Proof.
  intros Hall. apply GroupBy_run.
  eapply Forall_impl; [exact Hall|]. intros it. by rewrite specKey_is_Some.
Qed.

Lemma specKeyParts_unrecognized pre field post item :
  field ∉ recognizedNames →
  specKeyParts (pre ++ field :: post) item = specKeyParts (pre ++ post) item.
Proof.
  intros Hf%recognize_None. unfold specKeyParts.
  rewrite !omap_app. simpl. by rewrite Hf.
Qed.

Lemma specKey_unrecognized pre field post item :
  field ∉ recognizedNames →
  specKey (pre ++ field :: post) item = specKey (pre ++ post) item.
Proof. intros Hf. unfold specKey. by rewrite specKeyParts_unrecognized. Qed.

Lemma foldl_accumulate_ext fields1 fields2 (items : list LineItem) res :
  (∀ item, specKey fields1 item = specKey fields2 item) →
  foldl (accumulate fields1) res items = foldl (accumulate fields2) res items.
Proof.
  intros Heq. revert res. induction items as [|item rest IH]; intros res; simpl; [done|].
  rewrite IH. f_equal. unfold accumulate, credit. by rewrite Heq.
Qed.

Lemma GroupBy_result_ext fields1 fields2 s e w :
  (∀ item, specKey fields1 item = specKey fields2 item) →
  fst (GroupBy fields1 s e w) = fst (GroupBy fields2 s e w).
Proof.
  intros Heq.
  destruct (all_or_some_unsafe fields1 (window (store w) s e)) as [Hall|Hex].
  - rewrite (GroupBy_run fields1) by done.
    rewrite (GroupBy_run fields2).
    + simpl. f_equal. by apply foldl_accumulate_ext.
    + eapply Forall_impl; [exact Hall|]. intros it Hit. simpl in *.
      by rewrite <- Heq.
  - unfold GroupBy, bind. rewrite FilterByTime_run.
    rewrite !GroupBy_items_panics; [done| |done].
    eapply Exists_impl; [exact Hex|]. intros it Hit. simpl in *.
    by rewrite <- Heq.
Qed.

(** * The claims *)

(** Every store built by ingestion satisfies the three invariants, so the
    hypotheses of the statements below hold of every store the program
    can build. *)
Lemma ingested_invariants (ls : list LineItem) (lg : list string) :
  ∃ w, ingest ls (mkWorld emptyReport lg) = (Some (), w)
       ∧ I1 (store w) ∧ keyed (store w) ∧ I2 (store w).
Proof.
  destruct (ingest_run ls (mkWorld emptyReport lg)) as (lg' & Hrun).
  eexists; split; [exact Hrun|]. simpl.
  apply (ingest_invariants ls emptyReport);
    [apply emptyReport_I1|apply emptyReport_keyed|apply emptyReport_I2].
Qed.

(** So does every report that [NewReport] returns. *)
Lemma NewReport_invariants {libs : Libs} (lines : list string) r lg :
  NewReport lines = (Some (Ok r), lg) →
  I1 r ∧ keyed r ∧ I2 r ∧ allItems (λ it, is_Some (BillPtr it)) r.
Proof.
  unfold NewReport. intros Hnew.
  destruct (NewReport_rows_run (headerIndex (Split (hd "" lines) ",") 0 ∅)
              (tl lines) (mkWorld emptyReport []))
    as (res & ls & lg' & Hrun & Hls).
  rewrite Hrun in Hnew. destruct res as [[[]|err]|]; simplify_eq/=.
  destruct (ingest_invariants ls emptyReport emptyReport_I1 emptyReport_keyed
              emptyReport_I2) as (H1 & Hk & H2).
  split; [done|]. split; [done|]. split; [done|].
  apply foldl_added_allItems; [|apply emptyReport_allItems].
  eapply Forall_impl; [exact Hls|]. by intros it [_ ?].
Qed.

(** C1 (range-query overlap correctness).  On a store that satisfies I1 and
    whose buckets hold the items starting at their key, [FilterByTime]
    returns, leaves its world as it was, and a stored item with interval
    [Start, End] is in the result for the window [ws, we] if and only if
    its end is strictly after [ws] and its start is at or before [we]. *)
Theorem C1_FilterByTime_overlap
    (w : World Report) (ws we : Time) (k : Time) (lids : list LineItem) (it : LineItem) :
  I1 (store w) → keyed (store w) →
  LineItems (store w) !! k = Some lids → it ∈ lids →
  ∃ res, FilterByTime ws we w = (Some res, w)
         ∧ (it ∈ res ↔ ws < End it ∧ Start it ≤ we).
Proof.
  intros [Hs Hkeys]%I1_keys Hkeyed Hk Hit.
  exists (window (store w) ws we). split; [apply FilterByTime_run|].
  rewrite elem_of_window. split.
  - intros (k' & lids' & Hk' & Hl' & Hit' & Hend). split; [done|].
    rewrite (Hkeyed _ _ _ Hl' Hit'). by eapply prefixLen_take.
  - intros [Hend Hstart]. exists k, lids. split; [|done].
    assert (Start it = k) as Heq by (by eapply Hkeyed).
    assert (k ∈ TimePts (store w)) as Hin by (apply Hkeys; eauto).
    pose proof (take_drop (prefixLen (TimePts (store w)) we) (TimePts (store w)))
      as Htd.
    rewrite <- Htd in Hin. apply elem_of_app in Hin as [?|Hin]; [done|].
    apply prefixLen_drop in Hin; [lia|done].
Qed.

Lemma sampleStore_I1 : I1 sampleStore.
Proof.
  split; [repeat constructor|]. split; [|reflexivity].
  apply NoDup_singleton.
Defined.

Lemma sampleStore_keyed : keyed sampleStore.
Proof.
  intros k lids it Hk Hit. simpl in Hk.
  apply lookup_singleton_Some in Hk as [<- <-].
  apply elem_of_cons in Hit as [->|Hit]; [done|].
  apply list_elem_of_singleton in Hit as ->. done.
Defined.

Lemma C1_FilterByTime_overlap_witness :
  ∃ res, FilterByTime 19 30 (mkWorld sampleStore []) = (Some res, mkWorld sampleStore [])
         ∧ (sampleItem 1 10 20 "A" 1.5 ∈ res
            ↔ 19 < End (sampleItem 1 10 20 "A" 1.5)
              ∧ Start (sampleItem 1 10 20 "A" 1.5) ≤ 30).
Proof.
  apply (C1_FilterByTime_overlap (mkWorld sampleStore []) 19 30 10
           [sampleItem 1 10 20 "A" 1.5; sampleItem 2 10 12 "B" 0]).
  - apply sampleStore_I1.
  - apply sampleStore_keyed.
  - reflexivity.
  - apply elem_of_cons. by left.
Defined.

(** C2 (sorted-index invariant I1).  Any sequence of [AddLineItem] calls on
    an initially empty report runs to its end, and afterwards [TimePts] is
    strictly ascending, has no duplicate entry, and its elements are
    exactly the keys of [LineItems]. *)
Theorem C2_sorted_index_invariant (ls : list LineItem) (lg : list string) :
  ∃ w, ingest ls (mkWorld emptyReport lg) = (Some (), w)
       ∧ StronglySorted Z.lt (TimePts (store w))
       ∧ NoDup (TimePts (store w))
       ∧ (list_to_set (TimePts (store w)) : gset Z) = dom (LineItems (store w)).
Proof.
  destruct (ingest_run ls (mkWorld emptyReport lg)) as (lg' & Hrun).
  eexists; split; [exact Hrun|]. simpl.
  apply (ingest_invariants ls emptyReport);
    [apply emptyReport_I1|apply emptyReport_keyed|apply emptyReport_I2].
Qed.

(** The current revision appends on an existing start, as the claim C4
    words it. *)
Lemma AddLineItem_appends (w : World Report) (l : LineItem) (lids : list LineItem) :
  LineItems (store w) !! Start l = Some lids →
  (∀ lid, lid ∈ lids → UID lid ≠ UID l) →
  ∃ w', AddLineItem l w = (Some (), w')
        ∧ LineItems (store w') !! Start l = Some (lids ++ [l])
        ∧ TimePts (store w') = TimePts (store w).
Proof.
  intros Hm Hfresh. rewrite AddLineItem_run. eexists; split; [done|]. simpl.
  unfold added. rewrite Hm.
  assert (hasUID lids (UID l) = false) as ->.
  { apply not_true_iff_false. rewrite hasUID_true.
    intros (lid & Hin & Heq). by apply (Hfresh lid). }
  simpl. by rewrite lookup_insert_eq.
Qed.

(** C3 (dedup idempotence).  When the [UID] of an item already occurs in
    the bucket at its start, [AddLineItem] returns after logging the
    notice, with [LineItems] and [TimePts] as they were; the same holds of
    the earlier revision's [AddLineItemID].  Hence a second ingestion of an
    item leaves the store of the first, and, on a store without two equal
    [UID]s in a bucket (I2), the bucket then holds exactly one item of that
    [UID]. *)
Theorem C3_dedup_idempotent
    (w : World Report) (l : LineItem)
    (wi : World Earlier.Identity) (lid : Earlier.LineItemID) :
  (∀ lids x, LineItems (store w) !! Start l = Some lids →
             x ∈ lids → UID x = UID l →
             AddLineItem l w
             = (Some (), mkWorld (store w) (logged w ++ [duplicateNotice (UID l)])))
  ∧ (∃ w1 w2, AddLineItem l w = (Some (), w1)
              ∧ AddLineItem l w1 = (Some (), w2)
              ∧ store w2 = store w1
              ∧ (I2 (store w) →
                 ∃ lids, LineItems (store w1) !! Start l = Some lids
                         ∧ length (filter (λ x, UID x = UID l) lids) = 1%nat))
  ∧ (∀ lids x, Earlier.LineItemIDs (store wi) !! Earlier.Start lid = Some lids →
               x ∈ lids → Earlier.UID x = Earlier.UID lid →
               ∃ lg, Earlier.AddLineItemID lid wi = (Some (), mkWorld (store wi) lg)).
Proof.
  split; [|split].
  - intros lids x Hm Hx Heq. rewrite AddLineItem_run.
    assert (hasUID lids (UID l) = true) as Hdup
      by (apply hasUID_true; eauto).
    rewrite (added_duplicate l (store w) lids Hm Hdup).
    unfold noticed. by rewrite Hm, Hdup.
  - eexists _, _. split; [apply AddLineItem_run|].
    split; [apply AddLineItem_run|]. simpl. split; [apply added_twice|].
    intros Hi2. destruct (added_hasUID l (store w)) as (lids & Hl & Hdup).
    exists lids. split; [done|]. apply count_unique.
    + by apply (added_I2 l (store w) Hi2 (Start l)).
    + apply hasUID_true in Hdup as (x & Hx & Heq).
      apply list_elem_of_fmap. by exists x.
  - intros lids x Hm _ _. by eapply AddLineItemID_existing.
Qed.

Lemma sampleStore_I2 : I2 sampleStore.
Proof.
  intros k lids Hk. simpl in Hk.
  apply lookup_singleton_Some in Hk as [<- <-]. simpl.
  apply NoDup_cons. split; [|apply NoDup_singleton].
  intros Hin. apply list_elem_of_singleton in Hin. done.
Defined.

Lemma C3_dedup_idempotent_witness :
  AddLineItem (sampleItem 2 10 30 "C" 3) (mkWorld sampleStore [])
  = (Some (), mkWorld sampleStore [duplicateNotice 2])
  ∧ ∃ lids, LineItems (added (sampleItem 2 10 30 "C" 3) sampleStore) !! 10 = Some lids
            ∧ length (filter (λ x, UID x = 2%N) lids) = 1%nat.
Proof.
  pose proof (C3_dedup_idempotent (mkWorld sampleStore [])
                (sampleItem 2 10 30 "C" 3)
                (mkWorld Earlier.NewIdentity []) (sampleID 1 10 20))
    as (Hnoop & (w1 & w2 & H1 & _ & _ & Hone) & _).
  split.
  - apply (Hnoop [sampleItem 1 10 20 "A" 1.5; sampleItem 2 10 12 "B" 0]
             (sampleItem 2 10 12 "B" 0)); [reflexivity| |reflexivity].
    apply elem_of_cons. right. apply elem_of_cons. by left.
  - rewrite AddLineItem_run in H1. injection H1 as <-.
    apply Hone. apply sampleStore_I2.
Defined.

(** C4 (bucket append on ingestion), evaluated on the earlier revision.
    Ingesting two identities with one start and different [UID]s into an
    empty [Identity] leaves only the first in the bucket: the second call
    returns without touching the store.  The same two ingestions through
    [Report.AddLineItem] leave both items in the bucket. *)
Theorem C4_AddLineItemID_drops_append :
  let w0 := mkWorld Earlier.NewIdentity [] in
  let w1 := snd (Earlier.AddLineItemID (sampleID 1 10 20) w0) in
  let w2 := snd (Earlier.AddLineItemID (sampleID 2 10 30) w1) in
  Earlier.LineItemIDs (store w1) !! 10 = Some [sampleID 1 10 20]
  ∧ Earlier.AddLineItemID (sampleID 2 10 30) w1 = (Some (), w1)
  ∧ Earlier.LineItemIDs (store w2) !! 10 = Some [sampleID 1 10 20]
  ∧ LineItems
      (store (snd (ingest [sampleItem 1 10 20 "A" 1.5; sampleItem 2 10 30 "B" 3]
                     (mkWorld emptyReport []))))
    !! 10
    = Some [sampleItem 1 10 20 "A" 1.5; sampleItem 2 10 30 "B" 3].
Proof. repeat split. Qed.

(** C5 (non-positive cost exclusion).  [GroupBy] returns whenever the
    payer-account field can be read on every item in the window.  Whenever
    it returns, its result is the sums over the in-window items of strictly
    positive cost alone, and a key whose in-window items all have a zero or
    negative cost has no entry in the result. *)
Theorem C5_nonpositive_cost_excluded
    (w : World Report) (fields : list string) (s e : Time) :
  ∃ items, FilterByTime s e w = (Some items, w)
    ∧ (Forall (billSafe fields) items → is_Some (fst (GroupBy fields s e w)))
    ∧ ∀ res, fst (GroupBy fields s e w) = Some res →
        res = foldl (credit fields) ∅
                (filter (λ item, (0 <? UnblendedCost item)%float = true) items)
        ∧ ∀ key,
            (∀ item, item ∈ items → specKey fields item = Some key →
                     nonPositive (UnblendedCost item)) →
            res !! key = None.
Proof.
  exists (window (store w) s e). split; [apply FilterByTime_run|]. split.
  - intros Hall. rewrite GroupBy_safe by done. by eexists.
  - intros res [_ ->]%GroupBy_returns. split.
    + apply foldl_accumulate_positive.
    + intros key Hkey. by rewrite foldl_accumulate_other.
Qed.

Lemma C5_nonpositive_cost_excluded_witness :
  ∃ res, fst (GroupBy ["lineItem/ProductCode"] 0 100 (mkWorld sampleStore [])) = Some res
         ∧ res !! "A" = Some 1.5%float ∧ res !! "B" = None.
Proof.
  destruct (C5_nonpositive_cost_excluded (mkWorld sampleStore [])
              ["lineItem/ProductCode"] 0 100) as (items & Hitems & _ & Hres).
  eexists. split; [reflexivity|]. split; [reflexivity|].
  apply (Hres _ eq_refl). intros item Hin Hkey.
  rewrite FilterByTime_run in Hitems. injection Hitems as <-.
  apply elem_of_cons in Hin as [->|Hin]; [discriminate Hkey|].
  apply list_elem_of_singleton in Hin as ->. reflexivity.
Defined.

(** C6 (composite key construction).  For every item the range query
    returns, the key parts [GroupBy] builds are the string values of the
    recognized requested fields in the caller's order, and its key is their
    join by an underscore ([specKey]); the run logs one warning for each
    unrecognized field and panics exactly when the payer account of an item
    without a bill is asked for.  A field name outside the recognized
    enumeration contributes nothing, so two such names in one position
    give the same key and the same result. *)
Theorem C6_composite_key
    (w : World Report) (fields : list string) (s e : Time) :
  ∃ items, FilterByTime s e w = (Some items, w)
    ∧ (∀ item w1, item ∈ items →
         match specKeyParts fields item with
         | Some parts =>
             GroupBy_keyParts fields item [] w1
             = (Some parts, mkWorld (store w1) (logged w1 ++ warnings fields))
             ∧ specKey fields item = Some (Join parts "_")
         | None => fst (GroupBy_keyParts fields item [] w1) = None
         end)
    ∧ (Forall (billSafe fields) items →
       GroupBy fields s e w
       = (Some (foldl (accumulate fields) ∅ items),
          mkWorld (store w) (logged w ++ warned fields items)))
    ∧ (∀ pre post f g item,
         f ∉ recognizedNames → g ∉ recognizedNames →
         specKey (pre ++ f :: post) item = specKey (pre ++ post) item
         ∧ specKey (pre ++ f :: post) item = specKey (pre ++ g :: post) item
         ∧ fst (GroupBy (pre ++ f :: post) s e w)
           = fst (GroupBy (pre ++ g :: post) s e w)).
Proof.
  exists (window (store w) s e). split; [apply FilterByTime_run|].
  split; [|split].
  - intros item w1 _.
    destruct (specKeyParts fields item) as [parts|] eqn:Hparts.
    + split; [by rewrite (GroupBy_keyParts_run _ _ _ _ parts)|].
      unfold specKey. by rewrite Hparts.
    + by apply GroupBy_keyParts_panics.
  - apply GroupBy_safe.
  - intros pre post f g item Hf Hg.
    split; [by apply specKey_unrecognized|].
    split; [by rewrite !specKey_unrecognized|].
    apply GroupBy_result_ext. intros it. by rewrite !specKey_unrecognized.
Qed.

Lemma C6_composite_key_witness :
  specKey ["lineItem/ProductCode"; "color"; "lineItem/Operation"]
    (sampleItem 1 10 20 "A" 1.5)
  = specKey ["lineItem/ProductCode"; "shape"; "lineItem/Operation"]
      (sampleItem 1 10 20 "A" 1.5)
  ∧ specKey ["lineItem/ProductCode"; "color"; "lineItem/Operation"]
      (sampleItem 1 10 20 "A" 1.5)
    = Some "A_".
Proof.
  destruct (C6_composite_key (mkWorld sampleStore []) [] 0 100)
    as (items & _ & _ & _ & Hcollapse).
  destruct (Hcollapse ["lineItem/ProductCode"] ["lineItem/Operation"]
              "color" "shape" (sampleItem 1 10 20 "A" 1.5))
    as (_ & Heq & _).
  - unfold recognizedNames. rewrite !not_elem_of_cons.
    repeat split; try discriminate. apply not_elem_of_nil.
  - unfold recognizedNames. rewrite !not_elem_of_cons.
    repeat split; try discriminate. apply not_elem_of_nil.
  - split; [exact Heq|reflexivity].
Defined.

(** The strict and the lenient fields of an accepted row, one by one. *)
Lemma NewLineItem_accepted_fields {libs : Libs}
    id timeInterval az blendedCost blendedRate currencyCode legalEntity
    lineItemDescription lineItemType normalizationFactor operation productCode
    resourceID taxType unblendedCost unblendedRate usageAccountID usageAmount
    usageStart usageEnd usageType :
  isOk (NewLineItem id timeInterval az blendedCost blendedRate currencyCode
          legalEntity lineItemDescription lineItemType normalizationFactor
          operation productCode resourceID taxType unblendedCost unblendedRate
          usageAccountID usageAmount usageStart usageEnd usageType) = true →
  parsed (ParseFloat blendedCost) = true
  ∧ parsed (ParseFloat blendedRate) = true
  ∧ parsed (ParseFloat unblendedCost) = true
  ∧ (normalizationFactor ≠ "" → parsed (ParseFloat normalizationFactor) = true)
  ∧ (unblendedRate ≠ "" → parsed (ParseFloat unblendedRate) = true).
Proof.
  rewrite NewLineItem_accepted. unfold lineItemAccepted.
  destruct (Split timeInterval "/") as [|t0 [|t1 [|]]]; try done.
  rewrite !andb_true_iff, !orb_true_iff, !String.eqb_eq.
  intros ((((((((_ & _) & Hbc) & Hbr) & Hnf) & Huc) & Hur) & _) & _).
  repeat split; try done; intros Hne; by destruct Hnf, Hur.
Qed.

(** The sample row has an empty normalization factor and an empty unblended
    rate, on which the sample parser fails, and is accepted. *)
Lemma NewLineItem_empty_suppressed :
  failed (snd (sampleParseFloat "")) = true
  ∧ @NewLineItem sampleLibs "abc123"
      "2020-05-01T00:00:00Z/2020-05-01T01:00:00Z" "us-east-1a" "1.5" "1.5"
      "USD" "Amazon Web Services" "hours" "Usage" "" "RunInstances"
      "AmazonEC2" "i-0abc" "" "1.5" "" "123456789012" "7"
      "2020-05-01T00:00:00Z" "2020-05-01T01:00:00Z" "BoxUsage"
    = Ok sampleConstructed
  ∧ isOk (@NewLineItem sampleLibs "abc123"
            "2020-05-01T00:00:00Z/2020-05-01T01:00:00Z" "us-east-1a" "1.5" "1.5"
            "USD" "Amazon Web Services" "hours" "Usage" "x" "RunInstances"
            "AmazonEC2" "i-0abc" "" "1.5" "" "123456789012" "7"
            "2020-05-01T00:00:00Z" "2020-05-01T01:00:00Z" "BoxUsage")
    = false.
Proof. repeat split; vm_compute; reflexivity. Qed.

(** C7 (asymmetric numeric leniency).  [NewLineItem] succeeds exactly on
    the rows of [lineItemAccepted]: a parse failure of the blended cost,
    the blended rate or the unblended cost (or of the interval or a usage
    date) is an error, while the normalization factor and the unblended
    rate fail the construction only when they are not empty and do not
    parse.  [NewBill] succeeds exactly when the payer account and the two
    dates parse. *)
Theorem C7_decoder_leniency {libs : Libs}
    (id timeInterval az blendedCost blendedRate currencyCode legalEntity
     lineItemDescription lineItemType normalizationFactor operation productCode
     resourceID taxType unblendedCost unblendedRate usageAccountID usageAmount
     usageStart usageEnd usageType
     entity billType invoiceID payerAccountID start end_ : string) :
  isOk (NewLineItem id timeInterval az blendedCost blendedRate currencyCode
          legalEntity lineItemDescription lineItemType normalizationFactor
          operation productCode resourceID taxType unblendedCost unblendedRate
          usageAccountID usageAmount usageStart usageEnd usageType)
  = lineItemAccepted timeInterval blendedCost blendedRate normalizationFactor
      unblendedCost unblendedRate usageStart usageEnd
  ∧ isOk (NewBill entity billType invoiceID payerAccountID start end_)
    = billAccepted payerAccountID start end_.
Proof. split; [apply NewLineItem_accepted|apply NewBill_accepted]. Qed.

(** C8 (queries never mutate the store).  Whatever the world, the window
    and the fields, and whether the call returns or panics, the report
    after [FilterByTime] and after [GroupBy] is the report before: the
    [LineItems] map and the [TimePts] sequence are the same. *)
Theorem C8_queries_do_not_mutate
    (w : World Report) (fields : list string) (s e : Time) :
  (store (snd (FilterByTime s e w)) = store w
   ∧ LineItems (store (snd (FilterByTime s e w))) = LineItems (store w)
   ∧ TimePts (store (snd (FilterByTime s e w))) = TimePts (store w))
  ∧ (store (snd (GroupBy fields s e w)) = store w
     ∧ LineItems (store (snd (GroupBy fields s e w))) = LineItems (store w)
     ∧ TimePts (store (snd (GroupBy fields s e w))) = TimePts (store w)).
Proof.
  pose proof (readonly_FilterByTime s e w) as Hf.
  pose proof (readonly_GroupBy fields s e w) as Hg.
  rewrite Hf, Hg. done.
Qed.

(** C9 (the blended rate is read from the blended-cost column).  Every
    item of a report that [NewReport] returns has its [BlendedRate] equal
    to its [BlendedCost], and so has every line item held by the identity
    index that the loop of the earlier [main] builds. *)
Theorem C9_blended_rate_is_blended_cost {libs : Libs} (lines : list string) :
  (∀ r lg k lids it,
     NewReport lines = (Some (Ok r), lg) →
     LineItems r !! k = Some lids → it ∈ lids →
     BlendedRate it = BlendedCost it)
  ∧ (∀ i lg k lids lid,
       Earlier.main lines = (Some (Ok i), lg) →
       Earlier.LineItemIDs i !! k = Some lids → lid ∈ lids →
       ∃ li, Earlier.LineItemPtr lid = Some li
             ∧ Earlier.BlendedRate li = Earlier.BlendedCost li).
Proof.
  split.
  - intros r lg k lids it Hnew Hk Hit. unfold NewReport in Hnew.
    destruct (NewReport_rows_run (headerIndex (Split (hd "" lines) ",") 0 ∅)
                (tl lines) (mkWorld emptyReport []))
      as (res & ls & lg' & Hrun & Hls).
    rewrite Hrun in Hnew. destruct res as [[[]|err]|]; simplify_eq/=.
    assert (allItems rateIsCost (foldl (λ r l, added l r) emptyReport ls)) as Hall
      by (apply foldl_added_allItems; [done|apply emptyReport_allItems]).
    by destruct (Hall k lids it Hk Hit).
  - intros i lg k lids lid Hmain Hk Hlid. unfold Earlier.main in Hmain.
    pose proof (main_rows_allIDs (headerIndex (Split (hd "" lines) ",") 0 ∅)
                  (tl lines) (mkWorld Earlier.NewIdentity [])) as Hall.
    destruct (Earlier.main_rows _ _ _) as [[[[]|err]|] w']; simplify_eq/=.
    apply (Hall (NewIdentity_allIDs _) k lids lid Hk Hlid).
Qed.

Lemma C9_blended_rate_is_blended_cost_witness :
  @NewReport sampleLibs sampleLines = (Some (Ok sampleReport), [])
  ∧ LineItems sampleReport !! 1588291200 = Some [sampleDecoded]
  ∧ BlendedRate sampleDecoded = BlendedCost sampleDecoded
  ∧ BlendedCost sampleDecoded = 1.5%float.
Proof.
  split; [vm_compute; reflexivity|]. split; [vm_compute; reflexivity|].
  split; [|vm_compute; reflexivity].
  apply (proj1 (@C9_blended_rate_is_blended_cost sampleLibs sampleLines)
           sampleReport [] 1588291200 [sampleDecoded] sampleDecoded).
  - vm_compute; reflexivity.
  - vm_compute; reflexivity.
  - apply list_elem_of_singleton. reflexivity.
Defined.

(** C10 (the availability zone and the usage amount are never read).  A
    line item that [NewLineItem] constructs has an empty
    [AvailabilityZone] and a [UsageAmount] of 0, whatever the row holds
    in those two columns. *)
Theorem C10_unassigned_fields {libs : Libs}
    (id timeInterval az blendedCost blendedRate currencyCode legalEntity
     lineItemDescription lineItemType normalizationFactor operation productCode
     resourceID taxType unblendedCost unblendedRate usageAccountID usageAmount
     usageStart usageEnd usageType : string) (l : LineItem) :
  NewLineItem id timeInterval az blendedCost blendedRate currencyCode
    legalEntity lineItemDescription lineItemType normalizationFactor
    operation productCode resourceID taxType unblendedCost unblendedRate
    usageAccountID usageAmount usageStart usageEnd usageType = Ok l →
  AvailabilityZone l = "" ∧ UsageAmount l = 0.
Proof.
  intros Hl. apply NewLineItem_unassigned in Hl. tauto.
Qed.

Lemma C10_unassigned_fields_witness :
  @NewLineItem sampleLibs "abc123"
    "2020-05-01T00:00:00Z/2020-05-01T01:00:00Z" "us-east-1a" "1.5" "1.5"
    "USD" "Amazon Web Services" "hours" "Usage" "" "RunInstances"
    "AmazonEC2" "i-0abc" "" "1.5" "" "123456789012" "7"
    "2020-05-01T00:00:00Z" "2020-05-01T01:00:00Z" "BoxUsage"
  = Ok sampleConstructed
  ∧ AvailabilityZone sampleConstructed = ""
  ∧ UsageAmount sampleConstructed = 0.
Proof.
  split; [vm_compute; reflexivity|].
  apply (@C10_unassigned_fields sampleLibs "abc123"
           "2020-05-01T00:00:00Z/2020-05-01T01:00:00Z" "us-east-1a" "1.5" "1.5"
           "USD" "Amazon Web Services" "hours" "Usage" "" "RunInstances"
           "AmazonEC2" "i-0abc" "" "1.5" "" "123456789012" "7"
           "2020-05-01T00:00:00Z" "2020-05-01T01:00:00Z" "BoxUsage"
           sampleConstructed).
  vm_compute; reflexivity.
Defined.


(** * Further properties of the code *)

(** ** AddLineItem: what a call keeps *)

Lemma insertAt_sublist p ts x : ts `sublist_of` insertAt p ts x.
Proof.
  unfold insertAt. rewrite <- (take_drop p ts) at 1.
  apply sublist_app; [done|]. by apply sublist_cons.
Qed.

Lemma placed_sublist ts x : ts `sublist_of` placed ts x.
Proof. unfold placed. destruct (slot _ _ _); apply insertAt_sublist. Qed.

Lemma length_placed ts x : length (placed ts x) = S (length ts).
Proof.
  assert (∀ p, length (insertAt p ts x) = S (length ts)) as Hlen.
  { intros p. unfold insertAt. rewrite length_app. simpl.
    rewrite length_take, length_drop. lia. }
  unfold placed. destruct (slot _ _ _); apply Hlen.
Qed.

Lemma added_keeps l r k lids it :
  LineItems r !! k = Some lids → it ∈ lids →
  ∃ lids', LineItems (added l r) !! k = Some lids' ∧ it ∈ lids'.
Proof.
  intros Hk Hit. unfold added.
  destruct (LineItems r !! Start l) as [lids0|] eqn:Hm.
  - destruct (hasUID lids0 (UID l)); [eauto|]. simpl.
    destruct (decide (k = Start l)) as [->|Hne].
    + rewrite lookup_insert_eq. eexists; split; [done|].
      apply elem_of_app. left. congruence.
    + rewrite lookup_insert_ne by done. eauto.
  - simpl. destruct (decide (k = Start l)) as [->|Hne]; [congruence|].
    rewrite lookup_insert_ne by done. eauto.
Qed.

Lemma foldl_added_keeps ls r k lids it :
  LineItems r !! k = Some lids → it ∈ lids →
  ∃ lids', LineItems (foldl (λ r l, added l r) r ls) !! k = Some lids'
           ∧ it ∈ lids'.
Proof.
  revert r lids. induction ls as [|l rest IH]; intros r lids Hk Hit; simpl.
  - eauto.
  - destruct (added_keeps l r k lids it Hk Hit) as (lids' & Hk' & Hit').
    by eapply IH.
Qed.

Lemma added_stores l r :
  (∀ lids x, LineItems r !! Start l = Some lids → x ∈ lids → UID x ≠ UID l) →
  ∃ lids', LineItems (added l r) !! Start l = Some lids' ∧ l ∈ lids'.
Proof.
  intros Hfresh. unfold added.
  destruct (LineItems r !! Start l) as [lids|] eqn:Hm.
  - assert (hasUID lids (UID l) = false) as ->.
    { apply not_true_iff_false. rewrite hasUID_true.
      intros (x & Hin & Heq). by apply (Hfresh lids x). }
    simpl. rewrite lookup_insert_eq. eexists; split; [done|].
    apply elem_of_app. right. by apply list_elem_of_singleton.
  - simpl. rewrite lookup_insert_eq. eexists; split; [done|].
    by apply list_elem_of_singleton.
Qed.

(** X1.  [AddLineItem] returns on every store, whatever the order of its
    index.  It leaves every bucket but the item's own as it was, only
    extends the item's bucket at its end, and keeps every timestamp of the
    index in place, adding at most one. *)
Theorem AddLineItem_frame (w : World Report) (l : LineItem) :
  ∃ w', AddLineItem l w = (Some (), w')
    ∧ (∀ k, k ≠ Start l →
            LineItems (store w') !! k = LineItems (store w) !! k)
    ∧ default [] (LineItems (store w) !! Start l)
        `prefix_of` default [] (LineItems (store w') !! Start l)
    ∧ TimePts (store w) `sublist_of` TimePts (store w')
    ∧ (length (TimePts (store w')) ≤ S (length (TimePts (store w))))%nat.
Proof.
  rewrite AddLineItem_run. eexists; split; [done|]. simpl. unfold added.
  destruct (LineItems (store w) !! Start l) as [lids|] eqn:Hm.
  - destruct (hasUID lids (UID l)).
    + rewrite Hm. repeat split; try done. lia.
    + simpl. rewrite lookup_insert_eq. simpl.
      split; [intros k Hk; by rewrite lookup_insert_ne|].
      split; [by apply prefix_app_r|]. split; [done|lia].
  - simpl. rewrite lookup_insert_eq. simpl.
    split; [intros k Hk; by rewrite lookup_insert_ne|].
    split; [apply prefix_nil|]. split; [apply placed_sublist|].
    rewrite length_placed. lia.
Qed.

Lemma slot_last ts t x :
  last ts = Some t → t < x → slot (length ts) ts x = Some (length ts - 1)%nat.
Proof.
  intros Hlast Hlt. destruct ts as [|t0 ts] using rev_ind; [done|].
  rewrite last_snoc in Hlast. injection Hlast as ->.
  rewrite length_app. simpl. rewrite Nat.add_1_r. simpl.
  rewrite lookup_app_r by lia. rewrite Nat.sub_diag. simpl.
  unfold After. rewrite (proj2 (Z.ltb_lt t x) Hlt). f_equal. lia.
Qed.

Lemma slot_none_before ts x n :
  Forall (λ t, x ≤ t) ts → slot n ts x = None.
Proof.
  intros Hall. induction n as [|n IH]; simpl; [done|].
  destruct (ts !! n) as [tn|] eqn:Hn; [|done].
  rewrite Forall_forall in Hall.
  assert (x ≤ tn) by (apply Hall; apply list_elem_of_lookup; eauto).
  unfold After. by rewrite (proj2 (Z.ltb_ge tn x)).
Qed.

(** X2.  On a start that is not yet a key, [AddLineItem] opens the bucket
    [l] and adds the start to the index once: at the end when the last
    timestamp of the index is before it (the loop's first round), at the
    front when no timestamp is before it. *)
Theorem AddLineItem_new_start (w : World Report) (l : LineItem) :
  LineItems (store w) !! Start l = None →
  ∃ w', AddLineItem l w = (Some (), w')
    ∧ logged w' = logged w
    ∧ LineItems (store w') = <[Start l := [l]]> (LineItems (store w))
    ∧ TimePts (store w') ≡ₚ Start l :: TimePts (store w)
    ∧ (∀ t, last (TimePts (store w)) = Some t → t < Start l →
            TimePts (store w') = TimePts (store w) ++ [Start l])
    ∧ (Forall (λ t, Start l ≤ t) (TimePts (store w)) →
       TimePts (store w') = Start l :: TimePts (store w)).
Proof.
  intros Hm. rewrite AddLineItem_run. eexists; split; [done|]. simpl.
  unfold noticed, added. rewrite Hm. simpl.
  split; [by rewrite app_nil_r|]. split; [done|].
  assert (∀ p, insertAt p (TimePts (store w)) (Start l)
               ≡ₚ Start l :: TimePts (store w)) as Hperm.
  { intros p. unfold insertAt. rewrite <- Permutation_middle.
    by rewrite take_drop. }
  split; [unfold placed; destruct (slot _ _ _); apply Hperm|].
  split.
  - intros t Hlast Hlt. unfold placed. rewrite (slot_last _ t) by done.
    unfold insertAt.
    assert (length (TimePts (store w)) ≠ 0)%nat
      by (destruct (TimePts (store w)); [done|simpl; lia]).
    replace (S (length (TimePts (store w)) - 1)) with (length (TimePts (store w)))
      by lia.
    by rewrite firstn_all, drop_all.
  - intros Hall. unfold placed. by rewrite slot_none_before.
Qed.

Lemma AddLineItem_new_start_witness :
  ∃ w', AddLineItem (sampleItem 5 25 26 "D" 3) (mkWorld sampleStore3 []) = (Some (), w')
    ∧ TimePts (store w') = [10; 20; 25; 30].
Proof.
  destruct (AddLineItem_new_start (mkWorld sampleStore3 [])
              (sampleItem 5 25 26 "D" 3) eq_refl) as (w' & Hrun & _).
  exists w'. split; [exact Hrun|].
  rewrite AddLineItem_run in Hrun. injection Hrun as <-. reflexivity.
Defined.

(** ** Sequences of ingestions: what the store holds *)

Lemma foldl_added_app pre post r :
  foldl (λ r l, added l r) r (pre ++ post)
  = foldl (λ r l, added l r) (foldl (λ r l, added l r) r pre) post.
Proof. apply foldl_app. Qed.

Lemma foldl_added_keyed ls r :
  keyed r → keyed (foldl (λ r l, added l r) r ls).
Proof.
  revert r. induction ls as [|l rest IH]; intros r Hk; simpl; [done|].
  apply IH. by apply added_keyed.
Qed.

Lemma foldl_added_represents ls r l :
  l ∈ ls →
  ∃ lids x, LineItems (foldl (λ r l, added l r) r ls) !! Start l = Some lids
            ∧ x ∈ lids ∧ UID x = UID l.
Proof.
  revert r. induction ls as [|l0 rest IH]; intros r Hin; simpl.
  - by apply elem_of_nil in Hin.
  - apply elem_of_cons in Hin as [->|Hin]; [|by apply IH].
    destruct (added_hasUID l0 r) as (lids & Hl & Hdup).
    apply hasUID_true in Hdup as (x & Hx & Heq).
    destruct (foldl_added_keeps rest (added l0 r) (Start l0) lids x Hl Hx)
      as (lids' & Hl' & Hx').
    by exists lids', x.
Qed.

(** X3.  Of the ingested items that share a start and a [UID], the first
    one is the one the store holds: an item that no earlier item of the
    sequence matches in both is in the bucket of its start at the end,
    whatever follows it. *)
Theorem ingest_first_wins
    (pre post : list LineItem) (l : LineItem) (lg : list string) :
  (∀ x, x ∈ pre → Start x = Start l → UID x ≠ UID l) →
  ∃ w lids, ingest (pre ++ l :: post) (mkWorld emptyReport lg) = (Some (), w)
            ∧ LineItems (store w) !! Start l = Some lids ∧ l ∈ lids.
Proof.
  intros Hfirst.
  destruct (ingest_run (pre ++ l :: post) (mkWorld emptyReport lg)) as (lg' & ->).
  simpl. rewrite foldl_added_app. simpl.
  set (r1 := foldl (λ r l, added l r) emptyReport pre).
  assert (allItems (λ it, it ∈ pre) r1) as Hall.
  { apply foldl_added_allItems; [|apply emptyReport_allItems].
    by apply Forall_forall. }
  assert (keyed r1) as Hkeyed
    by (apply foldl_added_keyed, emptyReport_keyed).
  destruct (added_stores l r1) as (lids & Hl & Hin).
  { intros lids x Hm Hx. apply Hfirst; [by eapply Hall|by eapply Hkeyed]. }
  destruct (foldl_added_keeps post (added l r1) (Start l) lids l Hl Hin)
    as (lids' & Hl' & Hin').
  by eexists _, lids'.
Qed.

Lemma ingest_first_wins_witness :
  ∃ w lids,
    ingest ([sampleItem 1 10 20 "A" 1.5]
            ++ sampleItem 2 10 12 "B" 0 :: [sampleItem 2 10 30 "C" 3])
      (mkWorld emptyReport []) = (Some (), w)
    ∧ LineItems (store w) !! Start (sampleItem 2 10 12 "B" 0) = Some lids
    ∧ sampleItem 2 10 12 "B" 0 ∈ lids.
Proof.
  apply (ingest_first_wins [sampleItem 1 10 20 "A" 1.5]
           [sampleItem 2 10 30 "C" 3] (sampleItem 2 10 12 "B" 0) []).
  intros x Hx _. apply list_elem_of_singleton in Hx as ->. discriminate.
Defined.

(** X4.  After any sequence of ingestions into an empty report the store
    holds ingested items only, each under its own start, and every
    ingested item is represented: the bucket of its start holds an item of
    its [UID]. *)
Theorem ingest_sound_and_complete (ls : list LineItem) (lg : list string) :
  ∃ w, ingest ls (mkWorld emptyReport lg) = (Some (), w)
    ∧ (∀ k lids it, LineItems (store w) !! k = Some lids → it ∈ lids →
                    it ∈ ls ∧ Start it = k)
    ∧ (∀ l, l ∈ ls →
            ∃ lids x, LineItems (store w) !! Start l = Some lids
                      ∧ x ∈ lids ∧ UID x = UID l).
Proof.
  destruct (ingest_run ls (mkWorld emptyReport lg)) as (lg' & ->).
  eexists; split; [done|]. simpl. split.
  - intros k lids it Hk Hit. split.
    + assert (allItems (λ it, it ∈ ls) (foldl (λ r l, added l r) emptyReport ls))
        as Hall.
      { apply foldl_added_allItems; [|apply emptyReport_allItems].
        by apply Forall_forall. }
      by eapply Hall.
    + by eapply (foldl_added_keyed ls emptyReport emptyReport_keyed).
  - intros l Hl. by apply foldl_added_represents.
Qed.

(** ** Ingestion followed by a query *)

Lemma stored_in_window r ws we k lids it :
  I1 r → keyed r → LineItems r !! k = Some lids → it ∈ lids →
  it ∈ window r ws we ↔ ws < End it ∧ Start it ≤ we.
Proof.
  intros [Hs Hkeys]%I1_keys Hkeyed Hk Hit.
  rewrite elem_of_window. split.
  - intros (k' & lids' & Hk' & Hl' & Hit' & Hend). split; [done|].
    rewrite (Hkeyed _ _ _ Hl' Hit'). by eapply prefixLen_take.
  - intros [Hend Hstart]. exists k, lids. split; [|done].
    assert (Start it = k) as Heq by (by eapply Hkeyed).
    assert (k ∈ TimePts r) as Hin by (apply Hkeys; eauto).
    pose proof (take_drop (prefixLen (TimePts r) we) (TimePts r)) as Htd.
    rewrite <- Htd in Hin. apply elem_of_app in Hin as [?|Hin]; [done|].
    apply prefixLen_drop in Hin; [lia|done].
Qed.

(** X5.  Ingestion then query.  On a store that satisfies I1 and whose
    buckets hold the items starting at their key, an item whose [UID] is
    not in the bucket of its start is, once ingested, returned by exactly
    the queries whose window its interval overlaps. *)
Theorem query_after_ingestion
    (w : World Report) (l : LineItem) (ws we : Time) :
  I1 (store w) → keyed (store w) →
  (∀ lids x, LineItems (store w) !! Start l = Some lids → x ∈ lids →
             UID x ≠ UID l) →
  ∃ w1 res, AddLineItem l w = (Some (), w1)
            ∧ FilterByTime ws we w1 = (Some res, w1)
            ∧ (l ∈ res ↔ ws < End l ∧ Start l ≤ we).
Proof.
  intros H1 Hkeyed Hfresh. rewrite AddLineItem_run.
  eexists _, _. split; [done|]. rewrite FilterByTime_run. split; [done|].
  simpl. destruct (added_stores l (store w) Hfresh) as (lids & Hl & Hin).
  eapply stored_in_window; [by apply added_I1|by apply added_keyed|done..].
Qed.

Lemma sampleStore3_I1 : I1 sampleStore3.
Proof.
  split; [repeat constructor|]. split; [|reflexivity].
  apply (bool_decide_unpack (NoDup [10; 20; 30])). vm_compute. exact I.
Defined.

Lemma sampleStore3_keyed : keyed sampleStore3.
Proof.
  intros k lids it Hk Hit. simpl in Hk.
  destruct (decide (k = 10)) as [->|?]; [|destruct (decide (k = 20)) as [->|?];
    [|destruct (decide (k = 30)) as [->|?]]].
  - vm_compute in Hk. injection Hk as <-.
    apply elem_of_cons in Hit as [->|Hit]; [done|].
    by apply list_elem_of_singleton in Hit as ->.
  - vm_compute in Hk. injection Hk as <-.
    by apply list_elem_of_singleton in Hit as ->.
  - vm_compute in Hk. injection Hk as <-.
    by apply list_elem_of_singleton in Hit as ->.
  - rewrite !lookup_insert_ne in Hk by done.
    by rewrite lookup_singleton_ne in Hk.
Defined.

Lemma query_after_ingestion_witness :
  ∃ w1 res,
    AddLineItem (sampleItem 5 25 26 "D" 3) (mkWorld sampleStore3 []) = (Some (), w1)
    ∧ FilterByTime 0 22 w1 = (Some res, w1)
    ∧ (sampleItem 5 25 26 "D" 3 ∈ res
       ↔ 0 < End (sampleItem 5 25 26 "D" 3)
         ∧ Start (sampleItem 5 25 26 "D" 3) ≤ 22).
Proof.
  apply (query_after_ingestion (mkWorld sampleStore3 [])
           (sampleItem 5 25 26 "D" 3) 0 22).
  - apply sampleStore3_I1.
  - apply sampleStore3_keyed.
  - intros lids x Hm. discriminate Hm.
Defined.

(** X6.  Ingestion never takes an item out of a query's result: on such a
    store, whatever a window returned before [AddLineItem] it returns
    after it. *)
Theorem ingestion_keeps_results
    (w : World Report) (l : LineItem) (ws we : Time) :
  I1 (store w) → keyed (store w) →
  ∃ res w1 res1, FilterByTime ws we w = (Some res, w)
                  ∧ AddLineItem l w = (Some (), w1)
                  ∧ FilterByTime ws we w1 = (Some res1, w1)
                  ∧ ∀ it, it ∈ res → it ∈ res1.
Proof.
  intros H1 Hkeyed. rewrite AddLineItem_run.
  eexists _, _, _. rewrite !FilterByTime_run. repeat split. simpl.
  intros it Hit. pose proof Hit as Hit0.
  apply elem_of_window in Hit as (k & lids & Hk & Hl & Hin & Hend).
  pose proof (proj1 (stored_in_window _ ws we k lids it H1 Hkeyed Hl Hin) Hit0)
    as Hover.
  destruct (added_keeps l (store w) k lids it Hl Hin) as (lids' & Hl' & Hin').
  apply (stored_in_window _ ws we k lids' it);
    [by apply added_I1|by apply added_keyed|done..].
Qed.

Lemma ingestion_keeps_results_witness :
  ∃ res w1 res1,
    FilterByTime 0 22 (mkWorld sampleStore3 []) = (Some res, mkWorld sampleStore3 [])
    ∧ AddLineItem (sampleItem 5 15 26 "D" 3) (mkWorld sampleStore3 []) = (Some (), w1)
    ∧ FilterByTime 0 22 w1 = (Some res1, w1)
    ∧ ∀ it, it ∈ res → it ∈ res1.
Proof.
  apply (ingestion_keeps_results (mkWorld sampleStore3 [])
           (sampleItem 5 15 26 "D" 3) 0 22).
  - apply sampleStore3_I1.
  - apply sampleStore3_keyed.
Defined.

(** ** FilterByTime: order, windows, and what it returns on any report *)

Lemma prefixLen_mono ts e e' :
  e ≤ e' → (prefixLen ts e ≤ prefixLen ts e')%nat.
Proof.
  intros He. induction ts as [|t rest IH]; simpl; [lia|].
  unfold After. destruct (e <? t) eqn:H1; [lia|].
  destruct (e' <? t) eqn:H2; [lia|]. lia.
Qed.

Lemma flat_map_sorted_by_start (f : Time → list LineItem) (ks : list Time) :
  StronglySorted Z.lt ks →
  (∀ k it, it ∈ f k → Start it = k) →
  StronglySorted (λ a b, Start a ≤ Start b) (flat_map f ks).
Proof.
  intros Hs Hf. induction Hs as [|k ks Hs IH Hall]; simpl; [constructor|].
  apply StronglySorted_app_2.
  - intros a b Ha Hb. rewrite (Hf k a Ha).
    apply list_elem_of_In, in_flat_map in Hb as (k' & Hk' & Hb).
    apply list_elem_of_In in Hk', Hb. rewrite (Hf k' b Hb).
    rewrite Forall_forall in Hall. specialize (Hall k' Hk'). lia.
  - assert (Forall (λ a, Start a = k) (f k)) as Hsame
      by (apply Forall_forall; intros a Ha; by apply Hf).
    induction Hsame as [|a rest Ha Hrest IHrest]; constructor; [done|].
    eapply Forall_impl; [exact Hrest|]. intros b Hb. simpl in *. lia.
  - done.
Qed.

(** X7.  On a store that satisfies I1 and whose buckets hold the items
    starting at their key, the result of [FilterByTime] is in ascending
    order of start: an item of an earlier start precedes every item of a
    later one. *)
Theorem FilterByTime_sorted_by_start
    (w : World Report) (s e : Time) (res : list LineItem) (w' : World Report) :
  I1 (store w) → keyed (store w) →
  FilterByTime s e w = (Some res, w') →
  StronglySorted (λ a b, Start a ≤ Start b) res.
Proof.
  intros [Hs _] Hkeyed. rewrite FilterByTime_run. intros [= <- <-].
  unfold window. apply flat_map_sorted_by_start.
  - pose proof Hs as Hs'.
    rewrite <- (take_drop (prefixLen (TimePts (store w)) e)) in Hs'.
    by apply StronglySorted_app_1_l in Hs'.
  - intros k it Hit. unfold kept in Hit.
    apply list_elem_of_filter in Hit as [_ Hit].
    destruct (LineItems (store w) !! k) as [lids|] eqn:Hl; simpl in Hit.
    + by eapply Hkeyed.
    + by apply elem_of_nil in Hit.
Qed.

Lemma FilterByTime_sorted_by_start_witness :
  StronglySorted (λ a b, Start a ≤ Start b)
    [sampleItem 1 10 20 "A" 1.5; sampleItem 2 10 12 "B" 0; sampleItem 3 20 40 "A" 3].
Proof.
  apply (FilterByTime_sorted_by_start (mkWorld sampleStore3 []) 0 22 _
           (mkWorld sampleStore3 [])).
  - apply sampleStore3_I1.
  - apply sampleStore3_keyed.
  - reflexivity.
Defined.

(** X8.  A wider window returns at least what a narrower one returns, on
    any report: lowering the window's start or raising its end drops no
    item from the result. *)
Theorem FilterByTime_wider_window
    (w : World Report) (s e s' e' : Time) :
  s' ≤ s → e ≤ e' →
  ∃ res res', FilterByTime s e w = (Some res, w)
              ∧ FilterByTime s' e' w = (Some res', w)
              ∧ ∀ it, it ∈ res → it ∈ res'.
Proof.
  intros Hs He. eexists _, _. rewrite !FilterByTime_run. repeat split.
  intros it. rewrite !elem_of_window.
  intros (k & lids & Hk & Hl & Hit & Hend). exists k, lids.
  split; [|split; [done|split; [done|lia]]].
  apply list_elem_of_lookup in Hk as [i Hi].
  apply lookup_take_Some in Hi as [Hi Hlt].
  apply list_elem_of_lookup. exists i. apply lookup_take_Some. split; [done|].
  pose proof (prefixLen_mono (TimePts (store w)) e e' He). lia.
Qed.

Lemma FilterByTime_wider_window_witness :
  ∃ res res',
    FilterByTime 15 22 (mkWorld sampleStore3 []) = (Some res, mkWorld sampleStore3 [])
    ∧ FilterByTime 0 40 (mkWorld sampleStore3 []) = (Some res', mkWorld sampleStore3 [])
    ∧ ∀ it, it ∈ res → it ∈ res'.
Proof.
  apply (FilterByTime_wider_window (mkWorld sampleStore3 []) 15 22 0 40); lia.
Defined.

(** X9.  [FilterByTime] returns on every report, also one whose index is
    out of order or names a timestamp that the map lacks (which reads as
    an empty bucket), and leaves store and log as they were.  Every item
    it returns ends after the window's start and sits in the bucket of an
    index timestamp that is not after the window's end; on an index that
    starts after the window's end it returns nothing. *)
Theorem FilterByTime_returns_stored (w : World Report) (s e : Time) :
  ∃ res, FilterByTime s e w = (Some res, w)
    ∧ (∀ it, it ∈ res →
         ∃ k lids, k ∈ TimePts (store w) ∧ k ≤ e
                   ∧ LineItems (store w) !! k = Some lids
                   ∧ it ∈ lids ∧ s < End it)
    ∧ (∀ t, head (TimePts (store w)) = Some t → e < t → res = [])
    ∧ (TimePts (store w) = [] → res = []).
Proof.
  rewrite FilterByTime_run. eexists; split; [done|]. split; [|split].
  - intros it (k & lids & Hk & Hl & Hit & Hend)%elem_of_window.
    exists k, lids. split.
    { apply list_elem_of_lookup in Hk as [i Hi].
      apply lookup_take_Some in Hi as [Hi _].
      apply list_elem_of_lookup. eauto. }
    split; [by eapply prefixLen_take|done].
  - intros t Hhead Hlt. unfold window.
    destruct (TimePts (store w)) as [|t0 ts]; [done|].
    simpl in Hhead. injection Hhead as ->. simpl. unfold After.
    by rewrite (proj2 (Z.ltb_lt e t) Hlt).
  - intros Hnil. unfold window. by rewrite Hnil.
Qed.

(** ** GroupBy: panics, keys and log *)

Lemma billSafe_not fields item :
  ¬ billSafe fields item
  ↔ BillPtr item = None ∧ "bill/PayerAccountId" ∈ fields.
Proof.
  unfold billSafe. destruct (BillPtr item) as [b|].
  - split; [intros Hn; exfalso; apply Hn; left; by eexists|by intros [? _]].
  - split.
    + intros Hn. split; [done|].
      destruct (decide ("bill/PayerAccountId" ∈ fields)); [done|].
      exfalso. apply Hn. by right.
    + intros [_ Hin] [[? ?]|Hnot]; done.
Qed.

(** X10.  [GroupBy] panics exactly when the payer account is one of the
    requested fields and an item in the window has no bill; with any other
    fields, or bills on all items in the window, it returns. *)
Theorem GroupBy_panics_iff
    (w : World Report) (fields : list string) (s e : Time) :
  ∃ items, FilterByTime s e w = (Some items, w)
    ∧ (fst (GroupBy fields s e w) = None
       ↔ "bill/PayerAccountId" ∈ fields
         ∧ ∃ item, item ∈ items ∧ BillPtr item = None).
Proof.
  rewrite FilterByTime_run. eexists; split; [done|].
  destruct (all_or_some_unsafe fields (window (store w) s e)) as [Hall|Hex].
  - rewrite GroupBy_run by done. simpl. split; [done|].
    intros (Hin & item & Hitem & Hnil). rewrite Forall_forall in Hall.
    specialize (Hall item Hitem). apply specKey_is_Some in Hall.
    exfalso. by apply (proj2 (billSafe_not fields item)).
  - split.
    + intros _. apply Exists_exists in Hex as (item & Hitem & Hnone).
      apply specKey_None, billSafe_not in Hnone as [Hnil Hin]. eauto.
    + intros _. unfold GroupBy, bind. rewrite FilterByTime_run.
      by apply GroupBy_items_panics.
Qed.

Lemma addTo_is_Some res key c key' :
  is_Some (addTo res key c !! key') ↔ key' = key ∨ is_Some (res !! key').
Proof.
  unfold addTo. destruct (decide (key' = key)) as [->|Hne].
  - rewrite lookup_insert_eq. split; [by left|by eexists].
  - rewrite lookup_insert_ne by done. split; [by right|by intros [?|?]].
Qed.

Lemma foldl_accumulate_is_Some fields items res key :
  is_Some (foldl (accumulate fields) res items !! key)
  ↔ is_Some (res !! key)
    ∨ ∃ item, item ∈ items ∧ (0 <? UnblendedCost item)%float = true
              ∧ specKey fields item = Some key.
Proof.
  revert res. induction items as [|item rest IH]; intros res; simpl.
  - split; [by left|]. intros [?|(item & Hin & _)]; [done|].
    by apply elem_of_nil in Hin.
  - rewrite IH. unfold accumulate at 1, credit.
    destruct (0 <? UnblendedCost item)%float eqn:Hpos.
    + destruct (specKey fields item) as [key0|] eqn:Hkey.
      * rewrite addTo_is_Some. split.
        -- intros [[->|?]|(it & Hin & Hp & Hk)].
           ++ right. exists item. split; [apply elem_of_cons; by left|done].
           ++ by left.
           ++ right. exists it. split; [apply elem_of_cons; by right|done].
        -- intros [?|(it & Hin & Hp & Hk)]; [left; by right|].
           apply elem_of_cons in Hin as [->|Hin].
           ++ left. left. congruence.
           ++ right. by exists it.
      * split.
        -- intros [?|(it & Hin & Hp & Hk)]; [by left|].
           right. exists it. split; [apply elem_of_cons; by right|done].
        -- intros [?|(it & Hin & Hp & Hk)]; [by left|].
           apply elem_of_cons in Hin as [->|Hin]; [congruence|].
           right. by exists it.
    + split.
      * intros [?|(it & Hin & Hp & Hk)]; [by left|].
        right. exists it. split; [apply elem_of_cons; by right|done].
      * intros [?|(it & Hin & Hp & Hk)]; [by left|].
        apply elem_of_cons in Hin as [->|Hin]; [congruence|].
        right. by exists it.
Qed.

(** X11.  The keys of the result of [GroupBy] are exactly the composite
    keys of the items in the window whose unblended cost is strictly
    positive: every such item has its key in the result, and no other key
    is there. *)
Theorem GroupBy_keys
    (w : World Report) (fields : list string) (s e : Time) :
  ∃ items, FilterByTime s e w = (Some items, w)
    ∧ ∀ res, fst (GroupBy fields s e w) = Some res →
        ∀ key, is_Some (res !! key)
               ↔ ∃ item, item ∈ items
                         ∧ (0 <? UnblendedCost item)%float = true
                         ∧ specKey fields item = Some key.
Proof.
  rewrite FilterByTime_run. eexists; split; [done|].
  intros res [_ ->]%GroupBy_returns key.
  rewrite foldl_accumulate_is_Some, lookup_empty. split.
  - by intros [[? ?]|?].
  - by right.
Qed.

Lemma warnings_recognized fields :
  Forall (λ field, field ∈ recognizedNames) fields → warnings fields = [].
Proof.
  induction 1 as [|field rest Hf Hrest IH]; [done|].
  rewrite warnings_cons. destruct (recognize field) eqn:Hr; [done|].
  by apply recognize_None in Hr.
Qed.

Lemma GroupBy_field_recognized item keyParts field w :
  field ∈ recognizedNames →
  snd (GroupBy_field item keyParts field w) = w.
Proof.
  intros Hf. rewrite GroupBy_field_run.
  destruct (recognize field) as [g|] eqn:Hr.
  - by destruct (fieldString item g).
  - by apply recognize_None in Hr.
Qed.

Lemma GroupBy_keyParts_recognized fields item keyParts w :
  Forall (λ field, field ∈ recognizedNames) fields →
  snd (GroupBy_keyParts fields item keyParts w) = w.
Proof.
  intros Hall. revert keyParts.
  induction Hall as [|field rest Hf Hrest IH]; intros keyParts; simpl; [done|].
  unfold bind. pose proof (GroupBy_field_recognized item keyParts field w Hf) as Hw.
  destruct (GroupBy_field item keyParts field w) as [[kp|] w1]; simpl in Hw; subst.
  - apply IH.
  - done.
Qed.

Lemma GroupBy_items_recognized items fields res w :
  Forall (λ field, field ∈ recognizedNames) fields →
  snd (GroupBy_items items fields res w) = w.
Proof.
  intros Hall. revert res.
  induction items as [|item rest IH]; intros res; simpl; [done|].
  unfold bind.
  pose proof (GroupBy_keyParts_recognized fields item [] w Hall) as Hw.
  destruct (GroupBy_keyParts fields item [] w) as [[kp|] w1]; simpl in Hw; subst.
  - destruct (0 <? UnblendedCost item)%float; apply IH.
  - done.
Qed.

Lemma length_warnings fields :
  length (warnings fields)
  = length (filter (λ field, field ∉ recognizedNames) fields).
Proof.
  induction fields as [|field rest IH]; [done|].
  rewrite warnings_cons, filter_cons. destruct (recognize field) eqn:Hr.
  - rewrite decide_False; [done|].
    intros Hn. apply recognize_None in Hn. congruence.
  - rewrite decide_True by (by apply recognize_None). simpl. by rewrite IH.
Qed.

(** X12.  When every requested field is a recognized one, [GroupBy] logs
    nothing and leaves the world exactly as it was, whether it returns or
    panics.  When it returns, it has logged one warning for each
    unrecognized requested field and each item in the window, also for the
    items whose cost is not positive. *)
Theorem GroupBy_log
    (w : World Report) (fields : list string) (s e : Time) :
  (Forall (λ field, field ∈ recognizedNames) fields →
   snd (GroupBy fields s e w) = w)
  ∧ ∃ items, FilterByTime s e w = (Some items, w)
      ∧ (is_Some (fst (GroupBy fields s e w)) →
         ∃ lines, logged (snd (GroupBy fields s e w)) = logged w ++ lines
                  ∧ length lines
                    = (length items
                       * length (filter (λ field, field ∉ recognizedNames) fields))%nat).
Proof.
  split.
  - intros Hall. unfold GroupBy, bind. rewrite FilterByTime_run.
    by apply GroupBy_items_recognized.
  - rewrite FilterByTime_run. eexists; split; [done|].
    intros [res [Hsafe _]%GroupBy_returns]. rewrite GroupBy_safe by done.
    simpl. eexists; split; [done|].
    rewrite <- length_warnings. unfold warned. clear Hsafe.
    induction (window (store w) s e) as [|item rest IH]; [done|].
    simpl. rewrite length_app, IH. lia.
Qed.

(** X13.  With no recognized field among the requested ones (the empty
    field list is one case) [GroupBy] never panics, and its result has no
    key but the empty string: every item of positive cost in the window
    is summed under it. *)
Theorem GroupBy_without_recognized_field
    (w : World Report) (fields : list string) (s e : Time) :
  Forall (λ field, field ∉ recognizedNames) fields →
  ∃ res, fst (GroupBy fields s e w) = Some res
         ∧ ∀ key, is_Some (res !! key) → key = "".
Proof.
  intros Hall.
  assert (∀ item, specKey fields item = Some "") as Hkey.
  { intros item. unfold specKey, specKeyParts.
    assert (omap recognize fields = []) as ->; [|done].
    induction Hall as [|field rest Hf Hrest IH]; [done|].
    simpl. by rewrite (proj2 (recognize_None field) Hf). }
  rewrite GroupBy_run.
  - eexists; split; [done|]. intros key.
    rewrite foldl_accumulate_is_Some, lookup_empty.
    intros [[? ?]|(item & _ & _ & Hk)]; [done|].
    rewrite Hkey in Hk. congruence.
  - apply Forall_forall. intros item _. rewrite Hkey. by eexists.
Qed.

Lemma GroupBy_without_recognized_field_witness :
  ∃ res, fst (GroupBy ["color"; "shape"] 0 100 (mkWorld sampleStore3 [])) = Some res
         ∧ ∀ key, is_Some (res !! key) → key = "".
Proof.
  apply (GroupBy_without_recognized_field (mkWorld sampleStore3 [])
           ["color"; "shape"] 0 100).
  repeat constructor; unfold recognizedNames; rewrite !not_elem_of_cons;
    repeat split; try discriminate; apply not_elem_of_nil.
Defined.

(** ** The decoder: the interval and the decoded fields *)

Lemma length_Split s sep : length (Split s sep) = S (occurrences sep s).
Proof.
  induction s as [|c rest IH]; simpl; [done|].
  destruct (Ascii.eqb c sep); simpl; [by rewrite IH|].
  destruct (Split rest sep); simpl in *; lia.
Qed.

Lemma Split_without s sep : occurrences sep s = O → Split s sep = [s].
Proof.
  induction s as [|c rest IH]; simpl; [done|].
  destruct (Ascii.eqb c sep); simpl; [done|].
  intros Hocc. by rewrite IH.
Qed.

Lemma Split_append a b sep :
  occurrences sep a = O → Split (a +:+ String sep b) sep = a :: Split b sep.
Proof.
  induction a as [|c rest IH]; simpl.
  - intros _. by rewrite Ascii.eqb_refl.
  - destruct (Ascii.eqb c sep); simpl; [done|].
    intros Hocc. by rewrite IH.
Qed.

(** X14.  [NewLineItem] answers with the invalid-interval error exactly
    when the interval string does not hold exactly one slash, whatever the
    other fields are; the error carries the interval as it was given. *)
Theorem NewLineItem_interval_error {libs : Libs}
    (id timeInterval az blendedCost blendedRate currencyCode legalEntity
     lineItemDescription lineItemType normalizationFactor operation productCode
     resourceID taxType unblendedCost unblendedRate usageAccountID usageAmount
     usageStart usageEnd usageType : string) :
  NewLineItem id timeInterval az blendedCost blendedRate currencyCode
    legalEntity lineItemDescription lineItemType normalizationFactor
    operation productCode resourceID taxType unblendedCost unblendedRate
    usageAccountID usageAmount usageStart usageEnd usageType
  = Err ("Invalid time interval, " +:+ timeInterval)
  ↔ occurrences "/" timeInterval ≠ 1%nat.
Proof.
  pose proof (length_Split timeInterval "/") as Hlen.
  unfold NewLineItem.
  destruct (Split timeInterval "/") as [|t0 [|t1 [|t2 ts]]]; simpl in Hlen.
  - lia.
  - split; [intros _; lia|done].
  - split; [|lia]. decode; intros [=].
  - split; [intros _; lia|done].
Qed.

(** X15.  The interval [a/b] of a row, with no slash inside [a] or [b],
    gives the item the start that [a] parses to and the end that [b] parses
    to; its [UID] is the hash of the identifier, its costs are what the
    cost strings parse to, and the eight descriptive fields are the row's
    strings. *)
Theorem NewLineItem_decodes {libs : Libs}
    (id a b az blendedCost blendedRate currencyCode legalEntity
     lineItemDescription lineItemType normalizationFactor operation productCode
     resourceID taxType unblendedCost unblendedRate usageAccountID usageAmount
     usageStart usageEnd usageType : string) (l : LineItem) :
  occurrences "/" a = O → occurrences "/" b = O →
  NewLineItem id (a +:+ "/" +:+ b) az blendedCost blendedRate currencyCode
    legalEntity lineItemDescription lineItemType normalizationFactor
    operation productCode resourceID taxType unblendedCost unblendedRate
    usageAccountID usageAmount usageStart usageEnd usageType = Ok l →
  UID l = Sum64String id
  ∧ Start l = fst (time_Parse a) ∧ End l = fst (time_Parse b)
  ∧ BlendedCost l = fst (ParseFloat blendedCost)
  ∧ UnblendedCost l = fst (ParseFloat unblendedCost)
  ∧ UsageStartDate l = fst (time_Parse usageStart)
  ∧ UsageEndDate l = fst (time_Parse usageEnd)
  ∧ CurrencyCode l = currencyCode ∧ LegalEntity l = legalEntity
  ∧ LineItemDescription l = lineItemDescription
  ∧ LineItemType l = lineItemType ∧ Operation l = operation
  ∧ ProductCode l = productCode ∧ ResourceID l = resourceID
  ∧ TaxType l = taxType.
Proof.
  intros Ha Hb. unfold NewLineItem.
  change (a +:+ "/" +:+ b) with (a +:+ String "/" b).
  rewrite (Split_append a b "/" Ha), (Split_without b "/" Hb).
  destruct (time_Parse a) as [va [?|]]; simpl; [done|].
  destruct (time_Parse b) as [vb [?|]]; simpl; [done|].
  destruct (ParseFloat blendedCost) as [vbc [?|]] eqn:Hbc; simpl; [done|].
  destruct (ParseFloat blendedRate) as [vbr [?|]]; simpl; [done|].
  destruct (ParseFloat normalizationFactor) as [vnf [?|]]; simpl;
    (destruct (String.eqb normalizationFactor ""); simpl; [|try done]);
    (destruct (ParseFloat unblendedCost) as [vuc [?|]] eqn:Huc; simpl; [done|]);
    (destruct (ParseFloat unblendedRate) as [vur [?|]]; simpl;
     (destruct (String.eqb unblendedRate ""); simpl; [|try done]);
     (destruct (time_Parse usageStart) as [vus [?|]]; simpl; [done|]);
     (destruct (time_Parse usageEnd) as [vue [?|]]; simpl; [done|]);
     intros [= <-]; simpl; rewrite ?Hbc, ?Huc; by repeat split).
Qed.

Lemma NewLineItem_decodes_witness :
  Start sampleConstructed = 1588291200 ∧ End sampleConstructed = 1588294800
  ∧ ProductCode sampleConstructed = "AmazonEC2".
Proof.
  destruct (@NewLineItem_decodes sampleLibs "abc123"
              "2020-05-01T00:00:00Z" "2020-05-01T01:00:00Z" "us-east-1a"
              "1.5" "1.5" "USD" "Amazon Web Services" "hours" "Usage" ""
              "RunInstances" "AmazonEC2" "i-0abc" "" "1.5" "" "123456789012"
              "7" "2020-05-01T00:00:00Z" "2020-05-01T01:00:00Z" "BoxUsage"
              sampleConstructed)
    as (_ & Hs & He & _ & _ & _ & _ & _ & _ & _ & _ & _ & Hp & _).
  - reflexivity.
  - reflexivity.
  - vm_compute; reflexivity.
  - split; [exact Hs|]. split; [exact He|exact Hp].
Defined.

(** ** NewReport: the header, the rows and the first failure *)

Lemma headerIndex_absent headers i m h :
  h ∉ headers → headerIndex headers i m !! h = m !! h.
Proof.
  revert i m. induction headers as [|x rest IH]; intros i m Hh; simpl; [done|].
  apply not_elem_of_cons in Hh as [Hne Hh].
  rewrite IH by done. by rewrite lookup_insert_ne.
Qed.

Lemma headerIndex_last headers i m h p :
  headers !! p = Some h →
  (∀ q, (p < q)%nat → headers !! q ≠ Some h) →
  headerIndex headers i m !! h = Some (i + p)%nat.
Proof.
  revert i m p. induction headers as [|x rest IH]; intros i m p Hp Hlast; [done|].
  simpl. destruct p as [|p]; simpl in Hp.
  - injection Hp as ->. rewrite headerIndex_absent.
    + rewrite lookup_insert_eq. f_equal. lia.
    + intros [q Hq]%list_elem_of_lookup. by apply (Hlast (S q)); [lia|].
  - rewrite (IH (S i) _ p Hp).
    + f_equal. lia.
    + intros q Hq. apply (Hlast (S q)). lia.
Qed.

Lemma last_occurrence (headers : list string) h :
  h ∈ headers →
  ∃ p, headers !! p = Some h ∧ ∀ q, (p < q)%nat → headers !! q ≠ Some h.
Proof.
  induction headers as [|x rest IH]; [by intros ?%elem_of_nil|].
  intros Hin. destruct (decide (h ∈ rest)) as [Hrest|Hrest].
  - destruct (IH Hrest) as (p & Hp & Hlast). exists (S p). split; [done|].
    intros [|q] Hq; [lia|]. simpl. apply Hlast. lia.
  - apply elem_of_cons in Hin as [->|?]; [|done]. exists 0%nat. split; [done|].
    intros [|q] Hq; [lia|]. simpl. intros Hq'. apply Hrest.
    apply list_elem_of_lookup. eauto.
Qed.

(** X16.  The header index built by [NewReport] maps a column name to the
    position of its last occurrence in the header line, so a repeated
    column name is read at its last position, and a name that the header
    lacks has no entry. *)
Theorem headerIndex_last_wins (headers : list string) (h : string) (i : nat) :
  (headerIndex headers 0 ∅ !! h = Some i
   ↔ headers !! i = Some h ∧ ∀ j, (i < j)%nat → headers !! j ≠ Some h)
  ∧ (headerIndex headers 0 ∅ !! h = None ↔ h ∉ headers).
Proof.
  split; split.
  - intros Hi. destruct (decide (h ∈ headers)) as [Hin|Hnot].
    + destruct (last_occurrence headers h Hin) as (p & Hp & Hlast).
      rewrite (headerIndex_last headers 0 ∅ h p Hp Hlast) in Hi.
      by simplify_eq/=.
    + by rewrite headerIndex_absent, lookup_empty in Hi.
  - intros [Hi Hlast]. by rewrite (headerIndex_last headers 0 ∅ h i Hi Hlast).
  - intros Hnone Hin.
    destruct (last_occurrence headers h Hin) as (p & Hp & Hlast).
    by rewrite (headerIndex_last headers 0 ∅ h p Hp Hlast) in Hnone.
  - intros Hnot. by rewrite headerIndex_absent, lookup_empty.
Qed.

(** X17.  A column whose name the header lacks is read, without panic and
    without error, from the first field of the row. *)
Theorem column_of_missing_header
    (text name : string) (headerIdx : gmap string nat) (w : World Report) :
  headerIdx !! name = None →
  ∃ first, head (Split text ",") = Some first
           ∧ column (Split text ",") headerIdx name w = (Some first, w).
Proof.
  intros Hnone. unfold column, index. rewrite Hnone. simpl.
  pose proof (length_Split text ",") as Hlen.
  destruct (Split text ",") as [|first rest]; simpl in *; [lia|].
  by exists first.
Qed.

Lemma column_of_missing_header_witness :
  ∃ first, head (Split sampleRow ",") = Some first
           ∧ column (Split sampleRow ",")
               (headerIndex (Split sampleHeader ",") 0 ∅) "lineItem/Color"
               (mkWorld emptyReport [])
             = (Some first, mkWorld emptyReport [])
           ∧ first = "abc123".
Proof.
  destruct (column_of_missing_header sampleRow "lineItem/Color"
              (headerIndex (Split sampleHeader ",") 0 ∅)
              (mkWorld emptyReport [])) as (first & Hhead & Hcol).
  - vm_compute; reflexivity.
  - exists first. split; [exact Hhead|]. split; [exact Hcol|].
    vm_compute in Hhead. by injection Hhead as <-.
Defined.

Lemma NewReport_rows_app {libs : Libs} headerIdx good rest w w1 :
  NewReport_rows headerIdx good w = (Some (Ok ()), w1) →
  NewReport_rows headerIdx (good ++ rest) w = NewReport_rows headerIdx rest w1.
Proof.
  revert w. induction good as [|text good IH]; intros w; simpl.
  - by intros [= <-].
  - unfold bind at 1 3.
    destruct (NewReport_row headerIdx text w) as [[[l|err]|] w0]; [|done..].
    unfold bind. rewrite AddLineItem_run. apply IH.
Qed.

(** X18.  The load stops at the first row that fails to decode: the rows
    after it are not read, the report built so far is dropped, and
    [NewReport] returns that row's error, having logged what the rows
    before it logged. *)
Theorem NewReport_fails_fast {libs : Libs}
    (header : string) (good : list string) (bad : string) (rest : list string)
    (err : string) (w1 : World Report) :
  NewReport_rows (headerIndex (Split header ",") 0 ∅) good
    (mkWorld emptyReport []) = (Some (Ok ()), w1) →
  fst (NewReport_row (headerIndex (Split header ",") 0 ∅) bad w1)
  = Some (Err err) →
  NewReport (header :: good ++ bad :: rest) = (Some (Err err), logged w1).
Proof.
  intros Hgood Hbad. unfold NewReport. simpl.
  rewrite (NewReport_rows_app _ good (bad :: rest) _ w1 Hgood). simpl.
  unfold bind.
  destruct (NewReport_row_run (headerIndex (Split header ",") 0 ∅) bad w1)
    as (res & Hrow & _).
  rewrite Hrow in Hbad |- *. simpl in Hbad. by subst res.
Qed.

Lemma NewReport_fails_fast_witness :
  @NewReport sampleLibs (sampleHeader :: [sampleRow] ++ sampleBadRow :: [sampleRow])
  = (Some (Err "Could not parse unblendedCost, invalid syntax"), []).
Proof.
  apply (@NewReport_fails_fast sampleLibs sampleHeader [sampleRow] sampleBadRow
           [sampleRow] "Could not parse unblendedCost, invalid syntax"
           (mkWorld sampleReport [])).
  - vm_compute; reflexivity.
  - vm_compute; reflexivity.
Defined.

Lemma NewReport_row_short {libs : Libs} headerIdx text w name :
  name ∈ lineItemColumns →
  (length (Split text ",") ≤ default 0%nat (headerIdx !! name))%nat →
  fst (NewReport_row headerIdx text w) = None.
Proof.
  intros Hname Hlen. apply lookup_ge_None_2 in Hlen.
  unfold NewReport_row, column, index.
  unfold lineItemColumns in Hname.
  repeat (apply elem_of_cons in Hname as [->|Hname]; [solve [short_row]|]).
  by apply elem_of_nil in Hname.
Qed.

Lemma NewReport_row_in_range {libs : Libs} headerIdx text w :
  (∀ name, name ∈ lineItemColumns ++ billColumns →
           (default 0%nat (headerIdx !! name) < length (Split text ","))%nat) →
  is_Some (fst (NewReport_row headerIdx text w)).
Proof.
  intros Hall.
  assert (∀ name, name ∈ lineItemColumns ++ billColumns →
                  is_Some (Split text "," !! default 0%nat (headerIdx !! name)))
    as Hsome by (intros name Hn; by apply lookup_lt_is_Some_2, Hall).
  unfold NewReport_row, column, index.
  in_range Hsome. unfold orPanic. simpl. unfold bind at 1; simpl.
  match goal with
  | |- context [NewLineItem ?a1 ?a2 ?a3 ?a4 ?a5 ?a6 ?a7 ?a8 ?a9 ?a10 ?a11
                  ?a12 ?a13 ?a14 ?a15 ?a16 ?a17 ?a18 ?a19 ?a20 ?a21] =>
      destruct (NewLineItem a1 a2 a3 a4 a5 a6 a7 a8 a9 a10 a11 a12 a13 a14
                  a15 a16 a17 a18 a19 a20 a21) as [l|err]
  end; [|by eexists].
  in_range Hsome.
  match goal with
  | |- context [NewBill ?b1 ?b2 ?b3 ?b4 ?b5 ?b6] =>
      destruct (NewBill b1 b2 b3 b4 b5 b6) as [b|err]
  end; by eexists.
Qed.

(** X19.  A row panics (index out of range) as soon as one of the twenty
    columns of its [NewLineItem] call lies beyond its last field, whatever
    the fields hold; a row that reaches every column it reads never
    panics: it decodes or fails with an error. *)
Theorem NewReport_row_bounds {libs : Libs}
    (headerIdx : gmap string nat) (text : string) (w : World Report) :
  (∀ name, name ∈ lineItemColumns →
           (length (Split text ",") ≤ default 0%nat (headerIdx !! name))%nat →
           fst (NewReport_row headerIdx text w) = None)
  ∧ ((∀ name, name ∈ lineItemColumns ++ billColumns →
              (default 0%nat (headerIdx !! name) < length (Split text ","))%nat) →
     is_Some (fst (NewReport_row headerIdx text w))).
Proof.
  split; [intros name; apply NewReport_row_short|apply NewReport_row_in_range].
Qed.

Lemma NewReport_row_bounds_witness :
  fst (@NewReport_row sampleLibs (headerIndex (Split sampleHeader ",") 0 ∅)
         "abc123,2020-05-01T00:00:00Z/2020-05-01T01:00:00Z"
         (mkWorld emptyReport [])) = None.
Proof.
  apply (proj1 (@NewReport_row_bounds sampleLibs
                  (headerIndex (Split sampleHeader ",") 0 ∅)
                  "abc123,2020-05-01T00:00:00Z/2020-05-01T01:00:00Z"
                  (mkWorld emptyReport []))
           "lineItem/ProductCode").
  - unfold lineItemColumns.
    repeat first [apply list_elem_of_here | apply list_elem_of_further].
  - vm_compute. lia.
Defined.

(** ** NewReport: the report it returns *)

Lemma NewReport_row_blank {libs : Libs} headerIdx text w l :
  fst (NewReport_row headerIdx text w) = Some (Ok l) → blankFields l.
Proof.
  unfold NewReport_row, column, index.
  repeat match goal with
         | |- context [orPanic (?a !! ?i)] =>
             destruct (a !! i) eqn:?; unfold bind at 1; simpl; [|done]
         end.
  unfold bind at 1; simpl.
  match goal with
  | |- context [NewLineItem ?a1 ?a2 ?a3 ?a4 ?a5 ?a6 ?a7 ?a8 ?a9 ?a10 ?a11
                  ?a12 ?a13 ?a14 ?a15 ?a16 ?a17 ?a18 ?a19 ?a20 ?a21] =>
      destruct (NewLineItem a1 a2 a3 a4 a5 a6 a7 a8 a9 a10 a11 a12 a13 a14
                  a15 a16 a17 a18 a19 a20 a21) as [l0|err] eqn:Hl
  end; [|done].
  apply NewLineItem_unassigned in Hl as (Haz & Hua & Hid & Hut & _).
  repeat match goal with
         | |- context [orPanic (?a !! ?i)] =>
             destruct (a !! i) eqn:?; unfold bind at 1; simpl; [|done]
         end.
  match goal with
  | |- context [NewBill ?b1 ?b2 ?b3 ?b4 ?b5 ?b6] =>
      destruct (NewBill b1 b2 b3 b4 b5 b6) as [b|err]
  end; [|done].
  simpl. intros [= <-]. by destruct l0.
Qed.

Lemma NewReport_rows_blank {libs : Libs} headerIdx rows w :
  ∃ res ls lg,
    NewReport_rows headerIdx rows w
      = (res, mkWorld (foldl (λ r l, added l r) (store w) ls) lg)
    ∧ Forall blankFields ls.
Proof.
  revert w. induction rows as [|text rest IH]; intros w; simpl.
  - exists (Some (Ok ())), [], (logged w). by destruct w.
  - unfold bind at 1.
    pose proof (NewReport_row_blank headerIdx text w) as Hblank.
    destruct (NewReport_row_run headerIdx text w) as (res & Hrow & _).
    rewrite Hrow in Hblank |- *. simpl in Hblank.
    destruct res as [[l|err]|].
    + unfold bind. rewrite AddLineItem_run.
      destruct (IH (mkWorld (added l (store w)) (logged w ++ noticed l (store w))))
        as (res' & ls & lg & -> & Hls).
      exists res', (l :: ls), lg. split; [done|].
      constructor; [by apply Hblank|done].
    + exists (Some (Err err)), [], (logged w). by destruct w.
    + exists None, [], (logged w). by destruct w.
Qed.

Lemma window_stored r s e it :
  it ∈ window r s e → ∃ k lids, LineItems r !! k = Some lids ∧ it ∈ lids.
Proof. intros (k & lids & _ & Hl & Hit & _)%elem_of_window. eauto. Qed.

(** X20.  A report that [NewReport] returns has a strictly ascending,
    duplicate-free index that holds exactly the keys of its map; each of
    its items is in the bucket of its own start, no bucket holds two items
    of one [UID], and every item has a bill. *)
Theorem NewReport_report_invariants {libs : Libs}
    (lines : list string) (r : Report) (lg : list string) :
  NewReport lines = (Some (Ok r), lg) →
  StronglySorted Z.lt (TimePts r)
  ∧ NoDup (TimePts r)
  ∧ (list_to_set (TimePts r) : gset Z) = dom (LineItems r)
  ∧ ∀ k lids, LineItems r !! k = Some lids →
              NoDup (UID <$> lids)
              ∧ ∀ it, it ∈ lids → Start it = k ∧ is_Some (BillPtr it).
Proof.
  intros ((Hs & Hnd & Hdom) & Hkeyed & H2 & Hbills)%NewReport_invariants.
  split; [done|]. split; [done|]. split; [done|].
  intros k lids Hl. split; [by eapply H2|].
  intros it Hit. split; [by eapply Hkeyed|by eapply Hbills].
Qed.

Lemma NewReport_report_invariants_witness :
  StronglySorted Z.lt (TimePts sampleReport)
  ∧ NoDup (TimePts sampleReport)
  ∧ (list_to_set (TimePts sampleReport) : gset Z) = dom (LineItems sampleReport)
  ∧ ∀ k lids, LineItems sampleReport !! k = Some lids →
              NoDup (UID <$> lids)
              ∧ ∀ it, it ∈ lids → Start it = k ∧ is_Some (BillPtr it).
Proof.
  apply (@NewReport_report_invariants sampleLibs sampleLines sampleReport []).
  vm_compute; reflexivity.
Defined.

Lemma GroupBy_loaded {libs : Libs} lines r lg lg' fields s e :
  NewReport lines = (Some (Ok r), lg) →
  ∃ res lines', GroupBy fields s e (mkWorld r lg') = (Some res, mkWorld r (lg' ++ lines')).
Proof.
  intros (_ & _ & _ & Hbills)%NewReport_invariants.
  rewrite GroupBy_safe; [by eexists _, _|]. simpl.
  apply Forall_forall. intros it (k & lids & Hl & Hit)%window_stored.
  left. by eapply Hbills.
Qed.

(** X21.  On a report that [NewReport] returned, [GroupBy] never panics,
    whatever the fields and the window: the payer account can be read on
    every item. *)
Theorem GroupBy_after_NewReport {libs : Libs}
    (lines : list string) (r : Report) (lg lg' : list string)
    (fields : list string) (s e : Time) :
  NewReport lines = (Some (Ok r), lg) →
  ∃ res lines', GroupBy fields s e (mkWorld r lg') = (Some res, mkWorld r (lg' ++ lines')).
Proof. apply GroupBy_loaded. Qed.

Lemma GroupBy_after_NewReport_witness :
  ∃ res lines',
    GroupBy ["bill/PayerAccountId"; "lineItem/ProductCode"] 0 1600000000
      (mkWorld sampleReport [])
    = (Some res, mkWorld sampleReport ([] ++ lines')).
Proof.
  apply (@GroupBy_after_NewReport sampleLibs sampleLines sampleReport [] []).
  vm_compute; reflexivity.
Defined.

(** X22.  No row can fill the availability zone, the usage amount, the
    usage account or the usage type of an item: on every item of a report
    that [NewReport] returned they are empty or zero, so grouping such a
    report by the usage account or by the usage type gives no key but the
    empty string. *)
Theorem loaded_items_blank {libs : Libs}
    (lines : list string) (r : Report) (lg : list string) :
  NewReport lines = (Some (Ok r), lg) →
  (∀ k lids it, LineItems r !! k = Some lids → it ∈ lids → blankFields it)
  ∧ ∀ field s e lg',
      field = "lineItem/UsageAccountId" ∨ field = "lineItem/UsageType" →
      ∃ res, fst (GroupBy [field] s e (mkWorld r lg')) = Some res
             ∧ ∀ key, is_Some (res !! key) → key = "".
Proof.
  intros Hnew.
  assert (allItems blankFields r) as Hblank.
  { unfold NewReport in Hnew.
    destruct (NewReport_rows_blank (headerIndex (Split (hd "" lines) ",") 0 ∅)
                (tl lines) (mkWorld emptyReport []))
      as (res & ls & lg0 & Hrun & Hls).
    rewrite Hrun in Hnew. destruct res as [[[]|err]|]; simplify_eq/=.
    apply foldl_added_allItems; [done|apply emptyReport_allItems]. }
  split; [exact Hblank|].
  intros field s e lg' Hfield.
  assert (∀ it, it ∈ window r s e → specKey [field] it = Some "") as Hkey.
  { intros it (k & lids & Hl & Hit)%window_stored.
    destruct (Hblank k lids it Hl Hit) as (_ & _ & Hid & Hut).
    destruct Hfield as [-> | ->]; unfold specKey, specKeyParts; simpl;
      by rewrite ?Hid, ?Hut. }
  rewrite GroupBy_run.
  - eexists; split; [done|]. intros key. simpl.
    rewrite foldl_accumulate_is_Some, lookup_empty.
    intros [[? ?]|(item & Hin & _ & Hk)]; [done|].
    rewrite (Hkey item Hin) in Hk. congruence.
  - apply Forall_forall. intros it Hit. simpl in Hit.
    rewrite (Hkey it Hit). by eexists.
Qed.

Lemma loaded_items_blank_witness :
  blankFields sampleDecoded
  ∧ ∃ res, fst (GroupBy ["lineItem/UsageType"] 0 1600000000
                  (mkWorld sampleReport [])) = Some res
           ∧ ∀ key, is_Some (res !! key) → key = "".
Proof.
  destruct (@loaded_items_blank sampleLibs sampleLines sampleReport [])
    as [Hblank Hgroup].
  - vm_compute; reflexivity.
  - split.
    + apply (Hblank 1588291200 [sampleDecoded]).
      * vm_compute; reflexivity.
      * apply list_elem_of_here.
    + apply Hgroup. by right.
Defined.

(** ** The earlier revision: the identity index *)

Lemma AddLineItemID_run l w :
  ∃ lg, Earlier.AddLineItemID l w = (Some (), mkWorld (addedID l (store w)) lg).
Proof.
  unfold addedID.
  destruct (Earlier.LineItemIDs (store w) !! Earlier.Start l) as [lids|] eqn:Hm.
  - by eapply AddLineItemID_existing.
  - rewrite AddLineItemID_fresh by done. by eexists.
Qed.

Lemma addedID_invariant l i : identityInvariant i → identityInvariant (addedID l i).
Proof.
  intros (Hs & Hkeys & Hone). unfold addedID.
  destruct (Earlier.LineItemIDs i !! Earlier.Start l) as [lids|] eqn:Hm; [done|].
  assert (Earlier.Start l ∉ Earlier.TimePts i).
  { rewrite Hkeys, Hm. by intros [? ?]. }
  split; [by apply placed_sorted|]. simpl. split.
  - intros k. rewrite elem_of_placed, Hkeys.
    destruct (decide (k = Earlier.Start l)) as [->|Hne].
    + rewrite lookup_insert_eq. split; eauto.
    + rewrite lookup_insert_ne by done. split; [|by right]. by intros [?|?].
  - intros k lids. destruct (decide (k = Earlier.Start l)) as [->|Hne].
    + rewrite lookup_insert_eq. intros [= <-]. by exists l.
    + rewrite lookup_insert_ne by done. apply Hone.
Qed.

(** X23.  In the earlier revision, any sequence of [AddLineItemID] calls on
    a new identity index runs to its end and leaves the index strictly
    ascending and equal to the key set of the map, with exactly one
    identity in each bucket, the one that starts at the bucket's key: an
    identity whose start is already a key is never stored. *)
Theorem Identity_index_invariant
    (ls : list Earlier.LineItemID) (lg : list string) :
  ∃ w, ingestIDs ls (mkWorld Earlier.NewIdentity lg) = (Some (), w)
    ∧ StronglySorted Z.lt (Earlier.TimePts (store w))
    ∧ (∀ k, k ∈ Earlier.TimePts (store w)
            ↔ is_Some (Earlier.LineItemIDs (store w) !! k))
    ∧ ∀ k lids, Earlier.LineItemIDs (store w) !! k = Some lids →
                ∃ x, lids = [x] ∧ Earlier.Start x = k.
Proof.
  assert (∀ w, identityInvariant (store w) →
               ∃ w', ingestIDs ls w = (Some (), w') ∧ identityInvariant (store w'))
    as Hrun.
  { induction ls as [|l rest IH]; intros w Hw; simpl.
    - by exists w.
    - unfold bind. destruct (AddLineItemID_run l w) as (lg' & ->).
      apply IH. simpl. by apply addedID_invariant. }
  destruct (Hrun (mkWorld Earlier.NewIdentity lg)) as (w' & Hw' & Hinv).
  - split; [constructor|]. simpl. split.
    + intros k. rewrite lookup_empty. split; [by intros ?%elem_of_nil|by intros [? ?]].
    + intros k lids. by rewrite lookup_empty.
  - by exists w'.
Qed.

(** ** main: the query of the program *)

(** X24.  When the load succeeds, [main] returns the sums without panic
    and its query logs nothing; the keys of the result are the product
    code and the operation, joined by an underscore, of the loaded items
    of strictly positive cost whose interval overlaps the window.  When
    the load fails, [main] ends with the load's error. *)
Theorem main_result {libs : Libs}
    (windowStart windowEnd : Time) (lines : list string) :
  (∀ r lg, NewReport lines = (Some (Ok r), lg) →
     ∃ res items,
       main windowStart windowEnd lines = (Some (Ok res), lg)
       ∧ FilterByTime windowStart windowEnd (mkWorld r lg) = (Some items, mkWorld r lg)
       ∧ ∀ key, is_Some (res !! key)
                ↔ ∃ item, item ∈ items
                          ∧ (0 <? UnblendedCost item)%float = true
                          ∧ key = ProductCode item +:+ "_" +:+ Operation item)
  ∧ (∀ err lg, NewReport lines = (Some (Err err), lg) →
       main windowStart windowEnd lines = (Some (Err err), lg)).
Proof.
  split.
  - intros r lg Hnew. unfold main. rewrite Hnew.
    destruct (GroupBy_loaded lines r lg lg
                ["lineItem/ProductCode"; "lineItem/Operation"]
                windowStart windowEnd Hnew) as (res & lines' & Hrun).
    pose proof (GroupBy_items_recognized (window r windowStart windowEnd)
                  ["lineItem/ProductCode"; "lineItem/Operation"] ∅
                  (mkWorld r lg)) as Hquiet.
    pose proof Hrun as Hrun'.
    unfold GroupBy, bind in Hrun'. rewrite FilterByTime_run in Hrun'.
    simpl in Hrun'. rewrite Hrun' in Hquiet. simpl in Hquiet.
    rewrite Hrun. rewrite Hquiet.
    2:{ repeat constructor; unfold recognizedNames;
        repeat first [apply list_elem_of_here | apply list_elem_of_further]. }
    simpl. exists res, (window r windowStart windowEnd).
    split; [done|]. split; [apply FilterByTime_run|].
    assert (fst (GroupBy ["lineItem/ProductCode"; "lineItem/Operation"]
                   windowStart windowEnd (mkWorld r lg)) = Some res) as Hres
      by (by rewrite Hrun).
    apply GroupBy_returns in Hres as [_ ->]. intros key. simpl.
    rewrite foldl_accumulate_is_Some, lookup_empty. split.
    + intros [[? ?]|(item & Hin & Hpos & Hk)]; [done|].
      exists item. split; [done|]. split; [done|].
      unfold specKey, specKeyParts in Hk. simpl in Hk. congruence.
    + intros (item & Hin & Hpos & ->). right. by exists item.
  - intros err lg Hnew. unfold main. by rewrite Hnew.
Qed.

Lemma main_result_witness :
  ∃ res, @main sampleLibs 1588291200 1590969600 sampleLines = (Some (Ok res), [])
         ∧ is_Some (res !! "AmazonEC2_RunInstances").
Proof.
  destruct (proj1 (@main_result sampleLibs 1588291200 1590969600 sampleLines)
              sampleReport []) as (res & items & Hmain & Hitems & Hkeys).
  - vm_compute; reflexivity.
  - exists res. split; [exact Hmain|]. apply Hkeys.
    rewrite FilterByTime_run in Hitems. injection Hitems as <-.
    exists sampleDecoded. split; [|split; vm_compute; reflexivity].
    vm_compute. apply list_elem_of_here.
Defined.
